(** * TerrariaSteamDeckServer web backend: lifecycle coordinator

    A shallow embedding of the Flask backend under [web/backend]:
    - [utils.py]: [format_bytes], [run_script], [run_command],
      [is_server_running], [strip_ansi_codes], [get_file_info];
    - [routes/backups_routes.py]: [parse_backup_filename], [list_backups],
      [create_backup], [restore_backup], [delete_backup], [cleanup_backups];
    - [routes/worlds_routes.py]: the name sanitisation, [create_world],
      [delete_world], [copy_world];
    - [routes/server_routes.py]: [start_server], [stop_server],
      [restart_server];
    - [routes/logs_routes.py]: [get_log], [clear_log] and its own
      [format_bytes];
    - [app.py]: the answer of the 500 handler to an exception that a route
      lets escape.

    Conventions of the embedding.
    - A Python [str] is a [string]; an [ascii] stands for a code point below
      256.  On that range the class [\d] of [re] is exactly [0-9] and
      [str.lower] only moves [A-Z] and the Latin-1 capitals.
    - Patterns of [re] are terms of a small regular-expression type, matched
      by a backtracking search that lists the ways of matching in the order
      [re] tries them; [$] holds at the end of the text and in front of a
      newline that ends it, as in Python.
    - A Python [int] is a [Z].  A [float] is carried as the rational it
      denotes: [float(z)] keeps 53 bits, ties to even; dividing by [1024.0]
      only changes the exponent, so it is exact; the [.1f] conversion rounds
      the exact binary value to nearest, ties to even.
    - The filesystem, the process table and the programs started through
      [subprocess.run] form the host; handlers are state-passing functions
      over it which also record every program they start.  What a program
      does is left open: the properties hold for every behaviour of the
      programs. *)

From Stdlib Require Import ZArith QArith Qabs String Ascii List Sorted Lia.
From stdpp Require Import gmap strings list pretty.

Local Open Scope string_scope.
Local Open Scope list_scope.

(** ** Python strings *)

Module PyStr.

Definition code (c : ascii) : N := N_of_ascii c.

(** [lo <= c <= hi], a range of a character class. *)
Definition in_range (lo hi c : ascii) : bool :=
  (code lo <=? code c)%N && (code c <=? code hi)%N.

(** The class [[a-zA-Z0-9_-]]. *)
Definition name_class (c : ascii) : bool :=
  in_range "a" "z" c || in_range "A" "Z" c || in_range "0" "9" c
  || Ascii.eqb c "_" || Ascii.eqb c "-".

(** The class [\d]. *)
Definition digit_class (c : ascii) : bool := in_range "0" "9" c.

(** [re.sub(cls, '', s)] for a one-character class [cls]: every character
    of the class is replaced by the empty string. *)
Fixpoint re_sub_delete (cls : ascii -> bool) (s : string) : string :=
  match s with
  | EmptyString => EmptyString
  | String c s' =>
      if cls c then re_sub_delete cls s' else String c (re_sub_delete cls s')
  end.

(** [re.sub(r'[^a-zA-Z0-9_-]', '', name)] *)
Definition sanitize (name : string) : string :=
  re_sub_delete (fun c => negb (name_class c)) name.

(** The 64 characters of [[A-Za-z0-9_-]], written out. *)
Definition name_alphabet : string :=
  "ABCDEFGHIJKLMNOPQRSTUVWXYZabcdefghijklmnopqrstuvwxyz0123456789_-".

Definition chars (s : string) : list ascii := list_ascii_of_string s.

(** [str.lower] on code points below 256. *)
Definition lower_char (c : ascii) : ascii :=
  if in_range "A" "Z" c
     || ((192 <=? code c)%N && (code c <=? 222)%N && negb (code c =? 215)%N)
  then ascii_of_N (code c + 32) else c.

Fixpoint lower (s : string) : string :=
  match s with
  | EmptyString => EmptyString
  | String c s' => String (lower_char c) (lower s')
  end.

(** [str.isspace] on code points below 256. *)
Definition is_space (c : ascii) : bool :=
  ((9 <=? code c)%N && (code c <=? 13)%N)
  || ((28 <=? code c)%N && (code c <=? 32)%N)
  || (code c =? 133)%N || (code c =? 160)%N.

Fixpoint lstrip (s : string) : string :=
  match s with
  | EmptyString => EmptyString
  | String c s' => if is_space c then lstrip s' else s
  end.

Definition rev_string (s : string) : string :=
  string_of_list_ascii (rev (list_ascii_of_string s)).

(** [s.strip()] *)
Definition strip (s : string) : string :=
  rev_string (lstrip (rev_string (lstrip s))).

(** Truth value of a [str]: non-empty. *)
Definition truthy (s : string) : bool :=
  match s with EmptyString => false | _ => true end.

(** Whether [s] begins with [p]. *)
Fixpoint is_prefix (p s : string) : bool :=
  match p, s with
  | EmptyString, _ => true
  | String a p', String b s' => Ascii.eqb a b && is_prefix p' s'
  | String _ _, EmptyString => false
  end.

(** [s.startswith(p)] *)
Definition startswith (s p : string) : bool := is_prefix p s.

(** [s.endswith(p)] *)
Definition endswith (s p : string) : bool :=
  is_prefix (rev_string p) (rev_string s).

(** [needle in s] *)
Fixpoint contains (needle s : string) : bool :=
  is_prefix needle s ||
  match s with
  | EmptyString => false
  | String _ s' => contains needle s'
  end.

End PyStr.

(** ** A backtracking matcher for the fragment of [re] the backend uses *)

Module Regex.
Import PyStr.

(** The text being scanned, one code point per element. *)
Definition text := list ascii.

Inductive re : Type :=
| Lit (s : string)              (* literal characters *)
| Cls (p : ascii -> bool)       (* one character of a class *)
| Rep (n : nat) (r : re)        (* r{n} *)
| Plus (p : ascii -> bool)      (* cls+, greedy *)
| Star (p : ascii -> bool)      (* cls*, greedy *)
| Alt (r1 r2 : re)              (* r1|r2 *)
| Opt (r : re)                  (* (?:r)?, greedy *)
| Grp (r : re)                  (* (r), capturing *)
| Cat (r1 r2 : re)
| Eos.                          (* $ *)

(** One way of matching: the groups closed so far, in opening order, and the
    text that is left. *)
Definition way : Type := list text * text.

Fixpoint strip_prefix (p s : text) : option text :=
  match p, s with
  | [], _ => Some s
  | a :: p', b :: s' => if Ascii.eqb a b then strip_prefix p' s' else None
  | _ :: _, [] => None
  end.

(** Greedy [cls+]: the longest run first, then each shorter one. *)
Fixpoint plus_ways (p : ascii -> bool) (s : text) : list way :=
  match s with
  | [] => []
  | c :: s' => if p c then plus_ways p s' ++ [([], s')] else []
  end.

(** Greedy [cls*]: as [cls+], and last of all the empty run. *)
Definition star_ways (p : ascii -> bool) (s : text) : list way :=
  plus_ways p s ++ [([], s)].

(** [n] matches of [f] in a row. *)
Fixpoint rep_ways (f : text -> list way) (n : nat) (s : text) : list way :=
  match n with
  | O => [([], s)]
  | S n' =>
      flat_map (fun w1 : way =>
                  map (fun w2 : way => (fst w1 ++ fst w2, snd w2))
                      (rep_ways f n' (snd w1)))
               (f s)
  end.

(** What was read between [s] and the remainder [s']. *)
Definition consumed (s s' : text) : text :=
  take (length s - length s') s.

(** All the ways [r] matches at the start of [s], in the order in which the
    backtracking search of [re] tries them. *)
Fixpoint ways (r : re) (s : text) : list way :=
  match r with
  | Lit l =>
      match strip_prefix (chars l) s with
      | Some s' => [([], s')]
      | None => []
      end
  | Cls p =>
      match s with
      | c :: s' => if p c then [([], s')] else []
      | [] => []
      end
  | Rep n r1 => rep_ways (ways r1) n s
  | Plus p => plus_ways p s
  | Star p => star_ways p s
  | Alt r1 r2 => ways r1 s ++ ways r2 s
  | Opt r1 => ways r1 s ++ [([], s)]
  | Grp r1 =>
      map (fun w : way => (consumed s (snd w) :: fst w, snd w)) (ways r1 s)
  | Cat r1 r2 =>
      flat_map (fun w1 : way =>
                  map (fun w2 : way => (fst w1 ++ fst w2, snd w2))
                      (ways r2 (snd w1)))
               (ways r1 s)
  | Eos =>
      match s with
      | [] => [([], s)]
      | [c] => if Ascii.eqb c "010" then [([], s)] else []
      | _ => []
      end
  end.

(** [re.match(r, s)]: the groups of the first way that succeeds. *)
Definition re_match (r : re) (s : string) : option (list string) :=
  match ways r (chars s) with
  | w :: _ => Some (map string_of_list_ascii (fst w))
  | [] => None
  end.

(** The scan of [re.sub(r, '', s)] for a pattern [r] that matches no empty
    text: where [r] matches, what it read is dropped and the scan resumes
    behind it; elsewhere one character is copied.  Every step reads at least
    one character, so [length s] steps are enough. *)
Fixpoint sub_scan (steps : nat) (r : re) (s : text) : text :=
  match steps, s with
  | S n, c :: s' =>
      match ways r s with
      | w :: _ =>
          if (length (snd w) <? length s)%nat then sub_scan n r (snd w)
          else c :: sub_scan n r s'
      | [] => c :: sub_scan n r s'
      end
  | _, _ => s
  end.

Definition re_sub_empty (r : re) (s : string) : string :=
  string_of_list_ascii (sub_scan (String.length s) r (chars s)).

(** [.] matches everything but a newline. *)
Definition dot (c : ascii) : bool := negb (Ascii.eqb c "010").

End Regex.

(** ** [routes/backups_routes.py]: backup file names *)

Module BackupName.
Import PyStr Regex.

Record parsed : Type := Parsed {
  world_name : string;
  date : string;
  time : string
}.

(** [r'backup_(.+)_(\d{8})_(\d{6})\.tar(?:\.gz)?$'] *)
Definition backup_re : re :=
  Cat (Lit "backup_")
 (Cat (Grp (Plus dot))
 (Cat (Lit "_")
 (Cat (Grp (Rep 8 (Cls digit_class)))
 (Cat (Lit "_")
 (Cat (Grp (Rep 6 (Cls digit_class)))
 (Cat (Lit ".tar")
 (Cat (Opt (Lit ".gz"))
      Eos))))))).

Definition parse_backup_filename (filename : string) : option parsed :=
  match re_match backup_re filename with
  | Some [g1; g2; g3] => Some (Parsed g1 g2 g3)
  | _ => None
  end.

(** The archive suffix a file name carries. *)
Definition tar_suffix (filename : string) : string :=
  if endswith filename ".tar.gz" then ".tar.gz" else ".tar".

(** [backup_<world>_<date>_<time>] followed by the suffix of [filename]. *)
Definition resynthesize (p : parsed) (filename : string) : string :=
  "backup_" +:+ world_name p +:+ "_" +:+ date p +:+ "_" +:+ time p
  +:+ tar_suffix filename.

End BackupName.

(** ** Python numbers, slices and paths *)

Module PyNum.
Import PyStr.

Definition Qlt_bool (x y : Q) : bool := negb (Qle_bool y x).

(** Nearest integer to a rational, ties to the even neighbour. *)
Definition round_half_even (q : Q) : Z :=
  let n := Qnum q in
  let d := Z.pos (Qden q) in
  let fl := (n / d)%Z in
  match (2 * (n mod d) ?= d)%Z with
  | Lt => fl
  | Gt => (fl + 1)%Z
  | Eq => if Z.even fl then fl else (fl + 1)%Z
  end.

(** [f"{x:.1f}"]: sign, integer part, one rounded decimal. *)
Definition format_1f (x : Q) : string :=
  let t := round_half_even (Qabs x * 10) in
  (if Qlt_bool x 0 then "-" else "")
  +:+ pretty (Z.to_N (t / 10)) +:+ "." +:+ pretty (Z.to_N (t mod 10)).

(** A number at run time: an [int] or a [float]. *)
Inductive num : Type :=
| PInt (z : Z)
| PFloat (x : Q).

(** [float(z)]: the nearest binary64, ties to even.  Below [2^53] every
    integer is a binary64; above, 53 bits are kept.  (From [2^1024] on
    Python raises [OverflowError]; the sizes of files and disks are far
    below.) *)
Definition float_of_int (z : Z) : Q :=
  let a := Z.abs z in
  if (a <? 2 ^ 53)%Z then inject_Z z
  else
    let e := (Z.log2 a - 52)%Z in
    inject_Z (Z.sgn z * (round_half_even (a # Z.to_pos (2 ^ e)) * 2 ^ e)).

Definition as_float (v : num) : Q :=
  match v with
  | PInt z => float_of_int z
  | PFloat x => x
  end.

(** [abs(v) < 1024.0]; an [int] is compared exactly. *)
Definition abs_lt_1024 (v : num) : bool :=
  match v with
  | PInt z => (Z.abs z <? 1024)%Z
  | PFloat x => Qlt_bool (Qabs x) 1024
  end.

(** [v / 1024.0]: always a [float]; dividing a binary64 of magnitude at
    least 1024 by a power of two is exact. *)
Definition div_1024 (v : num) : num := PFloat (as_float v / 1024).

(** Where an optional slice bound lands in a list of length [len]. *)
Definition slice_bound (len : Z) (dflt : Z) (i : option Z) : Z :=
  match i with
  | None => dflt
  | Some i => if (i <? 0)%Z then Z.max (i + len) 0 else Z.min i len
  end.

(** [l[start:stop]] *)
Definition py_slice {A : Type} (l : list A) (start stop : option Z) : list A :=
  let len := Z.of_nat (length l) in
  let lo := slice_bound len 0 start in
  let hi := slice_bound len len stop in
  take (Z.to_nat (hi - lo)) (drop (Z.to_nat lo) l).

Fixpoint digits_value (acc : Z) (after_digit : bool) (s : string) : option Z :=
  match s with
  | EmptyString => if after_digit then Some acc else None
  | String c s' =>
      if digit_class c
      then digits_value (10 * acc + Z.of_N (code c - 48)) true s'
      else if Ascii.eqb c "_" && after_digit
           then match s' with
                | EmptyString => None
                | String c' _ =>
                    if digit_class c' then digits_value acc false s' else None
                end
           else None
  end.

(** The white space [int] skips around a number: the ASCII white space of
    C ([\t\n\v\f\r] and the space) and, above ASCII, the Unicode spaces,
    which are U+0085 and U+00A0 below 256.  The separators U+001C to U+001F,
    white space for [str.strip], are not skipped. *)
Definition int_space (c : ascii) : bool :=
  ((9 <=? code c)%N && (code c <=? 13)%N)
  || (code c =? 32)%N || (code c =? 133)%N || (code c =? 160)%N.

Fixpoint int_lstrip (s : string) : string :=
  match s with
  | EmptyString => EmptyString
  | String c s' => if int_space c then int_lstrip s' else s
  end.

Definition int_strip (s : string) : string :=
  rev_string (int_lstrip (rev_string (int_lstrip s))).

(** [int(s)] for a [str], [None] where it raises [ValueError]. *)
Definition py_int (s : string) : option Z :=
  match int_strip s with
  | String "-" s' => Z.opp <$> digits_value 0 false s'
  | String "+" s' => digits_value 0 false s'
  | s' => digits_value 0 false s'
  end.

End PyNum.

Module OsPath.
Import PyStr.

(** [os.path.join(a, b)] *)
Definition join (a b : string) : string :=
  if startswith b "/" then b
  else if String.eqb a "" || endswith a "/" then a +:+ b
  else a +:+ "/" +:+ b.

Fixpoint basename_from (acc : string) (s : string) : string :=
  match s with
  | EmptyString => acc
  | String c s' =>
      if Ascii.eqb c "/" then basename_from s' s' else basename_from acc s'
  end.

(** [os.path.basename(p)]: what follows the last slash. *)
Definition basename (p : string) : string := basename_from p p.

End OsPath.

(** ** [utils.py] and [routes/logs_routes.py]: human-readable sizes *)

Module Units.
Import PyNum.

(** The body both formatters share:
    [for unit in units: if abs(size) < 1024.0: return f"{size:.1f}{unit}";
    size /= 1024.0] and the closing [return] with the last unit. *)
Fixpoint format_loop (units : list string) (last : string) (size : num) : string :=
  match units with
  | [] => format_1f (as_float size) +:+ last
  | unit :: units' =>
      if abs_lt_1024 size then format_1f (as_float size) +:+ unit
      else format_loop units' last (div_1024 size)
  end.

End Units.

Module Utils.
Import PyNum.

(** [utils.format_bytes] *)
Definition format_bytes (size : Z) : string :=
  Units.format_loop ["B"; "KB"; "MB"; "GB"; "TB"] "PB" (PInt size).

End Utils.

Module LogsFormat.
Import PyNum.

(** [logs_routes.format_bytes] *)
Definition format_bytes (size : Z) : string :=
  Units.format_loop ["B"; "KB"; "MB"; "GB"] "TB" (PInt size).

End LogsFormat.

(** ** The host: filesystem, processes, programs; requests and responses *)

Module Host.
Import PyStr.

(** JSON values, for request bodies and [jsonify]. A [dict] is an association
    list read from the left. *)
#[local] Unset Elimination Schemes.
Inductive json : Type :=
| JNull
| JBool (b : bool)
| JNum (z : Z)
| JReal (x : Q)
| JStr (s : string)
| JList (items : list json)
| JObj (fields : list (string * json)).
#[local] Set Elimination Schemes.

(** Truth value of a decoded JSON value. *)
Definition json_truthy (v : json) : bool :=
  match v with
  | JNull => false
  | JBool b => b
  | JNum z => negb (z =? 0)%Z
  | JReal x => negb (Qeq_bool x 0)
  | JStr s => truthy s
  | JList items => match items with [] => false | _ => true end
  | JObj fields => match fields with [] => false | _ => true end
  end.

Fixpoint assoc (k : string) (fields : list (string * json)) : option json :=
  match fields with
  | [] => None
  | (k', v) :: fields' => if String.eqb k k' then Some v else assoc k fields'
  end.

(** [d.get(k, dflt)] *)
Definition dict_get (fields : list (string * json)) (k : string) (dflt : json) : json :=
  default dflt (assoc k fields).

(** What [os.stat] sees at a path, and the text of a regular file. *)
Record node : Type := Node {
  is_dir : bool;
  st_size : Z;
  st_mtime : Q;
  st_ctime : Q;
  content : string
}.

(** The machine the backend runs on: paths to nodes, and the command lines
    of the running processes. *)
Record host : Type := MkHost {
  fs : gmap string node;
  procs : list string
}.

(** How [subprocess.run] ends. *)
Inductive outcome : Type :=
| Exited (returncode : Z) (stdout stderr : string)
| TimeoutExpired
| Raised (msg : string).

(** The programs of the host: what running [argv] under a timeout does to
    the host and how it ends.  The backend knows nothing else about them. *)
Class Subprocess : Type :=
  spawn : list string -> Z -> host -> outcome * host.

Inductive event : Type :=
| Spawned (argv : list string).

Record machine : Type := Machine {
  m_host : host;
  m_trace : list event
}.

(** Handlers thread the machine. *)
Definition M (A : Type) : Type := machine -> A * machine.

#[global] Instance M_ret : MRet M := fun A (x : A) (m : machine) => (x, m).

#[global] Instance M_bind : MBind M :=
  fun A B (f : A -> M B) (c : M A) (m : machine) =>
    let '(a, m') := c m in f a m'.

(** The events a run from [m] to [m'] added. *)
Definition events_since (m m' : machine) : list event :=
  drop (length (m_trace m)) (m_trace m').

(** [os.path.exists(p)] *)
Definition os_path_exists (p : string) : M bool :=
  fun m => (bool_decide (is_Some (fs (m_host m) !! p)), m).

(** [os.stat(p)] *)
Definition os_stat (p : string) : M (option node) :=
  fun m => (fs (m_host m) !! p, m).

(** [os.remove(p)]: [Some msg] stands for the exception raised. *)
Definition os_remove (p : string) : M (option string) :=
  fun m =>
    match fs (m_host m) !! p with
    | None => (Some ("[Errno 2] No such file or directory: '" +:+ p +:+ "'"), m)
    | Some n =>
        if is_dir n
        then (Some ("[Errno 21] Is a directory: '" +:+ p +:+ "'"), m)
        else (None,
              Machine (MkHost (delete p (fs (m_host m))) (procs (m_host m)))
                      (m_trace m))
    end.

Definition dir_prefix (d : string) : string :=
  if String.eqb d "" || endswith d "/" then d else d +:+ "/".

Fixpoint drop_prefix (p s : string) : option string :=
  match p, s with
  | EmptyString, _ => Some s
  | String a p', String b s' => if Ascii.eqb a b then drop_prefix p' s' else None
  | String _ _, EmptyString => None
  end.

(** The name under which [path] appears in directory [d], if it lies
    directly inside. *)
Definition entry_name (d path : string) : option string :=
  match drop_prefix (dir_prefix d) path with
  | Some name => if truthy name && negb (contains "/" name) then Some name else None
  | None => None
  end.

(** [os.listdir(d)]: the names directly inside the directory [d], in the
    order of the map; [inl msg] stands for the exception raised when [d] is
    missing or is not a directory. *)
Definition os_listdir (d : string) : M (string + list string) :=
  fun m => (match fs (m_host m) !! d with
            | Some n =>
                if is_dir n
                then inr (omap (fun kv : string * node => entry_name d (fst kv))
                               (map_to_list (fs (m_host m))))
                else inl ("[Errno 20] Not a directory: '" +:+ d +:+ "'")
            | None => inl ("[Errno 2] No such file or directory: '" +:+ d +:+ "'")
            end, m).

Fixpoint split_lines (cur : string) (s : string) : list string :=
  match s with
  | EmptyString => if truthy cur then [cur] else []
  | String c s' =>
      if Ascii.eqb c "010"
      then (cur +:+ String c EmptyString) :: split_lines EmptyString s'
      else split_lines (cur +:+ String c EmptyString) s'
  end.

(** [f.readlines()] of a text already decoded with universal newlines: each
    line keeps its ["\n"]. *)
Definition readlines (text : string) : list string := split_lines EmptyString text.

(** [open(p).readlines()]: [inl msg] stands for the exception raised. *)
Definition read_all_lines (p : string) : M (string + list string) :=
  fun m => (match fs (m_host m) !! p with
            | Some n =>
                if is_dir n then inl ("[Errno 21] Is a directory: '" +:+ p +:+ "'")
                else inr (readlines (content n))
            | None => inl ("[Errno 2] No such file or directory: '" +:+ p +:+ "'")
            end, m).

(** A Flask request: query string and decoded JSON body. *)
Record request : Type := Request {
  args : gmap string string;
  json_body : option json
}.

(** [request.args.get(k, dflt)] *)
Definition args_get (req : request) (k dflt : string) : string :=
  default dflt (args req !! k).

(** [request.args.get(k, dflt, type=int)] *)
Definition args_get_int (req : request) (k : string) (dflt : Z) : Z :=
  match args req !! k with
  | Some s => default dflt (PyNum.py_int s)
  | None => dflt
  end.

(** [request.args.get(k, type=int)] *)
Definition args_get_int_opt (req : request) (k : string) : option Z :=
  args req !! k ≫= PyNum.py_int.

(** [jsonify(body), status] *)
Record response : Type := Response {
  status : Z;
  body : json
}.

(** What Flask answers when a handler lets an exception escape. *)
Definition internal_server_error : response :=
  Response 500 (JObj [("error", JStr "Internal Server Error");
                      ("message", JStr "An unexpected error occurred")]).

(** [config.Config], read from the environment when the module loads. *)
Record config : Type := Config {
  WORLD_DIR : string;
  BACKUP_DIR : string;
  LOG_DIR : string;
  SCRIPTS_DIR : string;
  WORLD_NAME : string;
  BACKUP_RETENTION : Z
}.

Definition WORLD_MANAGER_SCRIPT (cfg : config) : string :=
  OsPath.join (SCRIPTS_DIR cfg) "world-manager.sh".
Definition BACKUP_SCRIPT (cfg : config) : string :=
  OsPath.join (SCRIPTS_DIR cfg) "backup.sh".
Definition RESTORE_SCRIPT (cfg : config) : string :=
  OsPath.join (SCRIPTS_DIR cfg) "restore.sh".

(** The configuration when no variable is set. *)
Definition default_config : config :=
  Config "/terraria/worlds" "/terraria/backups" "/terraria/logs"
         "/terraria/scripts" "world" 48.

End Host.

(** ** [utils.py] *)

Module UtilsIO.
Import PyStr Regex Host.

Section WithPrograms.
Context `{Subprocess}.

(** The [try] of [run_command] and [run_script] around [subprocess.run]:
    start [cmd], record it, and turn the way it ends into
    [(success, stdout, stderr)]. *)
Definition subprocess_run (what : string) (cmd : list string) (timeout : Z)
  : M (bool * string * string) :=
  fun m =>
    let '(o, h') := spawn cmd timeout (m_host m) in
    (match o with
     | Exited rc out err => ((rc =? 0)%Z, out, err)
     | TimeoutExpired =>
         (false, "", what +:+ " timed out after " +:+ pretty timeout +:+ " seconds")
     | Raised msg => (false, "", msg)
     end,
     Machine h' (m_trace m ++ [Spawned cmd])).

(** [run_script(script_path, args, timeout)] *)
Definition run_script (script_path : string) (args : list string) (timeout : Z)
  : M (bool * string * string) :=
  found ← os_path_exists script_path;
  if negb found then mret (false, "", "Script not found: " +:+ script_path)
  else subprocess_run "Script" (script_path :: args) timeout.

(** [run_command(cmd, timeout)] *)
Definition run_command (cmd : list string) (timeout : Z)
  : M (bool * string * string) :=
  subprocess_run "Command" cmd timeout.

(** The probe of the process table. *)
Definition pgrep_server : list string := ["pgrep"; "-f"; "TerrariaServer"].

(** [is_server_running()]: the truth value of [success and stdout.strip()]. *)
Definition is_server_running : M bool :=
  '(success, stdout, _) ← run_command pgrep_server 30;
  mret (success && truthy (strip stdout)).

End WithPrograms.

Definition esc : string := String "027" EmptyString.

(** [r'\x1B(?:[@-Z\\-_]|\[[0-?]*[ -/]*[@-~])'] *)
Definition ansi_escape : re :=
  Cat (Lit esc)
      (Alt (Cls (fun c => in_range "@" "Z" c || in_range "\" "_" c))
           (Cat (Lit "[")
           (Cat (Star (in_range "0" "?"))
           (Cat (Star (in_range " " "/"))
                (Cls (in_range "@" "~")))))).

(** [strip_ansi_codes(text)] *)
Definition strip_ansi_codes (text : string) : string :=
  re_sub_empty ansi_escape text.

(** The [dict] of [get_file_info]. *)
Record file_info : Type := FileInfo {
  path : string;
  name : string;
  size_bytes : Z;
  size_human : string;
  modified : Q;
  created : Q
}.

(** [get_file_info(filepath)] *)
Definition get_file_info (filepath : string) : M (option file_info) :=
  found ← os_path_exists filepath;
  if negb found then mret None
  else
    st ← os_stat filepath;
    mret (match st with
          | Some n =>
              Some (FileInfo filepath (OsPath.basename filepath) (st_size n)
                             (Utils.format_bytes (st_size n))
                             (st_mtime n) (st_ctime n))
          | None => None
          end).

(** [a or b] on strings. *)
Definition str_or (a b : string) : string := if truthy a then a else b.

End UtilsIO.

(** ** [routes/backups_routes.py] *)

Module BackupsRoutes.
Import PyStr Host UtilsIO BackupName.

(** One item of the ['backups'] list. *)
Record backup_entry : Type := BackupEntry {
  b_filename : string;
  b_world_name : string;
  b_date : string;
  b_time : string;
  b_size_bytes : Z;
  b_size : string;
  b_created : Q
}.

(** Where [x] goes in a list already in descending order of [b_created]:
    behind every item that is not older, so that equal keys stay in their
    first order. *)
Fixpoint insert_desc (x : backup_entry) (l : list backup_entry) : list backup_entry :=
  match l with
  | [] => [x]
  | y :: l' =>
      if Qle_bool (b_created x) (b_created y) then y :: insert_desc x l'
      else x :: l
  end.

(** [backups.sort(key=lambda b: b['created'], reverse=True)], a stable sort. *)
Definition sort_newest_first (l : list backup_entry) : list backup_entry :=
  fold_left (fun acc x => insert_desc x acc) l [].

(** The test at the head of the loop of [list_backups]. *)
Definition looks_like_backup (filename : string) : bool :=
  startswith filename "backup_"
  && (endswith filename ".tar.gz" || endswith filename ".tar").

Definition entry_to_json (b : backup_entry) : json :=
  JObj [("filename", JStr (b_filename b)); ("world_name", JStr (b_world_name b));
        ("date", JStr (b_date b)); ("time", JStr (b_time b));
        ("size_bytes", JNum (b_size_bytes b)); ("size", JStr (b_size b));
        ("created", JReal (b_created b))].

(** What [list_backups] hands to [jsonify]. *)
Record backup_listing : Type := BackupListing {
  l_backups : list backup_entry;
  l_count : Z;
  l_total_size : string;
  l_total_size_bytes : Z;
  l_retention : Z
}.

Definition listing_to_json (l : backup_listing) : json :=
  JObj [("backups", JList (map entry_to_json (l_backups l)));
        ("count", JNum (l_count l));
        ("total_size", JStr (l_total_size l));
        ("total_size_bytes", JNum (l_total_size_bytes l));
        ("retention", JNum (l_retention l))].

Definition invalid_filename : response :=
  Response 400 (JObj [("error", JStr "Invalid filename");
                      ("message", JStr "Invalid backup filename")]).

Definition backup_not_found (filename : string) : response :=
  Response 404 (JObj [("error", JStr "Backup not found");
                      ("message", JStr ("Backup '" +:+ filename +:+ "' does not exist"))]).

Section WithPrograms.
Context `{Subprocess} (cfg : config).

(** The loop of [list_backups] over the directory entries. *)
Fixpoint scan_backups (world_filter : string) (names : list string)
    (backups : list backup_entry) (total_size : Z)
  : M (list backup_entry * Z) :=
  match names with
  | [] => mret (backups, total_size)
  | filename :: names' =>
      if negb (looks_like_backup filename)
      then scan_backups world_filter names' backups total_size
      else
        match parse_backup_filename filename with
        | None => scan_backups world_filter names' backups total_size
        | Some parsed =>
            if truthy world_filter
               && negb (String.eqb (world_name parsed) world_filter)
            then scan_backups world_filter names' backups total_size
            else
              info ← get_file_info (OsPath.join (BACKUP_DIR cfg) filename);
              match info with
              | Some info =>
                  scan_backups world_filter names'
                    (backups ++
                     [BackupEntry filename (world_name parsed) (date parsed)
                                  (time parsed) (size_bytes info)
                                  (size_human info) (modified info)])
                    (total_size + size_bytes info)
              | None => scan_backups world_filter names' backups total_size
              end
        end
  end.

(** [list_backups()], up to [jsonify]; [inl msg] stands for the exception
    [os.listdir] raises, which the handler does not catch. *)
Definition list_backups_data (req : request) : M (string + backup_listing) :=
  let world_filter := args_get req "world" "" in
  let limit := args_get_int_opt req "limit" in
  found ← os_path_exists (BACKUP_DIR cfg);
  scanned ←
    (if (found : bool)
     then names ← os_listdir (BACKUP_DIR cfg);
          match names with
          | inl e => mret (inl e)
          | inr names =>
              scanned ← scan_backups world_filter names [] 0;
              mret (inr scanned)
          end
     else mret (inr ([], 0%Z))) : M (string + list backup_entry * Z);
  match scanned with
  | inl e => mret (inl e)
  | inr (backups, total_size) =>
      let backups := sort_newest_first backups in
      let backups :=
        match limit with
        | Some n =>
            if negb (n =? 0)%Z && (0 <? n)%Z
            then PyNum.py_slice backups None (Some n) else backups
        | None => backups
        end in
      mret (inr (BackupListing backups (Z.of_nat (length backups))
                               (Utils.format_bytes total_size) total_size
                               (BACKUP_RETENTION cfg)))
  end.

(** [list_backups()]: an exception that escapes is answered by the 500
    handler of the application. *)
Definition list_backups (req : request) : M response :=
  l ← list_backups_data req;
  match l with
  | inl _ => mret internal_server_error
  | inr l => mret (Response 200 (listing_to_json l))
  end.

(** [restore_backup(filename)] *)
Definition restore_backup (filename : string) (req : request) : M response :=
  if contains ".." filename || contains "/" filename then mret invalid_filename
  else
    let filepath := OsPath.join (BACKUP_DIR cfg) filename in
    found ← os_path_exists filepath;
    if negb found then mret (backup_not_found filename)
    else
      running ← is_server_running;
      if (running : bool)
      then mret (Response 400
                  (JObj [("error", JStr "Server running");
                         ("message", JStr "Stop the server before restoring a backup")]))
      else
        let args := ["restore"; filename; "--force"] in
        let no_backup := String.eqb (lower (args_get req "no_backup" "false")) "true" in
        let args := if no_backup then args ++ ["--no-backup"] else args in
        '(success, stdout, stderr) ← run_script (RESTORE_SCRIPT cfg) args 60;
        if (success : bool)
        then mret (Response 200
                    (JObj [("success", JBool true);
                           ("message", JStr "Backup restored successfully");
                           ("output", JStr (strip_ansi_codes stdout))]))
        else mret (Response 500
                    (JObj [("success", JBool false);
                           ("message", JStr "Failed to restore backup");
                           ("error", JStr (strip_ansi_codes (str_or stderr stdout)))])).

(** [delete_backup(filename)] *)
Definition delete_backup (filename : string) (req : request) : M response :=
  if contains ".." filename || contains "/" filename then mret invalid_filename
  else
    let filepath := OsPath.join (BACKUP_DIR cfg) filename in
    found ← os_path_exists filepath;
    if negb found then mret (backup_not_found filename)
    else
      let confirm := lower (args_get req "confirm" "false") in
      if negb (String.eqb confirm "true")
      then mret (Response 400
                  (JObj [("error", JStr "Confirmation required");
                         ("message", JStr "Add ?confirm=true to URL to confirm deletion")]))
      else
        raised ← os_remove filepath;
        match raised with
        | None =>
            mret (Response 200
                   (JObj [("success", JBool true);
                          ("message", JStr ("Backup '" +:+ filename
                                            +:+ "' deleted successfully"))]))
        | Some e =>
            mret (Response 500
                   (JObj [("success", JBool false);
                          ("message", JStr "Failed to delete backup");
                          ("error", JStr e)]))
        end.

End WithPrograms.

End BackupsRoutes.

(** ** [routes/worlds_routes.py] *)

Module WorldsRoutes.
Import PyStr Host UtilsIO.

(** [v == z] for a decoded JSON value and an [int]. *)
Definition json_eq_int (v : json) (z : Z) : bool :=
  match v with
  | JNum z' => (z' =? z)%Z
  | JBool b => ((if b then 1 else 0) =? z)%Z
  | JReal x => Qeq_bool x (inject_Z z)
  | _ => false
  end.

(** [v in choices] *)
Definition json_in (v : json) (choices : list Z) : bool :=
  existsb (json_eq_int v) choices.

Definition world_path (cfg : config) (name : string) : string :=
  OsPath.join (WORLD_DIR cfg) (name +:+ ".wld").

Definition world_not_found (name : string) : response :=
  Response 404 (JObj [("error", JStr "World not found");
                      ("message", JStr ("World '" +:+ name +:+ "' does not exist"))]).

Section WithPrograms.
Context `{Subprocess} (cfg : config).

(** [create_world()].  The [env] the source fills with the name, the size,
    the difficulty and the seed is never handed to [run_script], so the
    program is started with its arguments only. *)
Definition create_world (req : request) : M response :=
  match json_body req with
  | Some (JObj fields as data) =>
      if negb (json_truthy data)
      then mret (Response 400 (JObj [("error", JStr "Invalid request");
                                     ("message", JStr "Request body must be JSON")]))
      else
        let name := dict_get fields "name" (JStr "") in
        let size := dict_get fields "size" (JNum 2) in
        let difficulty := dict_get fields "difficulty" (JNum 0) in
        if negb (json_truthy name)
        then mret (Response 400 (JObj [("error", JStr "Missing parameter");
                                       ("message", JStr "World name is required")]))
        else
          match name with
          | JStr name =>
              let sanitized_name := sanitize name in
              if negb (truthy sanitized_name)
              then mret (Response 400
                          (JObj [("error", JStr "Invalid name");
                                 ("message", JStr "World name must contain at least one alphanumeric character")]))
              else
                let filepath := world_path cfg sanitized_name in
                found ← os_path_exists filepath;
                if (found : bool)
                then mret (Response 409
                            (JObj [("error", JStr "World exists");
                                   ("message", JStr ("World '" +:+ sanitized_name
                                                     +:+ "' already exists"))]))
                else
                  let size := if json_in size [1; 2; 3]%Z then size else JNum 2 in
                  let difficulty :=
                    if json_in difficulty [0; 1; 2; 3]%Z then difficulty else JNum 0 in
                  '(success, stdout, stderr) ←
                    run_script (WORLD_MANAGER_SCRIPT cfg) ["create-auto"] 300;
                  created ← os_path_exists filepath;
                  if (created : bool)
                  then
                    info ← get_file_info filepath;
                    match info with
                    | Some info =>
                        mret (Response 201
                               (JObj [("success", JBool true);
                                      ("message", JStr ("World '" +:+ sanitized_name
                                                        +:+ "' created successfully"));
                                      ("world",
                                       JObj [("name", JStr sanitized_name);
                                             ("size", JStr (size_human info));
                                             ("size_code", size);
                                             ("difficulty", difficulty)])]))
                    | None => mret internal_server_error
                    end
                  else
                    mret (Response 500
                           (JObj [("success", JBool false);
                                  ("message", JStr "Failed to create world");
                                  ("error", JStr (strip_ansi_codes (str_or stderr stdout)))]))
          | _ => mret internal_server_error
          end
  | Some data =>
      if negb (json_truthy data)
      then mret (Response 400 (JObj [("error", JStr "Invalid request");
                                     ("message", JStr "Request body must be JSON")]))
      else mret internal_server_error
  | None =>
      mret (Response 400 (JObj [("error", JStr "Invalid request");
                                ("message", JStr "Request body must be JSON")]))
  end.

(** [delete_world(name)] *)
Definition delete_world (name : string) (req : request) : M response :=
  let name := sanitize name in
  let filepath := world_path cfg name in
  found ← os_path_exists filepath;
  if negb found then mret (world_not_found name)
  else
    let confirm := args_get req "confirm" "" in
    if negb (String.eqb confirm name)
    then mret (Response 400
                (JObj [("error", JStr "Confirmation required");
                       ("message", JStr ("Add ?confirm=" +:+ name
                                         +:+ " to URL to confirm deletion"))]))
    else
      active ← (if String.eqb name (WORLD_NAME cfg) then is_server_running
                else mret false) : M bool;
      if (active : bool)
      then mret (Response 400
                  (JObj [("error", JStr "Cannot delete active world");
                         ("message", JStr "Stop the server before deleting the active world")]))
      else
        raised ← os_remove filepath;
        match raised with
        | Some e =>
            mret (Response 500 (JObj [("success", JBool false);
                                      ("message", JStr "Failed to delete world");
                                      ("error", JStr e)]))
        | None =>
            let bak_filepath := filepath +:+ ".bak" in
            has_bak ← os_path_exists bak_filepath;
            raised ← (if (has_bak : bool) then os_remove bak_filepath
                      else mret None) : M (option string);
            match raised with
            | Some e =>
                mret (Response 500 (JObj [("success", JBool false);
                                          ("message", JStr "Failed to delete world");
                                          ("error", JStr e)]))
            | None =>
                mret (Response 200
                       (JObj [("success", JBool true);
                              ("message", JStr ("World '" +:+ name
                                                +:+ "' deleted successfully"))]))
            end
        end.

End WithPrograms.

End WorldsRoutes.

(** ** [routes/server_routes.py] *)

Module ServerRoutes.
Import PyStr Host UtilsIO.

Definition supervisorctl (action : string) : list string :=
  ["supervisorctl"; action; "terraria"].

Section WithPrograms.
Context `{Subprocess}.

(** [start_server()] *)
Definition start_server : M response :=
  running ← is_server_running;
  if (running : bool)
  then mret (Response 400 (JObj [("success", JBool false);
                                 ("message", JStr "Server is already running")]))
  else
    '(success, stdout, stderr) ← run_command (supervisorctl "start") 30;
    if (success : bool) || contains "already started" (lower stdout)
    then mret (Response 200 (JObj [("success", JBool true);
                                   ("message", JStr "Server start command sent");
                                   ("output", JStr (strip_ansi_codes stdout))]))
    else mret (Response 500 (JObj [("success", JBool false);
                                   ("message", JStr "Failed to start server");
                                   ("error", JStr (strip_ansi_codes (str_or stderr stdout)))])).

(** [stop_server()] *)
Definition stop_server : M response :=
  running ← is_server_running;
  if negb running
  then mret (Response 400 (JObj [("success", JBool false);
                                 ("message", JStr "Server is not running")]))
  else
    '(success, stdout, stderr) ← run_command (supervisorctl "stop") 30;
    if (success : bool) || contains "already stopped" (lower stdout)
    then mret (Response 200 (JObj [("success", JBool true);
                                   ("message", JStr "Server stop command sent. World will be saved.");
                                   ("output", JStr (strip_ansi_codes stdout))]))
    else mret (Response 500 (JObj [("success", JBool false);
                                   ("message", JStr "Failed to stop server");
                                   ("error", JStr (strip_ansi_codes (str_or stderr stdout)))])).

(** [restart_server()] *)
Definition restart_server : M response :=
  '(success, stdout, stderr) ← run_command (supervisorctl "restart") 30;
  if (success : bool)
  then mret (Response 200 (JObj [("success", JBool true);
                                 ("message", JStr "Server restart command sent. Players will be disconnected.");
                                 ("output", JStr (strip_ansi_codes stdout))]))
  else mret (Response 500 (JObj [("success", JBool false);
                                 ("message", JStr "Failed to restart server");
                                 ("error", JStr (strip_ansi_codes (str_or stderr stdout)))])).

End WithPrograms.

End ServerRoutes.

(** ** [routes/logs_routes.py] *)

Module LogsRoutes.
Import PyStr Host.

(** The [log_files] of [get_log]. *)
Definition log_files : list (string * string) :=
  [("server", "terraria-stdout.log"); ("stdout", "terraria-stdout.log");
   ("error", "terraria-stderr.log"); ("stderr", "terraria-stderr.log");
   ("supervisor", "supervisord.log");
   ("crash", "crashes.log"); ("crashes", "crashes.log");
   ("backup", "backup.log"); ("restore", "restore.log");
   ("world", "world-manager.log")].

Fixpoint lookup_log (log_type : string) (table : list (string * string)) : option string :=
  match table with
  | [] => None
  | (k, v) :: table' => if String.eqb log_type k then Some v else lookup_log log_type table'
  end.

(** What the [try] of [get_log] computes from the lines of the file. *)
Record log_page : Type := LogPage {
  selected_lines : list string;
  lines_returned : Z;
  total_lines : Z;
  start_line : Z;
  end_line : Z
}.

(** The body of the [try] of [get_log], for [lines] and [offset] as
    converted from the query string. *)
Definition read_window (all_lines : list string) (lines_arg offset_arg : Z) : log_page :=
  let lines := Z.min lines_arg 1000 in
  let offset := Z.max offset_arg 0 in
  let total_lines := Z.of_nat (length all_lines) in
  let '(selected_lines, start_line) :=
    if (offset =? 0)%Z
    then ((if (lines <? total_lines)%Z
           then PyNum.py_slice all_lines (Some (- lines)%Z) None
           else all_lines),
          Z.max (total_lines - lines) 0)
    else (PyNum.py_slice all_lines (Some offset) (Some (offset + lines)%Z), offset) in
  LogPage selected_lines (Z.of_nat (length selected_lines)) total_lines
          start_line (start_line + Z.of_nat (length selected_lines)).

Fixpoint concat_lines (l : list string) : string :=
  match l with
  | [] => ""
  | s :: l' => s +:+ concat_lines l'
  end.

Section WithConfig.
Context (cfg : config).

(** [get_log(log_type)] *)
Definition get_log (log_type : string) (req : request) : M response :=
  match lookup_log log_type log_files with
  | None =>
      mret (Response 400
             (JObj [("error", JStr "Invalid log type");
                    ("message", JStr ("Unknown log type: " +:+ log_type));
                    ("available", JList (map (fun kv => JStr (fst kv)) log_files))]))
  | Some filename =>
      let filepath := OsPath.join (LOG_DIR cfg) filename in
      found ← os_path_exists filepath;
      if negb found
      then mret (Response 200
                  (JObj [("log_type", JStr log_type); ("filename", JStr filename);
                         ("exists", JBool false); ("content", JStr "");
                         ("message", JStr "Log file does not exist or is empty")]))
      else
        let lines := args_get_int req "lines" 100 in
        let offset := args_get_int req "offset" 0 in
        all_lines ← read_all_lines filepath;
        match all_lines with
        | inl e =>
            mret (Response 500 (JObj [("error", JStr "Read failed");
                                      ("message", JStr e)]))
        | inr all_lines =>
            let page := read_window all_lines lines offset in
            mret (Response 200
                   (JObj [("log_type", JStr log_type); ("filename", JStr filename);
                          ("exists", JBool true);
                          ("content", JStr (concat_lines (selected_lines page)));
                          ("lines_returned", JNum (lines_returned page));
                          ("total_lines", JNum (total_lines page));
                          ("start_line", JNum (start_line page));
                          ("end_line", JNum (end_line page))]))
        end
  end.

End WithConfig.

End LogsRoutes.

(** ** Concrete hosts *)

Module Scenario.
Import PyStr Host UtilsIO.

Definition regular (size : Z) (text : string) : node :=
  Node false size 1767225600 1767225600 text.

Definition directory : node := Node true 4096 1767225600 1767225600 "".

Definition lf : string := String "010" "".

(** A disk with one world, one backup, the scripts and a server log. *)
Definition disk : gmap string node :=
  list_to_map
    [("/terraria/worlds", directory);
     ("/terraria/worlds/Alpha.wld", regular 4194304 "");
     ("/terraria/backups", directory);
     ("/terraria/backups/backup_Foo_20260101_000000.tar.gz", regular 1536 "");
     ("/terraria/backups/notes.txt", regular 12 "");
     ("/terraria/scripts", directory);
     ("/terraria/scripts/restore.sh", regular 100 "");
     ("/terraria/scripts/world-manager.sh", regular 100 "");
     ("/terraria/logs", directory);
     ("/terraria/logs/terraria-stdout.log",
      regular 14 ("one" +:+ lf +:+ "two" +:+ lf +:+ "three" +:+ lf))].

Definition server_process : string := "mono TerrariaServer.exe -config serverconfig.txt".

Definition host_up : host := MkHost disk [server_process].
Definition host_down : host := MkHost disk [].

Definition boot (h : host) : machine := Machine h [].

(** [pgrep -f pattern]: the pids of the processes whose command line contains
    the pattern, exit status 1 when there is none. *)
Definition pgrep (pattern : string) (h : host) : outcome :=
  if existsb (contains pattern) (procs h)
  then Exited 0 ("4242" +:+ lf) ""
  else Exited 1 "" "".

(** What the world manager does when asked to create a world. *)
Inductive generator : Type :=
| WritesAndFails      (* leaves [Beta.wld] behind and exits with status 1 *)
| SucceedsEmptyHanded (* exits with status 0 and writes nothing *).

(** Programs of a host with supervisor, [pgrep] and the scripts. *)
Definition programs (g : generator) : Subprocess :=
  fun argv _ h =>
    match argv with
    | ["pgrep"; "-f"; pattern] => (pgrep pattern h, h)
    | ["supervisorctl"; "start"; "terraria"] =>
        (Exited 0 ("terraria: started" +:+ lf) "",
         MkHost (fs h) (server_process :: procs h))
    | ["supervisorctl"; "stop"; "terraria"] =>
        (Exited 0 ("terraria: stopped" +:+ lf) "", MkHost (fs h) [])
    | ["/terraria/scripts/world-manager.sh"; "create-auto"] =>
        match g with
        | WritesAndFails =>
            (Exited 1 "" "mono: out of memory",
             MkHost (<["/terraria/worlds/Beta.wld" := regular 2097152 ""]> (fs h))
                    (procs h))
        | SucceedsEmptyHanded => (Exited 0 "World created" "", h)
        end
    | _ => (Exited 0 "" "", h)
    end.

(** Whether the world manager of [g] exits with status 0. *)
Definition world_manager_reports (g : generator) : bool :=
  match fst (programs g ["/terraria/scripts/world-manager.sh"; "create-auto"]
                      300%Z host_down) with
  | Exited rc _ _ => (rc =? 0)%Z
  | _ => false
  end.

Definition query (kvs : list (string * string)) : request :=
  Request (list_to_map kvs) None.

Definition post (fields : list (string * json)) : request :=
  Request ∅ (Some (JObj fields)).

End Scenario.

(** ** Vocabulary of the properties *)

Module Props.
Import PyStr PyNum Host UtilsIO.

(** The units in the order in which [utils.format_bytes] tries them. *)
Definition unit_ladder : list string := ["B"; "KB"; "MB"; "GB"; "TB"; "PB"].

(** The value of [size] after [k] rounds of [size /= 1024.0]. *)
Definition scaled (size : Z) (k : nat) : Q :=
  Nat.iter k (fun x => (x / 1024)%Q) (float_of_int size).

(** The run-time value of [size] after [k] rounds. *)
Definition num_at (size : Z) (k : nat) : num := Nat.iter k div_1024 (PInt size).

Definition newline : string := String "010" "".

(** A file of ten lines. *)
Definition ten_lines : list string :=
  map (fun i : nat => "line " +:+ pretty i +:+ newline) (seq 1 10).

(** A file of three lines. *)
Definition three_lines : list string :=
  ["one" +:+ newline; "two" +:+ newline; "three" +:+ newline].

(** After the program [cmd] was started, the process table was probed
    again. *)
Definition reprobes_after (cmd : list string) (evs : list event) : Prop :=
  exists pre post,
    evs = pre ++ Spawned cmd :: post /\ In (Spawned pgrep_server) post.

(** An item of a listing whose name passed the suffix test and was parsed
    into the fields the item shows. *)
Definition entry_ok (e : BackupsRoutes.backup_entry) : Prop :=
  BackupsRoutes.looks_like_backup (BackupsRoutes.b_filename e) = true
  /\ BackupName.parse_backup_filename (BackupsRoutes.b_filename e)
     = Some (BackupName.Parsed (BackupsRoutes.b_world_name e)
                               (BackupsRoutes.b_date e)
                               (BackupsRoutes.b_time e)).

Section WithPrograms.
Context `{Subprocess} (cfg : config).

(** The machine once the world manager has been asked to create a world. *)
Definition after_world_manager (m : machine) : machine :=
  snd (run_script (WORLD_MANAGER_SCRIPT cfg) ["create-auto"] 300 m).

End WithPrograms.

End Props.

(** ** Vocabulary of the further properties *)

Module MoreProps.
Import PyStr PyNum Host UtilsIO BackupName.

(** [backup_<world>_<date>_<time>.tar] followed by [gz]. *)
Definition backup_name (world date time gz : string) : string :=
  "backup_" +:+ world +:+ "_" +:+ date +:+ "_" +:+ time +:+ ".tar" +:+ gz.

(** A text of [n] decimal digits. *)
Definition digits (n : nat) (s : string) : Prop :=
  String.length s = n /\ forallb digit_class (chars s) = true.

(** A text without a newline. *)
Definition one_line (s : string) : Prop := forallb Regex.dot (chars s) = true.

(** A text in which something is not white space. *)
Definition has_ink (s : string) : bool :=
  existsb (fun c => negb (is_space c)) (chars s).

(** A list of backups from the newest to the oldest. *)
Definition newest_first (l : list BackupsRoutes.backup_entry) : Prop :=
  StronglySorted
    (fun a b => (BackupsRoutes.b_created b <= BackupsRoutes.b_created a)%Q) l.

(** The request without its [limit] parameter. *)
Definition without_limit (req : request) : request :=
  Request (delete "limit" (args req)) (json_body req).

(** The arguments [restore_backup] gives the restore script. *)
Definition restore_argv (cfg : config) (filename : string) (req : request)
  : list string :=
  RESTORE_SCRIPT cfg :: "restore" :: filename :: "--force"
  :: (if String.eqb (lower (args_get req "no_backup" "false")) "true"
      then ["--no-backup"] else []).

(** What [list_backups] does with the [limit] parameter. *)
Definition limited (limit : option Z) (l : list BackupsRoutes.backup_entry)
  : list BackupsRoutes.backup_entry :=
  match limit with
  | Some n =>
      if negb (n =? 0)%Z && (0 <? n)%Z then py_slice l None (Some n) else l
  | None => l
  end.

(** The names [os.listdir] finds directly inside a directory. *)
Definition names_in (d : string) (m : machine) : list string :=
  omap (fun kv : string * node => entry_name d (fst kv))
       (map_to_list (fs (m_host m))).

(** The items and the total size the loop of [list_backups] gathers from a
    backup directory that can be listed. *)
Definition gathered (cfg : config) (world_filter : string) (m : machine)
  : list BackupsRoutes.backup_entry * Z :=
  if bool_decide (is_Some (fs (m_host m) !! BACKUP_DIR cfg))
  then fst (BackupsRoutes.scan_backups cfg world_filter
              (names_in (BACKUP_DIR cfg) m) [] 0 m)
  else ([], 0%Z).

(** The exception that ends a listing: the backup directory is there and is
    not a directory. *)
Definition listing_raises (cfg : config) (m : machine) : option string :=
  match fs (m_host m) !! BACKUP_DIR cfg with
  | Some d =>
      if is_dir d then None
      else Some ("[Errno 20] Not a directory: '" +:+ BACKUP_DIR cfg +:+ "'")
  | None => None
  end.

(** The bytes of the items of a listing, added up. *)
Definition bytes_of (l : list BackupsRoutes.backup_entry) : Z :=
  fold_right Z.add 0%Z (map BackupsRoutes.b_size_bytes l).

End MoreProps.

(** ** Further concrete hosts *)

Module MoreScenario.
Import PyStr Host UtilsIO Scenario.

(** A supervisor that has lost track of the server: [pgrep] finds nothing,
    and the supervisor refuses the start because, to its mind, the program
    runs already. *)
Definition stale_supervisor : Subprocess :=
  fun argv _ h =>
    match argv with
    | ["pgrep"; "-f"; pattern] => (pgrep pattern h, h)
    | ["supervisorctl"; "start"; "terraria"] =>
        (Exited 7 ("terraria: ERROR (already started)" +:+ lf) "", h)
    | ["supervisorctl"; "stop"; "terraria"] =>
        (Exited 7 ("terraria: ERROR (not running)" +:+ lf) "", h)
    | _ => (Exited 0 "" "", h)
    end.

(** The disk of [Scenario], with a [.bak] companion next to the world. *)
Definition disk_with_bak : gmap string node :=
  <["/terraria/worlds/Alpha.wld.bak" := regular 4194304 ""]> disk.

Definition host_with_bak : host := MkHost disk_with_bak [].

(** A configuration whose world is Alpha. *)
Definition alpha_config : config :=
  Config "/terraria/worlds" "/terraria/backups" "/terraria/logs"
         "/terraria/scripts" "Alpha" 48.

(** The disk of [Scenario] with a second, newer backup. *)
Definition disk_two : gmap string node :=
  <["/terraria/backups/backup_Bar_20260102_000000.tar" :=
      Node false 2048 1767312000 1767312000 ""]> disk.

Definition host_two : host := MkHost disk_two [].

(** The disk of [Scenario] with the backup script in place. *)
Definition disk_scripts : gmap string node :=
  <["/terraria/scripts/backup.sh" := regular 100 ""]> disk.

Definition host_scripts : host := MkHost disk_scripts [].

(** A configuration whose backup directory is a regular file. *)
Definition misplaced_config : config :=
  Config "/terraria/worlds" "/terraria/backups/notes.txt" "/terraria/logs"
         "/terraria/scripts" "world" 48.

End MoreScenario.

(** ** [routes/backups_routes.py]: creating a backup *)

Module BackupsCreate.
Import PyStr Host UtilsIO BackupName.

(** Where [x] goes in a list of names in descending order. *)
Fixpoint insert_name_desc (x : string) (l : list string) : list string :=
  match l with
  | [] => [x]
  | y :: l' => if String.leb x y then y :: insert_name_desc x l' else x :: l
  end.

(** [sorted(names, reverse=True)] *)
Definition sorted_desc (names : list string) : list string :=
  fold_left (fun acc x => insert_name_desc x acc) names [].

(** One item of the ['backups'] list of [create_backup]. *)
Record new_backup : Type := NewBackup {
  nb_filename : string;
  nb_world_name : string;
  nb_size : string
}.

Definition new_backup_to_json (b : new_backup) : json :=
  JObj [("filename", JStr (nb_filename b)); ("world_name", JStr (nb_world_name b));
        ("size", JStr (nb_size b))].

Section WithPrograms.
Context `{Subprocess} (cfg : config).

(** The loop of [create_backup] over the five greatest names. *)
Fixpoint newest_backups (names : list string) (new_backups : list new_backup)
  : M (list new_backup) :=
  match names with
  | [] => mret new_backups
  | filename :: names' =>
      if startswith filename "backup_"
      then
        info ← get_file_info (OsPath.join (BACKUP_DIR cfg) filename);
        match info, parse_backup_filename filename with
        | Some info, Some parsed =>
            newest_backups names'
              (new_backups ++ [NewBackup filename (world_name parsed) (size_human info)])
        | _, _ => newest_backups names' new_backups
        end
      else newest_backups names' new_backups
  end.

(** [create_backup()] from the point where [args] is built; [world] is the
    sanitised name, or the empty text when no world was named.  The listing
    of the new backups is not inside a [try]: an exception of [os.listdir]
    escapes and is answered by the 500 handler of the application. *)
Definition run_backup (world : string) : M response :=
  let args := "create" :: (if truthy world then [world] else []) in
  '(success, stdout, stderr) ← run_script (BACKUP_SCRIPT cfg) args 60;
  if (success : bool)
  then
    found ← os_path_exists (BACKUP_DIR cfg);
    new_backups ←
      (if (found : bool)
       then names ← os_listdir (BACKUP_DIR cfg);
            match names with
            | inl e => mret (inl e)
            | inr names =>
                new_backups ←
                  newest_backups
                    (PyNum.py_slice (sorted_desc names) None (Some 5%Z)) [];
                mret (inr new_backups)
            end
       else mret (inr [])) : M (string + list new_backup);
    match new_backups with
    | inl _ => mret internal_server_error
    | inr new_backups =>
        mret (Response 201
                (JObj [("success", JBool true);
                       ("message", JStr "Backup created successfully");
                       ("output", JStr (strip_ansi_codes stdout));
                       ("backups", JList (map new_backup_to_json new_backups))]))
    end
  else
    mret (Response 500
            (JObj [("success", JBool false);
                   ("message", JStr "Failed to create backup");
                   ("error", JStr (strip_ansi_codes (str_or stderr stdout)))])).

(** [create_backup()] *)
Definition create_backup (req : request) : M response :=
  let data :=
    match json_body req with
    | Some d => if json_truthy d then d else JObj []
    | None => JObj []
    end in
  match data with
  | JObj fields =>
      let world := dict_get fields "world" (JStr "") in
      if json_truthy world
      then
        match world with
        | JStr world =>
            let world := sanitize world in
            found ← os_path_exists (WorldsRoutes.world_path cfg world);
            if negb found
            then mret (Response 404
                        (JObj [("error", JStr "World not found");
                               ("message", JStr ("World '" +:+ world
                                                 +:+ "' does not exist"))]))
            else run_backup world
        | _ => mret internal_server_error
        end
      else run_backup ""
  | _ => mret internal_server_error
  end.

(** [cleanup_backups()] *)
Definition cleanup_backups : M response :=
  '(success, stdout, stderr) ← run_script (BACKUP_SCRIPT cfg) ["cleanup"] 60;
  if (success : bool)
  then mret (Response 200 (JObj [("success", JBool true);
                                 ("message", JStr "Backup cleanup completed");
                                 ("output", JStr (strip_ansi_codes stdout))]))
  else mret (Response 500 (JObj [("success", JBool false);
                                 ("message", JStr "Failed to run cleanup");
                                 ("error", JStr (strip_ansi_codes (str_or stderr stdout)))])).

End WithPrograms.

End BackupsCreate.

(** ** Writing files: [open(p, 'w')] and [shutil.copy2] *)

Module HostWrite.
Import PyStr Host.

(** The clock of the host, read when a file is written. *)
Class Clock : Type := now : host -> Q.

Fixpoint drop_while_not_slash (r : list ascii) : list ascii :=
  match r with
  | [] => []
  | c :: r' => if Ascii.eqb c "/" then r else drop_while_not_slash r'
  end.

Fixpoint drop_slashes (r : list ascii) : list ascii :=
  match r with
  | [] => []
  | c :: r' => if Ascii.eqb c "/" then drop_slashes r' else r
  end.

(** [os.path.dirname(p)]: what stands before the last slash, without the
    slashes that end it unless it is made of slashes only. *)
Definition dirname (p : string) : string :=
  let head := drop_while_not_slash (rev (chars p)) in
  match drop_slashes head with
  | [] => string_of_list_ascii (rev head)
  | stem => string_of_list_ascii (rev stem)
  end.

(** Whether a file can be created at [p]: the directory it goes into is
    there (the current directory and the root always are). *)
Definition parent_is_dir (disk : gmap string node) (p : string) : bool :=
  let d := dirname p in
  if negb (truthy d) || negb (truthy (string_of_list_ascii (drop_slashes (chars d))))
  then true
  else match disk !! d with
       | Some n => is_dir n
       | None => false
       end.

Definition errno (code what p : string) : string :=
  "[Errno " +:+ code +:+ "] " +:+ what +:+ ": '" +:+ p +:+ "'".

(** The exception of [open(p, 'w')] when [p] cannot be created. *)
Definition cannot_create (disk : gmap string node) (p : string) : string :=
  match disk !! dirname p with
  | Some _ => errno "20" "Not a directory" p
  | None => errno "2" "No such file or directory" p
  end.

Definition put (p : string) (n : node) (m : machine) : machine :=
  Machine (MkHost (<[p := n]> (fs (m_host m))) (procs (m_host m))) (m_trace m).

Section WithClock.
Context `{Clock}.

(** [with open(p, 'w') as f: f.write('')]: the file is there and empty
    afterwards; [Some msg] stands for the exception raised. *)
Definition open_truncate (p : string) : M (option string) :=
  fun m =>
    let fresh := Node false 0 (now (m_host m)) (now (m_host m)) "" in
    match fs (m_host m) !! p with
    | Some n =>
        if is_dir n then (Some (errno "21" "Is a directory" p), m)
        else (None, put p fresh m)
    | None =>
        if parent_is_dir (fs (m_host m)) p then (None, put p fresh m)
        else (Some (cannot_create (fs (m_host m)) p), m)
    end.

(** [shutil.copy2(src, dst)]: content and modification time of [src] go to
    [dst], or into [dst] under the name of [src] when [dst] is a directory;
    [Some msg] stands for the exception raised. *)
Definition shutil_copy2 (src dst : string) : M (option string) :=
  fun m =>
    let disk := fs (m_host m) in
    let target :=
      match disk !! dst with
      | Some d => if is_dir d then OsPath.join dst (OsPath.basename src) else dst
      | None => dst
      end in
    if String.eqb src target && bool_decide (is_Some (disk !! src))
    then (Some ("'" +:+ src +:+ "' and '" +:+ target +:+ "' are the same file"), m)
    else
      match disk !! src with
      | None => (Some (errno "2" "No such file or directory" src), m)
      | Some s =>
          if is_dir s then (Some (errno "21" "Is a directory" src), m)
          else
            let copy := Node false (st_size s) (st_mtime s) (now (m_host m))
                             (content s) in
            match disk !! target with
            | Some t =>
                if is_dir t then (Some (errno "21" "Is a directory" target), m)
                else (None, put target copy m)
            | None =>
                if parent_is_dir disk target then (None, put target copy m)
                else (Some (cannot_create disk target), m)
            end
      end.

End WithClock.

End HostWrite.

(** ** [routes/logs_routes.py]: clearing a log *)

Module LogsClear.
Import PyStr Host HostWrite.

(** The [log_files] of [clear_log]. *)
Definition clearable : list (string * string) :=
  [("crash", "crashes.log"); ("crashes", "crashes.log");
   ("backup", "backup.log"); ("restore", "restore.log");
   ("world", "world-manager.log")].

Section WithClock.
Context `{Clock} (cfg : config).

(** [clear_log(log_type)] *)
Definition clear_log (log_type : string) (req : request) : M response :=
  match LogsRoutes.lookup_log log_type clearable with
  | None =>
      mret (Response 400
             (JObj [("error", JStr "Cannot clear");
                    ("message", JStr ("Log type '" +:+ log_type
                                      +:+ "' cannot be cleared"));
                    ("clearable", JList (map (fun kv => JStr (fst kv)) clearable))]))
  | Some filename =>
      let confirm := lower (args_get req "confirm" "false") in
      if negb (String.eqb confirm "true")
      then mret (Response 400
                  (JObj [("error", JStr "Confirmation required");
                         ("message", JStr "Add ?confirm=true to URL to confirm")]))
      else
        let filepath := OsPath.join (LOG_DIR cfg) filename in
        raised ← open_truncate filepath;
        match raised with
        | None =>
            mret (Response 200
                   (JObj [("success", JBool true);
                          ("message", JStr ("Log '" +:+ filename +:+ "' cleared"))]))
        | Some e =>
            mret (Response 500
                   (JObj [("success", JBool false);
                          ("message", JStr "Failed to clear log");
                          ("error", JStr e)]))
        end
  end.

End WithClock.

End LogsClear.

(** ** [routes/worlds_routes.py]: copying a world *)

Module WorldsCopy.
Import PyStr Host UtilsIO HostWrite.

Section WithClock.
Context `{Clock} (cfg : config).

Definition copy_failed (e : string) : response :=
  Response 500 (JObj [("success", JBool false);
                      ("message", JStr "Failed to copy world");
                      ("error", JStr e)]).

(** The [try] of [copy_world]. *)
Definition copy_files (name dest_name src_filepath dest_filepath : string)
  : M response :=
  raised ← shutil_copy2 src_filepath dest_filepath;
  match raised with
  | Some e => mret (copy_failed e)
  | None =>
      has_bak ← os_path_exists (src_filepath +:+ ".bak");
      raised ← (if (has_bak : bool)
                then shutil_copy2 (src_filepath +:+ ".bak") (dest_filepath +:+ ".bak")
                else mret None) : M (option string);
      match raised with
      | Some e => mret (copy_failed e)
      | None =>
          info ← get_file_info dest_filepath;
          match info with
          | Some info =>
              mret (Response 201
                     (JObj [("success", JBool true);
                            ("message", JStr ("World '" +:+ name +:+ "' copied to '"
                                              +:+ dest_name +:+ "'"));
                            ("world",
                             JObj [("name", JStr dest_name);
                                   ("size", JStr (size_human info));
                                   ("modified", JReal (modified info))])]))
          | None => mret (copy_failed "'NoneType' object is not subscriptable")
          end
      end
  end.

Definition missing_destination : response :=
  Response 400 (JObj [("error", JStr "Missing parameter");
                      ("message", JStr "Destination name is required")]).

(** [copy_world(name)] *)
Definition copy_world (name : string) (req : request) : M response :=
  let name := sanitize name in
  let src_filepath := WorldsRoutes.world_path cfg name in
  found ← os_path_exists src_filepath;
  if negb found
  then mret (Response 404
              (JObj [("error", JStr "World not found");
                     ("message", JStr ("Source world '" +:+ name
                                       +:+ "' does not exist"))]))
  else
    match json_body req with
    | Some (JObj fields as data) =>
        if negb (json_truthy data)
           || negb (json_truthy (dict_get fields "destination" JNull))
        then mret missing_destination
        else
          match dict_get fields "destination" JNull with
          | JStr destination =>
              let dest_name := sanitize destination in
              if negb (truthy dest_name)
              then mret (Response 400
                          (JObj [("error", JStr "Invalid name");
                                 ("message", JStr "Destination name must contain at least one alphanumeric character")]))
              else
                let dest_filepath := WorldsRoutes.world_path cfg dest_name in
                taken ← os_path_exists dest_filepath;
                if (taken : bool)
                then mret (Response 409
                            (JObj [("error", JStr "World exists");
                                   ("message", JStr ("Destination world '" +:+ dest_name
                                                     +:+ "' already exists"))]))
                else copy_files name dest_name src_filepath dest_filepath
          | _ => mret internal_server_error
          end
    | Some data =>
        if negb (json_truthy data) then mret missing_destination
        else mret internal_server_error
    | None => mret missing_destination
    end.

End WithClock.

End WorldsCopy.

(** ** Concrete hosts for the handlers that write *)

Module WriteScenario.
Import PyStr Host HostWrite Scenario MoreScenario.

(** A clock that shows the second day of 2026. *)
Definition wall_clock : Clock := fun _ => 1767312000%Q.

(** The disk of [Scenario] with a backup log of two lines. *)
Definition disk_logs : gmap string node :=
  <["/terraria/logs/backup.log" :=
      regular 28 ("backup started" +:+ lf +:+ "backup failed" +:+ lf)]> disk.

Definition host_logs : host := MkHost disk_logs [].

End WriteScenario.
(** ** Sanitisation *)

Section Sanitize.
Import PyStr Regex.

Lemma name_class_alphabet (c : ascii) :
  name_class c = true -> In c (chars name_alphabet).
Proof.
  destruct c as [[] [] [] [] [] [] [] []]; vm_compute; intros H;
    first [ discriminate H | tauto ].
Qed.

Lemma alphabet_name_class (c : ascii) :
  In c (chars name_alphabet) -> name_class c = true.
Proof.
  assert (Hall : forallb name_class (chars name_alphabet) = true)
    by (vm_compute; reflexivity).
  rewrite forallb_forall in Hall. apply Hall.
Qed.

Lemma re_sub_delete_chars (cls : ascii -> bool) (s : string) (c : ascii) :
  In c (chars (re_sub_delete cls s)) -> cls c = false /\ In c (chars s).
Proof.
  induction s as [|a s IH]; simpl; [tauto|].
  destruct (cls a) eqn:Ha; simpl.
  - intros H. destruct (IH H). tauto.
  - intros [<-|H]; [tauto|]. destruct (IH H). tauto.
Qed.

Lemma re_sub_delete_fixed (cls : ascii -> bool) (s : string) :
  (forall c, In c (chars s) -> cls c = false) -> re_sub_delete cls s = s.
Proof.
  induction s as [|a s IH]; simpl; intros H; [reflexivity|].
  rewrite (H a) by tauto. f_equal. apply IH. intros c Hc. apply H. tauto.
Qed.

Lemma sanitize_chars (s : string) (c : ascii) :
  In c (chars (sanitize s)) -> name_class c = true.
Proof.
  intros H. apply re_sub_delete_chars in H as [H _].
  now apply negb_false_iff in H.
Qed.

(** The filter is the scan of [re.sub] for a pattern of one class. *)
Lemma re_sub_delete_scan (cls : ascii -> bool) (s : string) (n : nat) :
  (String.length s <= n)%nat ->
  string_of_list_ascii (sub_scan n (Cls cls) (chars s)) = re_sub_delete cls s.
Proof.
  revert n. induction s as [|c s IH]; intros n Hn.
  - destruct n; reflexivity.
  - destruct n as [|n]; [simpl in Hn; lia|].
    change (chars (String c s)) with (c :: chars s).
    cbn [sub_scan ways re_sub_delete].
    destruct (cls c).
    + cbn [snd]. destruct (Nat.ltb_spec (length (chars s)) (length (c :: chars s)))
        as [_|Hge]; [|simpl in Hge; lia].
      apply IH. simpl in Hn. lia.
    + cbn [string_of_list_ascii]. f_equal. apply IH. simpl in Hn. lia.
Qed.

Lemma sanitize_is_re_sub (name : string) :
  re_sub_empty (Cls (fun c => negb (name_class c))) name = sanitize name.
Proof. unfold re_sub_empty, sanitize. now apply re_sub_delete_scan. Qed.

(** C4: sanitisation is a total function whose output is made of characters
    of [[A-Za-z0-9_-]] only, and sanitising a sanitised name changes
    nothing. *)
Theorem sanitize_total_idempotent (s : string) :
  (exists out, sanitize s = out
     /\ forall c, In c (chars out) -> In c (chars name_alphabet))
  /\ sanitize (sanitize s) = sanitize s.
Proof.
  split.
  - exists (sanitize s). split; [reflexivity|].
    intros c Hc. apply name_class_alphabet. exact (sanitize_chars s c Hc).
  - apply re_sub_delete_fixed. intros c Hc.
    apply negb_false_iff. exact (sanitize_chars s c Hc).
Qed.

End Sanitize.


(** ** Backup file names *)

Section RegexWays.
Import PyStr Regex.

Lemma strip_prefix_app (p s s' : text) :
  strip_prefix p s = Some s' -> s = p ++ s'.
Proof.
  revert s. induction p as [|a p IH]; intros [|b s]; simpl; try congruence.
  destruct (Ascii.eqb_spec a b) as [->|_]; [|discriminate].
  intros Hs. f_equal. now apply IH.
Qed.

Lemma consumed_app (t s' : text) : consumed (t ++ s') s' = t.
Proof.
  unfold consumed. rewrite length_app.
  replace (length t + length s' - length s')%nat with (length t) by lia.
  now rewrite take_app_length.
Qed.

Lemma in_ways_lit (l : string) (s : text) (w : way) :
  In w (ways (Lit l) s) -> fst w = [] /\ s = chars l ++ snd w.
Proof.
  simpl. destruct (strip_prefix (chars l) s) as [s'|] eqn:E; simpl; [|tauto].
  intros [<-|[]]. split; [reflexivity|]. now apply strip_prefix_app.
Qed.

Lemma in_ways_cat (r1 r2 : re) (s : text) (w : way) :
  In w (ways (Cat r1 r2) s) ->
  exists w1 w2, In w1 (ways r1 s) /\ In w2 (ways r2 (snd w1))
                /\ w = (fst w1 ++ fst w2, snd w2).
Proof.
  simpl. rewrite in_flat_map. intros (w1 & H1 & H2).
  apply in_map_iff in H2 as (w2 & <- & H2). eauto.
Qed.

Lemma in_ways_grp (r : re) (s : text) (w : way) :
  In w (ways (Grp r) s) ->
  exists w0, In w0 (ways r s) /\ w = (consumed s (snd w0) :: fst w0, snd w0).
Proof.
  simpl. rewrite in_map_iff. intros (w0 & <- & H0). eauto.
Qed.

(** A greedy run reads a non-empty text made of the class. *)
Lemma in_plus_ways (p : ascii -> bool) (s : text) (w : way) :
  In w (plus_ways p s) ->
  fst w = [] /\ exists t, s = t ++ snd w /\ t <> [] /\ forallb p t = true.
Proof.
  induction s as [|c s IH]; simpl; [tauto|].
  destruct (p c) eqn:Hc; [|simpl; tauto].
  rewrite in_app_iff. intros [Hin|[<-|[]]].
  - destruct (IH Hin) as (Hg & t & Hs & _ & Ht). split; [exact Hg|].
    exists (c :: t). simpl. rewrite Hc, Ht, <- Hs. repeat split. discriminate.
  - split; [reflexivity|]. exists [c]. simpl. rewrite Hc. repeat split. discriminate.
Qed.

(** [cls{n}] reads exactly [n] characters of the class. *)
Lemma in_rep_cls (p : ascii -> bool) (n : nat) (s : text) (w : way) :
  In w (ways (Rep n (Cls p)) s) ->
  fst w = [] /\ exists t, s = t ++ snd w /\ length t = n /\ forallb p t = true.
Proof.
  simpl. revert s w. induction n as [|n IH]; intros s w; simpl.
  - intros [<-|[]]. split; [reflexivity|]. exists []. repeat split.
  - rewrite in_flat_map. intros (w1 & H1 & H2).
    apply in_map_iff in H2 as (w2 & <- & H2).
    destruct s as [|c s]; [destruct H1|].
    destruct (p c) eqn:Hc; [|destruct H1].
    destruct H1 as [<-|[]]. simpl in *.
    destruct (IH _ _ H2) as (Hg & t & Hs & Hlen & Ht).
    split; [exact Hg|]. exists (c :: t). simpl.
    rewrite Hc, Ht, Hlen, <- Hs. repeat split.
Qed.

Lemma in_ways_opt_lit (l : string) (s : text) (w : way) :
  In w (ways (Opt (Lit l)) s) ->
  fst w = [] /\ (s = snd w \/ s = chars l ++ snd w).
Proof.
  change (ways (Opt (Lit l)) s) with (ways (Lit l) s ++ [([], s)]).
  rewrite in_app_iff. intros [Hin|[<-|[]]].
  - apply in_ways_lit in Hin as [Hg Hs]. tauto.
  - simpl. tauto.
Qed.

(** [$] reads nothing and holds at the end of the text or in front of a
    newline that ends it. *)
Lemma in_ways_eos (s : text) (w : way) :
  In w (ways Eos s) ->
  fst w = [] /\ snd w = s /\ (s = [] \/ s = ["010"%char]).
Proof.
  simpl. destruct s as [|c [|c' s]]; simpl.
  - intros [<-|[]]. tauto.
  - destruct (Ascii.eqb_spec c "010") as [->|_]; simpl; [|tauto].
    intros [<-|[]]. tauto.
  - tauto.
Qed.

End RegexWays.

Section BackupNames.
Import PyStr Regex BackupName Props.
#[local] Arguments String.append !_ _ / : simpl nomatch.

(** Every way [backup_re] matches: three groups, the literal parts between
    them, and at most a newline left over. *)
Lemma backup_re_ways (s : text) (w : way) :
  In w (ways backup_re s) ->
  exists wn d t gz nl,
    fst w = [wn; d; t]
    /\ s = chars "backup_" ++ wn ++ chars "_" ++ d ++ chars "_" ++ t
           ++ chars ".tar" ++ gz ++ nl
    /\ (gz = [] \/ gz = chars ".gz")
    /\ (nl = [] \/ nl = chars newline)
    /\ wn <> [] /\ forallb dot wn = true
    /\ length d = 8%nat /\ forallb digit_class d = true
    /\ length t = 6%nat /\ forallb digit_class t = true.
Proof.
  unfold backup_re. intros Hin.
  apply in_ways_cat in Hin as (w1 & x1 & H1 & Hin & ->).
  apply in_ways_lit in H1 as [G1 S1].
  apply in_ways_cat in Hin as (w2 & x2 & H2 & Hin & ->).
  apply in_ways_grp in H2 as (w2' & H2 & ->).
  apply in_plus_ways in H2 as (G2 & wn & S2 & Hwn & Pwn).
  apply in_ways_cat in Hin as (w3 & x3 & H3 & Hin & ->).
  apply in_ways_lit in H3 as [G3 S3].
  apply in_ways_cat in Hin as (w4 & x4 & H4 & Hin & ->).
  apply in_ways_grp in H4 as (w4' & H4 & ->).
  apply in_rep_cls in H4 as (G4 & d & S4 & Ld & Pd).
  apply in_ways_cat in Hin as (w5 & x5 & H5 & Hin & ->).
  apply in_ways_lit in H5 as [G5 S5].
  apply in_ways_cat in Hin as (w6 & x6 & H6 & Hin & ->).
  apply in_ways_grp in H6 as (w6' & H6 & ->).
  apply in_rep_cls in H6 as (G6 & t & S6 & Lt & Pt).
  apply in_ways_cat in Hin as (w7 & x7 & H7 & Hin & ->).
  apply in_ways_lit in H7 as [G7 S7].
  apply in_ways_cat in Hin as (w8 & w9 & H8 & H9 & ->).
  apply in_ways_opt_lit in H8 as [G8 S8].
  apply in_ways_eos in H9 as (G9 & S9 & E9).
  simpl in *.
  exists wn, d, t.
  exists (consumed (snd w7) (snd w8)), (snd w8).
  assert (Hgz : consumed (snd w7) (snd w8) = [] /\ snd w7 = snd w8
                \/ consumed (snd w7) (snd w8) = chars ".gz"
                   /\ snd w7 = chars ".gz" ++ snd w8).
  { destruct S8 as [S8|S8]; rewrite S8.
    - left. split; [|reflexivity]. unfold consumed. now rewrite Nat.sub_diag.
    - right. split; [|reflexivity]. apply (consumed_app (chars ".gz")). }
  rewrite G1, G2, G3, G4, G5, G6, G7, G8, G9. simpl.
  rewrite S2 at 1. rewrite S4 at 1. rewrite S6 at 1. rewrite !consumed_app.
  repeat split; try assumption.
  - rewrite S1, S2, S3, S4, S5, S6, S7.
    destruct Hgz as [[-> ->]|[-> ->]]; reflexivity.
  - destruct Hgz as [[-> _]|[-> _]]; [now left|now right].
Qed.

Lemma string_of_list_app (a b : text) :
  string_of_list_ascii (a ++ b) = string_of_list_ascii a +:+ string_of_list_ascii b.
Proof. induction a as [|c a IH]; simpl; [reflexivity|now rewrite IH]. Qed.

Lemma chars_app (a b : string) : chars (a +:+ b) = chars a ++ chars b.
Proof. induction a as [|c a IH]; simpl; [reflexivity|now rewrite IH]. Qed.

Lemma rev_string_app (a b : string) :
  rev_string (a +:+ b) = rev_string b +:+ rev_string a.
Proof.
  unfold rev_string. fold (chars (a +:+ b)) (chars a) (chars b).
  now rewrite chars_app, rev_app_distr, string_of_list_app.
Qed.

Lemma string_app_assoc (a b c : string) : (a +:+ b) +:+ c = a +:+ (b +:+ c).
Proof. induction a as [|x a IH]; simpl; [reflexivity|now rewrite IH]. Qed.

Lemma string_app_nil_r (a : string) : a +:+ "" = a.
Proof. induction a as [|x a IH]; simpl; [reflexivity|now rewrite IH]. Qed.

Lemma is_prefix_app_same (p x : string) : is_prefix p (p +:+ x) = true.
Proof.
  induction p as [|c p IH]; simpl; [reflexivity|].
  now rewrite Ascii.eqb_refl, IH.
Qed.

(** What an accepted name looks like: the three fields between the literal
    parts, [.tar], perhaps [.gz], and perhaps one newline that [$] let
    through. *)
Lemma parse_backup_filename_shape (filename : string) (p : parsed) :
  parse_backup_filename filename = Some p ->
  exists gz nl,
    filename = "backup_" +:+ world_name p +:+ "_" +:+ date p +:+ "_" +:+ time p
               +:+ ".tar" +:+ gz +:+ nl
    /\ (gz = "" \/ gz = ".gz")
    /\ (nl = "" \/ nl = newline)
    /\ world_name p <> ""
    /\ String.length (date p) = 8%nat
    /\ String.length (time p) = 6%nat.
Proof.
  unfold parse_backup_filename, re_match.
  destruct (ways backup_re (chars filename)) as [|w ws] eqn:E; [discriminate|].
  assert (Hin : In w (ways backup_re (chars filename))) by (rewrite E; now left).
  apply backup_re_ways in Hin
    as (wn & d & t & gz & nl & Hg & Hs & Hgz & Hnl & Hwn & _ & Ld & _ & Lt & _).
  rewrite Hg. simpl. intros [= <-]. simpl.
  exists (string_of_list_ascii gz), (string_of_list_ascii nl).
  assert (Hlen : forall l, String.length (string_of_list_ascii l) = length l).
  { induction l as [|c l IH]; simpl; [reflexivity|now rewrite IH]. }
  repeat split.
  - rewrite <- (string_of_list_ascii_of_string filename).
    fold (chars filename). rewrite Hs.
    rewrite !string_of_list_app. reflexivity.
  - destruct Hgz as [->| ->]; [now left|now right].
  - destruct Hnl as [->| ->]; [now left|now right].
  - destruct wn; [congruence|discriminate].
  - now rewrite Hlen.
  - now rewrite Hlen.
Qed.

(** A name that does not end in a newline and that the parser accepts is the
    one its fields and its own suffix spell. *)
Lemma parse_backup_filename_roundtrip (filename : string) (p : parsed) :
  endswith filename newline = false ->
  parse_backup_filename filename = Some p ->
  resynthesize p filename = filename.
Proof.
  intros Hnl Hp.
  destruct (parse_backup_filename_shape filename p Hp)
    as (gz & nl & Hs & Hgz & Hn & _).
  unfold resynthesize, tar_suffix.
  assert (Hstem : forall x,
             "backup_" +:+ world_name p +:+ "_" +:+ date p +:+ "_" +:+ time p +:+ x
             = ("backup_" +:+ world_name p +:+ "_" +:+ date p +:+ "_" +:+ time p)
               +:+ x).
  { intros x. now rewrite !string_app_assoc. }
  rewrite Hstem in Hs. rewrite Hstem.
  remember ("backup_" +:+ world_name p +:+ "_" +:+ date p +:+ "_" +:+ time p)
    as stem eqn:Estem.
  clear Estem Hstem Hp.
  assert (Hends : forall tail, endswith (stem +:+ tail) ".tar.gz"
                    = is_prefix (rev_string ".tar.gz")
                                    (rev_string tail +:+ rev_string stem)).
  { intros tail. unfold endswith. now rewrite rev_string_app. }
  assert (Hendn : forall tail, endswith (stem +:+ tail) newline
                    = is_prefix (rev_string newline)
                                    (rev_string tail +:+ rev_string stem)).
  { intros tail. unfold endswith. now rewrite rev_string_app. }
  subst filename.
  destruct Hn as [->| ->].
  - destruct Hgz as [->| ->]; rewrite Hends.
    + vm_compute. reflexivity.
    + change (rev_string (".tar" +:+ ".gz" +:+ "")) with (rev_string ".tar.gz").
      rewrite is_prefix_app_same. reflexivity.
  - exfalso. rewrite Hendn in Hnl.
    destruct Hgz as [->| ->]; vm_compute in Hnl; discriminate Hnl.
Qed.

(** The test of [list_backups] on the suffix rules the newline out. *)
Lemma looks_like_backup_no_newline (filename : string) :
  BackupsRoutes.looks_like_backup filename = true -> endswith filename newline = false.
Proof.
  unfold BackupsRoutes.looks_like_backup, endswith. intros H.
  apply andb_true_iff in H as [_ H].
  change (rev_string newline) with newline.
  change (rev_string ".tar.gz") with "zg.rat." in H.
  change (rev_string ".tar") with "rat." in H.
  destruct (rev_string filename) as [|c s]; [reflexivity|].
  unfold newline. cbn [is_prefix] in *.
  destruct (Ascii.eqb_spec "010" c) as [<-|Hc]; [|reflexivity].
  discriminate H.
Qed.

(** C5: the parser accepts [backup_W_20260101_000000.tar] followed by a
    newline, because [$] also holds in front of a final newline, and the
    fields it returns spell the name without that newline: putting them
    together again does not give the name back.  The listing does not reach
    the parser with such a name, its own suffix test refuses it. *)
Theorem parse_backup_filename_trailing_newline :
  let filename := "backup_W_20260101_000000.tar" +:+ newline in
  parse_backup_filename filename = Some (Parsed "W" "20260101" "000000")
  /\ resynthesize (Parsed "W" "20260101" "000000") filename
     = "backup_W_20260101_000000.tar"
  /\ resynthesize (Parsed "W" "20260101" "000000") filename <> filename
  /\ BackupsRoutes.looks_like_backup filename = false.
Proof.
  vm_compute. repeat split; try reflexivity. intros H. discriminate H.
Qed.

End BackupNames.

(** ** Human-readable sizes *)

Section FormatBytes.
Import PyNum Units Props.
Local Open Scope Q_scope.

Lemma Qlt_bool_iff (x y : Q) : Qlt_bool x y = true <-> x < y.
Proof.
  unfold Qlt_bool. rewrite negb_true_iff. split.
  - intros Hb. apply Qnot_le_lt. intros Hle.
    apply Qle_bool_iff in Hle. congruence.
  - intros Hlt. destruct (Qle_bool y x) eqn:E; [|reflexivity].
    apply Qle_bool_iff in E. exfalso. exact (Qlt_not_le _ _ Hlt E).
Qed.

Lemma Qlt_bool_false_iff (x y : Q) : Qlt_bool x y = false <-> y <= x.
Proof.
  unfold Qlt_bool. rewrite negb_false_iff. apply Qle_bool_iff.
Qed.

Lemma Qabs_inject_Z (z : Z) : Qabs (inject_Z z) = inject_Z (Z.abs z).
Proof. reflexivity. Qed.

Lemma round_half_even_floor (a : Z) (p : positive) :
  (a / Z.pos p <= round_half_even (a # p))%Z.
Proof.
  unfold round_half_even. simpl.
  destruct (2 * (a mod Z.pos p) ?= Z.pos p)%Z; [|lia|lia].
  destruct (Z.even (a / Z.pos p)); lia.
Qed.

(** Above [2^53] the conversion keeps the 53 leading bits, so the result
    stays above [2^52]. *)
Lemma float_of_int_big (z : Z) :
  (2 ^ 53 <= Z.abs z)%Z -> inject_Z (2 ^ 52) <= Qabs (float_of_int z).
Proof.
  intros Hbig. unfold float_of_int.
  destruct (Z.ltb_spec (Z.abs z) (2 ^ 53)) as [Hlt|_]; [lia|].
  rewrite Qabs_inject_Z. rewrite <- Zle_Qle.
  set (a := Z.abs z) in *.
  set (e := (Z.log2 a - 52)%Z).
  assert (Ha : (0 < a)%Z) by lia.
  pose proof (Z.log2_spec a Ha) as [Hlo _].
  assert (H53 : (53 <= Z.log2 a)%Z).
  { apply Z.log2_le_pow2; lia. }
  assert (He : (0 <= e)%Z) by (unfold e; lia).
  assert (Hpe : (0 < 2 ^ e)%Z) by (apply Z.pow_pos_nonneg; lia).
  assert (Hsplit : (2 ^ Z.log2 a = 2 ^ 52 * 2 ^ e)%Z).
  { rewrite <- Z.pow_add_r by lia. f_equal. unfold e. lia. }
  assert (Hpos : Z.pos (Z.to_pos (2 ^ e)) = (2 ^ e)%Z) by (apply Z2Pos.id; exact Hpe).
  pose proof (round_half_even_floor a (Z.to_pos (2 ^ e))) as Hr.
  rewrite Hpos in Hr.
  assert (Hq : (2 ^ 52 <= a / 2 ^ e)%Z).
  { apply Z.div_le_lower_bound; [exact Hpe|]. lia. }
  set (r := round_half_even (a # Z.to_pos (2 ^ e))) in *.
  assert (Hr52 : (2 ^ 52 <= r)%Z) by lia.
  assert (Hs : Z.abs (Z.sgn z) = 1%Z).
  { subst a. destruct z; simpl in *; lia. }
  rewrite Z.abs_mul, Hs, Z.mul_1_l, Z.abs_eq; nia.
Qed.

Lemma float_of_int_small (z : Z) :
  (Z.abs z < 2 ^ 53)%Z -> float_of_int z = inject_Z z.
Proof.
  intros Hlt. unfold float_of_int.
  destruct (Z.ltb_spec (Z.abs z) (2 ^ 53)); [reflexivity|lia].
Qed.

(** Comparing an [int] exactly and comparing its binary64 agree. *)
Lemma abs_lt_1024_int (z : Z) :
  (Z.abs z <? 1024)%Z = Qlt_bool (Qabs (float_of_int z)) 1024.
Proof.
  destruct (Z.ltb_spec (Z.abs z) (2 ^ 53)) as [Hs|Hb].
  - rewrite (float_of_int_small z Hs), Qabs_inject_Z.
    destruct (Z.ltb_spec (Z.abs z) 1024) as [H|H]; symmetry.
    + apply Qlt_bool_iff. change 1024 with (inject_Z 1024).
      rewrite <- Zlt_Qlt. exact H.
    + apply Qlt_bool_false_iff. change 1024 with (inject_Z 1024).
      rewrite <- Zle_Qle. exact H.
  - destruct (Z.ltb_spec (Z.abs z) 1024) as [H|H]; [lia|]. symmetry.
    apply Qlt_bool_false_iff.
    apply Qle_trans with (inject_Z (2 ^ 52)); [|apply float_of_int_big; exact Hb].
    change 1024 with (inject_Z 1024). rewrite <- Zle_Qle. lia.
Qed.

Lemma as_float_num_at (size : Z) (k : nat) :
  as_float (num_at size k) = scaled size k.
Proof.
  induction k as [|k IH]; [reflexivity|].
  change (as_float (num_at size k) / 1024 = scaled size k / 1024).
  now rewrite IH.
Qed.

Lemma abs_lt_num_at (size : Z) (k : nat) :
  abs_lt_1024 (num_at size k) = Qlt_bool (Qabs (scaled size k)) 1024.
Proof.
  destruct k as [|k].
  - apply abs_lt_1024_int.
  - rewrite <- as_float_num_at. reflexivity.
Qed.

(** The loop returns at the first unit whose test succeeds, or falls through
    to the last unit. *)
Lemma format_loop_at (units : list string) (last : string) (v : num) (k : nat) :
  (k <= length units)%nat ->
  (forall j, (j < k)%nat -> abs_lt_1024 (Nat.iter j div_1024 v) = false) ->
  ((k < length units)%nat -> abs_lt_1024 (Nat.iter k div_1024 v) = true) ->
  format_loop units last v
  = format_1f (as_float (Nat.iter k div_1024 v)) +:+ nth k (units ++ [last]) last.
Proof.
  revert v k. induction units as [|u units IH]; intros v k Hk Hbefore Hhere.
  - simpl in Hk. assert (k = 0)%nat as -> by lia. reflexivity.
  - destruct k as [|k].
    + assert (H0 : abs_lt_1024 v = true) by (apply Hhere; simpl; lia).
      simpl. rewrite H0. reflexivity.
    + assert (H0 : abs_lt_1024 v = false) by (apply (Hbefore 0%nat); lia).
      simpl format_loop. rewrite H0.
      rewrite Nat.iter_succ_r. simpl nth.
      apply IH.
      * simpl in Hk. lia.
      * intros j Hj. rewrite <- Nat.iter_succ_r. apply Hbefore. lia.
      * intros Hlt. rewrite <- Nat.iter_succ_r. apply Hhere. simpl. lia.
Qed.

(** C9: [utils.format_bytes] divides by 1024 from unit to unit and prints
    the value, with one decimal, at the first unit where its magnitude is
    below 1024 (at PB when there is none); 0 gives "0.0B", 1536 gives
    "1.5KB" and 1073741824 gives "1.0GB". *)
Theorem format_bytes_first_unit :
  (forall (size : Z) (k : nat),
      (k <= 5)%nat ->
      (forall j, (j < k)%nat -> ~ Qabs (scaled size j) < 1024) ->
      ((k < 5)%nat -> Qabs (scaled size k) < 1024) ->
      Utils.format_bytes size
      = format_1f (scaled size k) +:+ nth k unit_ladder "PB")
  /\ Utils.format_bytes 0 = "0.0B"
  /\ Utils.format_bytes 1536 = "1.5KB"
  /\ Utils.format_bytes 1073741824 = "1.0GB".
Proof.
  split; [|repeat split; vm_compute; reflexivity].
  intros size k Hk Hbefore Hhere.
  unfold Utils.format_bytes.
  rewrite (format_loop_at _ _ (PInt size) k).
  - fold (num_at size k). rewrite as_float_num_at. reflexivity.
  - simpl. exact Hk.
  - intros j Hj. fold (num_at size j). rewrite abs_lt_num_at.
    apply not_true_is_false. intros Hb. apply Qlt_bool_iff in Hb.
    exact (Hbefore j Hj Hb).
  - simpl. intros Hlt. fold (num_at size k). rewrite abs_lt_num_at.
    apply Qlt_bool_iff. apply Hhere. lia.
Qed.

(** 1536 bytes: not below 1024 as bytes, 1.5 once divided, hence "1.5KB". *)
Lemma format_bytes_first_unit_witness :
  Utils.format_bytes 1536 = format_1f (scaled 1536 1) +:+ "KB".
Proof.
  refine (proj1 format_bytes_first_unit 1536%Z 1%nat _ _ _).
  - lia.
  - intros j Hj. assert (j = 0)%nat as -> by lia.
    vm_compute. intros H. discriminate H.
  - intros _. vm_compute. reflexivity.
Defined.

(** One more unit in the list changes nothing when the test of that unit
    succeeds: the longer loop returns there, the shorter one falls through
    to the same unit. *)
Lemma format_loop_snoc (units : list string) (u last : string) (v : num) :
  abs_lt_1024 (Nat.iter (length units) div_1024 v) = true ->
  format_loop (units ++ [u]) last v = format_loop units u v.
Proof.
  revert v. induction units as [|u0 units IH]; intros v Hv; simpl in *.
  - now rewrite Hv.
  - destruct (abs_lt_1024 v); [reflexivity|].
    apply IH. now rewrite <- Nat.iter_succ_r.
Qed.

Lemma format_loop_all_false (units : list string) (last : string) (v : num) :
  (forall j, (j < length units)%nat -> abs_lt_1024 (Nat.iter j div_1024 v) = false) ->
  format_loop units last v
  = format_1f (as_float (Nat.iter (length units) div_1024 v)) +:+ last.
Proof.
  intros Hall.
  rewrite (format_loop_at units last v (length units)); [|lia|exact Hall|lia].
  rewrite nth_middle. reflexivity.
Qed.

Lemma Qabs_div_1024 (x : Q) : Qabs (x / 1024) == Qabs x / 1024.
Proof.
  unfold Qdiv. rewrite Qabs_Qmult. reflexivity.
Qed.

Lemma scaled_succ (size : Z) (k : nat) : scaled size (S k) = scaled size k / 1024.
Proof. reflexivity. Qed.

(** Magnitudes through the divisions: [|size| < 1024^(k+1)] puts the value
    below 1024 after [k] rounds, [1024^(k+1) <= |float size|] keeps it at
    1024 or more. *)
Lemma scaled_lt (size : Z) (k : nat) (c : Q) :
  Qabs (float_of_int size) < c * inject_Z (1024 ^ Z.of_nat k) ->
  Qabs (scaled size k) < c.
Proof.
  revert c. induction k as [|k IH]; intros c Hc.
  - simpl in Hc. unfold scaled. simpl. now rewrite Qmult_1_r in Hc.
  - rewrite scaled_succ, Qabs_div_1024.
    apply Qlt_shift_div_r; [reflexivity|].
    apply IH. rewrite Nat2Z.inj_succ, Z.pow_succ_r in Hc by lia.
    rewrite inject_Z_mult in Hc. now rewrite <- Qmult_assoc.
Qed.

Lemma scaled_ge (size : Z) (k : nat) (c : Q) :
  c * inject_Z (1024 ^ Z.of_nat k) <= Qabs (float_of_int size) ->
  c <= Qabs (scaled size k).
Proof.
  revert c. induction k as [|k IH]; intros c Hc.
  - simpl in Hc. unfold scaled. simpl. now rewrite Qmult_1_r in Hc.
  - rewrite scaled_succ, Qabs_div_1024.
    apply Qle_shift_div_l; [reflexivity|].
    apply IH. rewrite Nat2Z.inj_succ, Z.pow_succ_r in Hc by lia.
    rewrite inject_Z_mult in Hc. now rewrite <- Qmult_assoc.
Qed.

Lemma float_of_int_pebi (size : Z) :
  (1024 ^ 5 <= size)%Z -> inject_Z (1024 ^ 5) <= Qabs (float_of_int size).
Proof.
  intros Hge. destruct (Z.ltb_spec (Z.abs size) (2 ^ 53)) as [Hs|Hb].
  - rewrite (float_of_int_small size Hs), Qabs_inject_Z, <- Zle_Qle. lia.
  - apply Qle_trans with (inject_Z (2 ^ 52)); [|now apply float_of_int_big].
    rewrite <- Zle_Qle. lia.
Qed.

Lemma not_lt_num_at_pebi (size : Z) (j : nat) :
  (1024 ^ 5 <= size)%Z -> (j <= 4)%nat -> abs_lt_1024 (num_at size j) = false.
Proof.
  intros Hge Hj. rewrite abs_lt_num_at. apply Qlt_bool_false_iff.
  apply scaled_ge.
  apply Qle_trans with (inject_Z (1024 ^ 5)); [|now apply float_of_int_pebi].
  change 1024 with (inject_Z 1024) at 1.
  rewrite <- inject_Z_mult, <- Zle_Qle.
  change (1024 ^ 5)%Z with (1024 * 1024 ^ 4)%Z.
  apply Z.mul_le_mono_nonneg_l; [lia|].
  apply Z.pow_le_mono_r; lia.
Qed.

Lemma lt_num_at_tebi (size : Z) :
  (0 <= size < 1024 ^ 5)%Z -> abs_lt_1024 (num_at size 4) = true.
Proof.
  intros Hr. rewrite abs_lt_num_at. apply Qlt_bool_iff.
  apply scaled_lt.
  rewrite float_of_int_small by lia.
  rewrite Qabs_inject_Z. change 1024 with (inject_Z 1024) at 1.
  rewrite <- inject_Z_mult, <- Zlt_Qlt. simpl Z.of_nat. lia.
Qed.

Lemma unit_suffix_differs (a b : string) : a +:+ "PB" <> b +:+ "TB".
Proof.
  intros Heq.
  apply (f_equal list_ascii_of_string) in Heq.
  assert (Happ : forall s t, list_ascii_of_string (s +:+ t)
                             = list_ascii_of_string s ++ list_ascii_of_string t).
  { intros s t. induction s as [|c s IH]; simpl; [reflexivity|now rewrite IH]. }
  rewrite !Happ in Heq.
  apply app_inj_2 in Heq; [|reflexivity].
  destruct Heq as [_ Heq]. discriminate Heq.
Qed.

(** C10: the formatter of [utils.py] (ladder up to PB) and the formatter of
    [logs_routes.py] (ladder up to TB) print the same text for every size
    from 0 up to, not including, [1024^5]; from [1024^5] on they differ. *)
Theorem format_bytes_agree_below_pebibyte (size : Z) :
  (0 <= size)%Z ->
  ((size < 1024 ^ 5)%Z -> Utils.format_bytes size = LogsFormat.format_bytes size)
  /\ ((1024 ^ 5 <= size)%Z -> Utils.format_bytes size <> LogsFormat.format_bytes size).
Proof.
  intros Hpos. split.
  - intros Hlt. unfold Utils.format_bytes, LogsFormat.format_bytes.
    apply (format_loop_snoc ["B"; "KB"; "MB"; "GB"] "TB" "PB" (PInt size)).
    apply (lt_num_at_tebi size). lia.
  - intros Hge. unfold Utils.format_bytes, LogsFormat.format_bytes.
    rewrite !format_loop_all_false.
    + apply unit_suffix_differs.
    + intros j Hj. simpl in Hj. apply (not_lt_num_at_pebi size j Hge). lia.
    + intros j Hj. simpl in Hj. apply (not_lt_num_at_pebi size j Hge). lia.
Qed.

(** Just below one pebibyte both print "1024.0TB"; at one pebibyte one
    prints "1.0PB" and the other "1024.0TB". *)
Lemma format_bytes_agree_below_pebibyte_witness :
  (Utils.format_bytes (1024 ^ 5 - 1) = LogsFormat.format_bytes (1024 ^ 5 - 1))
  /\ Utils.format_bytes (1024 ^ 5) <> LogsFormat.format_bytes (1024 ^ 5).
Proof.
  split.
  - apply (format_bytes_agree_below_pebibyte (1024 ^ 5 - 1)); vm_compute;
      [discriminate|reflexivity].
  - apply (format_bytes_agree_below_pebibyte (1024 ^ 5)); vm_compute; discriminate.
Defined.

End FormatBytes.

(** ** Reading a window of a log *)

Section LogWindow.
Import PyNum LogsRoutes Props.

Lemma py_slice_from_end {A : Type} (l : list A) (n : Z) :
  (0 < n < Z.of_nat (length l))%Z ->
  py_slice l (Some (- n)%Z) None = drop (length l - Z.to_nat n) l.
Proof.
  intros Hn. unfold py_slice, slice_bound.
  destruct (Z.ltb_spec (- n) 0); [|lia].
  rewrite Z.max_l by lia.
  replace (Z.to_nat (- n + Z.of_nat (length l))) with (length l - Z.to_nat n)%nat by lia.
  apply take_ge. rewrite length_drop. lia.
Qed.

Lemma py_slice_forward {A : Type} (l : list A) (i n : Z) :
  (0 <= i)%Z -> (0 <= n)%Z ->
  py_slice l (Some i) (Some (i + n)%Z) = take (Z.to_nat n) (drop (Z.to_nat i) l).
Proof.
  intros Hi Hn. unfold py_slice, slice_bound.
  destruct (Z.ltb_spec i 0); [lia|].
  destruct (Z.ltb_spec (i + n) 0); [lia|].
  set (len := Z.of_nat (length l)).
  destruct (Z.le_gt_cases len i) as [Hout|Hin].
  - rewrite (Z.min_r i len) by lia.
    rewrite (drop_ge l (Z.to_nat len)) by (unfold len; lia).
    rewrite (drop_ge l (Z.to_nat i)) by (unfold len in Hout; lia).
    now rewrite !take_nil.
  - rewrite (Z.min_l i len) by lia.
    destruct (Z.le_gt_cases (i + n) len) as [Hfit|Hcut].
    + rewrite Z.min_l by lia. f_equal. lia.
    + rewrite Z.min_r by lia.
      rewrite !take_ge; [reflexivity| |]; rewrite length_drop; unfold len in *; lia.
Qed.

(** With [offset] 0 and a window of at least one line, the page is the tail
    of the file. *)
Lemma read_window_tail (all_lines : list string) (lines offset : Z) :
  (1 <= lines)%Z -> (offset <= 0)%Z ->
  let n := Z.min lines 1000 in
  let page := read_window all_lines lines offset in
  selected_lines page = drop (length all_lines - Z.to_nat n) all_lines
  /\ start_line page = Z.max (Z.of_nat (length all_lines) - n) 0
  /\ total_lines page = Z.of_nat (length all_lines).
Proof.
  intros Hl Ho n page. subst page. unfold read_window. fold n.
  rewrite (Z.max_r offset 0) by lia. simpl (0 =? 0)%Z. cbv iota.
  split; [|split; reflexivity]. simpl selected_lines.
  destruct (Z.ltb_spec n (Z.of_nat (length all_lines))) as [Hlt|Hge].
  - apply py_slice_from_end. lia.
  - replace (length all_lines - Z.to_nat n)%nat with 0%nat by lia. reflexivity.
Qed.

(** With a positive [offset] the page is the window that starts there. *)
Lemma read_window_forward (all_lines : list string) (lines offset : Z) :
  (0 <= lines)%Z -> (1 <= offset)%Z ->
  let n := Z.min lines 1000 in
  let page := read_window all_lines lines offset in
  selected_lines page = take (Z.to_nat n) (drop (Z.to_nat offset) all_lines)
  /\ start_line page = offset
  /\ total_lines page = Z.of_nat (length all_lines).
Proof.
  intros Hl Ho n page. subst page. unfold read_window. fold n.
  rewrite (Z.max_l offset 0) by lia.
  destruct (Z.eqb_spec offset 0) as [?|_]; [lia|].
  split; [|split; reflexivity]. simpl selected_lines.
  apply py_slice_forward; lia.
Qed.

(** Its last five lines at [lines=5], [offset=0]: lines 6 to 10, from
    [start_line] 5 of 10. *)
Lemma read_window_ten_lines :
  read_window ten_lines 5 0
  = LogPage (map (fun i : nat => "line " +:+ pretty i +:+ newline) (seq 6 5))
            5 10 5 10.
Proof. vm_compute. reflexivity. Qed.

(** C6: at [lines=0], [offset=0] the tail of the file is not the empty
    window the request asks for: [all_lines[-0:]] is the whole file, and
    [start_line] is the number of lines, so the page claims to end past the
    end of the file. *)
Theorem read_window_zero_lines_whole_file :
  let page := read_window three_lines 0 0 in
  selected_lines page = three_lines
  /\ selected_lines page <> drop (length three_lines - 0) three_lines
  /\ start_line page = 3%Z
  /\ end_line page = 6%Z
  /\ total_lines page = 3%Z.
Proof.
  vm_compute. repeat split; try reflexivity. intros H. discriminate H.
Qed.

(** A negative [lines] cuts the head of the file instead. *)
Lemma read_window_negative_lines :
  selected_lines (read_window ["a"; "b"; "c"; "d"] (-1) 0) = ["b"; "c"; "d"]
  /\ start_line (read_window ["a"; "b"; "c"; "d"] (-1) 0) = 5%Z.
Proof. vm_compute. split; reflexivity. Qed.

End LogWindow.

(** ** The handlers *)

Section Handlers.
Import PyStr Host UtilsIO Props.
Context `{Subprocess} (cfg : config).

#[local] Arguments String.append !_ _ / : simpl nomatch.

(** Unfolds one layer of the state-passing plumbing. *)
Ltac step := unfold mbind, M_bind, mret, M_ret, os_path_exists in *; simpl in *.

Lemma events_since_refl (m : machine) : events_since m m = [].
Proof. unfold events_since. apply drop_all. Qed.

Lemma events_since_app (m : machine) (h : host) (evs : list event) :
  events_since m (Machine h (m_trace m ++ evs)) = evs.
Proof. unfold events_since. simpl. apply drop_app_length. Qed.

Lemma string_length_app (a b : string) :
  String.length (a +:+ b) = (String.length a + String.length b)%nat.
Proof. induction a as [|c a IH]; simpl; [reflexivity|now rewrite IH]. Qed.

(** A joined path is at least as long as its last component. *)
Lemma join_length (a b : string) :
  (String.length b <= String.length (OsPath.join a b))%nat.
Proof.
  unfold OsPath.join.
  destruct (startswith b "/"); [lia|].
  destruct (String.eqb a "" || endswith a "/"); rewrite !string_length_app; lia.
Qed.

Lemma restore_script_not_pgrep : RESTORE_SCRIPT cfg <> "pgrep".
Proof.
  intros Heq. pose proof (join_length (SCRIPTS_DIR cfg) "restore.sh") as Hlen.
  unfold RESTORE_SCRIPT in Heq. rewrite Heq in Hlen. simpl in Hlen. lia.
Qed.

(** What a probe does to the machine: one [pgrep] is started, nothing else
    is recorded. *)
Lemma is_server_running_trace (m : machine) :
  m_trace (snd (is_server_running m)) = m_trace m ++ [Spawned pgrep_server].
Proof.
  unfold is_server_running, run_command, subprocess_run. step.
  destruct (spawn pgrep_server 30 (m_host m)) as [o h']. simpl.
  destruct o as [rc out err| |msg]; reflexivity.
Qed.

Lemma is_server_running_events (m : machine) :
  events_since m (snd (is_server_running m)) = [Spawned pgrep_server].
Proof.
  unfold events_since. rewrite is_server_running_trace. apply drop_app_length.
Qed.

(** C1: a restore of a backup that exists, asked for while the probe finds
    the server process, is answered with status 400, and no program but the
    probe is started: the restore script never runs, whatever the query
    string holds. *)
Theorem restore_backup_refused_while_running
    (filename : string) (req : request) (m : machine) :
  is_Some (fs (m_host m) !! OsPath.join (BACKUP_DIR cfg) filename) ->
  fst (is_server_running m) = true ->
  let out := BackupsRoutes.restore_backup cfg filename req m in
  status (fst out) = 400%Z
  /\ (forall ev, In ev (events_since m (snd out)) -> ev = Spawned pgrep_server)
  /\ (forall args, ~ In (Spawned (RESTORE_SCRIPT cfg :: args))
                        (events_since m (snd out))).
Proof.
  intros Hfile Hrun out.
  assert (Hout : status (fst out) = 400%Z
                 /\ forall ev, In ev (events_since m (snd out))
                               -> ev = Spawned pgrep_server).
  { subst out. unfold BackupsRoutes.restore_backup.
    destruct (contains ".." filename || contains "/" filename).
    - step. rewrite events_since_refl. split; [reflexivity|intros ev []].
    - step. rewrite bool_decide_eq_true_2 by exact Hfile. simpl.
      pose proof (is_server_running_events m) as Hev.
      destruct (is_server_running m) as [running m1]. simpl in *. subst running.
      simpl. rewrite Hev. split; [reflexivity|].
      intros ev [<-|[]]. reflexivity. }
  destruct Hout as [Hst Hev]. split; [exact Hst|]. split; [exact Hev|].
  intros args Hin. apply Hev in Hin. injection Hin as Hin _.
  exact (restore_script_not_pgrep Hin).
Qed.

(** C7: a world that exists is not deleted unless the [confirm] parameter is
    its own sanitised name: any other value, or none, is answered with
    status 400 and the machine, the world file with it, is left as it was. *)
Theorem delete_world_needs_own_name (name : string) (req : request) (m : machine) :
  is_Some (fs (m_host m) !! WorldsRoutes.world_path cfg (sanitize name)) ->
  args_get req "confirm" "" <> sanitize name ->
  let out := WorldsRoutes.delete_world cfg name req m in
  status (fst out) = 400%Z /\ snd out = m.
Proof.
  intros Hfile Hconfirm out. subst out. unfold WorldsRoutes.delete_world. step.
  rewrite bool_decide_eq_true_2 by exact Hfile. simpl.
  destruct (String.eqb_spec (args_get req "confirm" "") (sanitize name)) as [He|_];
    [contradiction|].
  simpl. split; reflexivity.
Qed.

(** C8, as the code has it: a backup that exists is not deleted unless the
    [confirm] parameter, put in lower case, is ["true"]: any other value is
    answered with status 400 and the machine, the file with it, is left as
    it was. *)
Theorem delete_backup_needs_true_any_case
    (filename : string) (req : request) (m : machine) :
  is_Some (fs (m_host m) !! OsPath.join (BACKUP_DIR cfg) filename) ->
  lower (args_get req "confirm" "false") <> "true" ->
  let out := BackupsRoutes.delete_backup cfg filename req m in
  status (fst out) = 400%Z /\ snd out = m.
Proof.
  intros Hfile Hconfirm out. subst out. unfold BackupsRoutes.delete_backup.
  destruct (contains ".." filename || contains "/" filename);
    [split; reflexivity|].
  step. rewrite bool_decide_eq_true_2 by exact Hfile. simpl.
  destruct (String.eqb_spec (lower (args_get req "confirm" "false")) "true")
    as [He|_]; [contradiction|].
  simpl. split; reflexivity.
Qed.

(** With the confirmation given in any case, a regular file under a plain
    name is removed and the answer is 200. *)
Lemma delete_backup_confirmed
    (filename : string) (req : request) (m : machine) (n : node) :
  contains ".." filename || contains "/" filename = false ->
  fs (m_host m) !! OsPath.join (BACKUP_DIR cfg) filename = Some n ->
  is_dir n = false ->
  lower (args_get req "confirm" "false") = "true" ->
  let out := BackupsRoutes.delete_backup cfg filename req m in
  status (fst out) = 200%Z
  /\ fs (m_host (snd out)) !! OsPath.join (BACKUP_DIR cfg) filename = None.
Proof.
  intros Hname Hfile Hreg Hconfirm out. subst out.
  unfold BackupsRoutes.delete_backup. rewrite Hname.
  step. rewrite bool_decide_eq_true_2 by (rewrite Hfile; eauto). simpl.
  rewrite Hconfirm. simpl. unfold os_remove. rewrite Hfile, Hreg. simpl.
  split; [reflexivity|]. apply lookup_delete_eq.
Qed.

Lemma create_world_run
    (req : request) (fields : list (string * json)) (name : string) (m : machine) :
  json_body req = Some (JObj fields) ->
  dict_get fields "name" (JStr "") = JStr name ->
  sanitize name <> "" ->
  fs (m_host m) !! WorldsRoutes.world_path cfg (sanitize name) = None ->
  exists r,
    WorldsRoutes.create_world cfg req m = (r, after_world_manager cfg m)
    /\ status r
       = match fs (m_host (after_world_manager cfg m))
               !! WorldsRoutes.world_path cfg (sanitize name) with
         | Some _ => 201%Z
         | None => 500%Z
         end.
Proof.
  intros Hbody Hname Hsan Hfree.
  unfold after_world_manager, WorldsRoutes.create_world.
  rewrite Hbody.
  assert (Hfields : json_truthy (JObj fields) = true).
  { destruct fields as [|f fields]; [|reflexivity].
    unfold dict_get in Hname. simpl in Hname. injection Hname as <-.
    now contradiction Hsan. }
  rewrite Hfields, Hname. cbn [negb json_truthy].
  assert (Htruthy : truthy name = true).
  { destruct name; [now contradiction Hsan|reflexivity]. }
  assert (Hsant : truthy (sanitize name) = true).
  { destruct (sanitize name); [now contradiction Hsan|reflexivity]. }
  rewrite Htruthy, Hsant. cbn [negb].
  unfold mbind, M_bind at 1. unfold os_path_exists at 1. cbn beta iota.
  rewrite Hfree. rewrite bool_decide_eq_false_2 by (intros [? ?]; discriminate).
  unfold mbind, M_bind at 1.
  destruct (run_script (WORLD_MANAGER_SCRIPT cfg) ["create-auto"] 300 m)
    as [[[success stdout] stderr] m1].
  cbn [snd].
  unfold mbind, M_bind at 1. unfold os_path_exists at 1. cbn beta iota.
  destruct (fs (m_host m1) !! WorldsRoutes.world_path cfg (sanitize name))
    as [n|] eqn:Hafter.
  - rewrite bool_decide_eq_true_2 by eauto.
    unfold get_file_info, os_stat. step. rewrite !Hafter.
    rewrite bool_decide_eq_true_2 by eauto. simpl. rewrite ?Hafter.
    eexists. split; reflexivity.
  - rewrite bool_decide_eq_false_2 by (intros [? ?]; discriminate).
    step. eexists. split; reflexivity.
Qed.

(** C2: once a request for a new world has passed the checks on its name and
    the world manager has been run, the answer depends on the disk alone:
    201 when the world file is there, 500 when it is not, whatever the
    script reported. *)
Theorem create_world_outcome_is_file_presence
    (req : request) (fields : list (string * json)) (name : string) (m : machine) :
  json_body req = Some (JObj fields) ->
  dict_get fields "name" (JStr "") = JStr name ->
  sanitize name <> "" ->
  fs (m_host m) !! WorldsRoutes.world_path cfg (sanitize name) = None ->
  let out := WorldsRoutes.create_world cfg req m in
  let m' := after_world_manager cfg m in
  let present := fs (m_host m') !! WorldsRoutes.world_path cfg (sanitize name) in
  snd out = m'
  /\ (is_Some present -> status (fst out) = 201%Z)
  /\ (present = None -> status (fst out) = 500%Z).
Proof.
  intros Hbody Hname Hsan Hfree out m' present.
  destruct (create_world_run req fields name m Hbody Hname Hsan Hfree)
    as (r & Hrun & Hst).
  subst out. rewrite Hrun. cbn [fst snd]. fold m' present in Hst |- *.
  split; [reflexivity|]. rewrite Hst. split.
  - intros [n Hn]. now rewrite Hn.
  - intros Hn. now rewrite Hn.
Qed.

Lemma run_command_trace (cmd : list string) (timeout : Z) (m : machine) :
  m_trace (snd (run_command cmd timeout m)) = m_trace m ++ [Spawned cmd].
Proof.
  unfold run_command, subprocess_run.
  destruct (spawn cmd timeout (m_host m)) as [o h']. reflexivity.
Qed.

(** A start or a stop begins with the probe; when the probe allows it, the
    daemon command follows and ends the run. *)
Lemma start_server_events (m : machine) :
  let out := ServerRoutes.start_server m in
  events_since m (snd out)
  = if fst (is_server_running m) then [Spawned pgrep_server]
    else [Spawned pgrep_server; Spawned (ServerRoutes.supervisorctl "start")].
Proof.
  unfold ServerRoutes.start_server. unfold mbind, M_bind at 1.
  pose proof (is_server_running_trace m) as Ht.
  destruct (is_server_running m) as [running m1]. cbn [fst snd] in *.
  destruct running.
  - step. unfold events_since. rewrite Ht. apply drop_app_length.
  - unfold mbind, M_bind.
    pose proof (run_command_trace (ServerRoutes.supervisorctl "start") 30 m1) as Hc.
    destruct (run_command (ServerRoutes.supervisorctl "start") 30 m1)
      as [[[success stdout] stderr] m2]. cbn [fst snd] in *.
    assert (Hm2 : m_trace m2 = m_trace m
                    ++ [Spawned pgrep_server;
                        Spawned (ServerRoutes.supervisorctl "start")]).
    { rewrite Hc, Ht, <- app_assoc. reflexivity. }
    destruct (success || contains "already started" (lower stdout));
      unfold mret, M_ret; cbn [snd]; unfold events_since; rewrite Hm2;
      apply drop_app_length.
Qed.

Lemma stop_server_events (m : machine) :
  let out := ServerRoutes.stop_server m in
  events_since m (snd out)
  = if fst (is_server_running m)
    then [Spawned pgrep_server; Spawned (ServerRoutes.supervisorctl "stop")]
    else [Spawned pgrep_server].
Proof.
  unfold ServerRoutes.stop_server. unfold mbind, M_bind at 1.
  pose proof (is_server_running_trace m) as Ht.
  destruct (is_server_running m) as [running m1]. cbn [fst snd] in *.
  destruct running; cbn [negb].
  - unfold mbind, M_bind.
    pose proof (run_command_trace (ServerRoutes.supervisorctl "stop") 30 m1) as Hc.
    destruct (run_command (ServerRoutes.supervisorctl "stop") 30 m1)
      as [[[success stdout] stderr] m2]. cbn [fst snd] in *.
    assert (Hm2 : m_trace m2 = m_trace m
                    ++ [Spawned pgrep_server;
                        Spawned (ServerRoutes.supervisorctl "stop")]).
    { rewrite Hc, Ht, <- app_assoc. reflexivity. }
    destruct (success || contains "already stopped" (lower stdout));
      unfold mret, M_ret; cbn [snd]; unfold events_since; rewrite Hm2;
      apply drop_app_length.
  - step. unfold events_since. rewrite Ht. apply drop_app_length.
Qed.

Lemma no_reprobe_in_probe_then_command (cmd c : list string) :
  cmd <> pgrep_server ->
  ~ reprobes_after cmd [Spawned pgrep_server]
  /\ ~ reprobes_after cmd [Spawned pgrep_server; Spawned c].
Proof.
  intros Hne. split; intros (pre & post & Heq & Hin).
  - destruct pre as [|e [|e' pre]]; simpl in Heq.
    + injection Heq as Heq _. congruence.
    + injection Heq as _ Heq. discriminate Heq.
    + injection Heq as _ Heq. discriminate Heq.
  - destruct pre as [|e [|e' [|e'' pre]]]; simpl in Heq.
    + injection Heq as Heq _. congruence.
    + injection Heq as _ _ Heq. subst post. destruct Hin.
    + injection Heq as _ _ Heq. discriminate Heq.
    + injection Heq as _ _ Heq. discriminate Heq.
Qed.

(** C3, as the code has it: a start and a stop probe the server process
    once, before the daemon command, and never after it; the programs a
    start or a stop runs are the probe alone when the request is refused and
    the probe followed by the daemon command otherwise. *)
Theorem start_stop_probe_before_only (m : machine) :
  let started := events_since m (snd (ServerRoutes.start_server m)) in
  let stopped := events_since m (snd (ServerRoutes.stop_server m)) in
  (started = [Spawned pgrep_server]
   \/ started = [Spawned pgrep_server;
                 Spawned (ServerRoutes.supervisorctl "start")])
  /\ (stopped = [Spawned pgrep_server]
      \/ stopped = [Spawned pgrep_server;
                    Spawned (ServerRoutes.supervisorctl "stop")])
  /\ ~ reprobes_after (ServerRoutes.supervisorctl "start") started
  /\ ~ reprobes_after (ServerRoutes.supervisorctl "stop") stopped.
Proof.
  intros started stopped. subst started stopped.
  rewrite start_server_events, stop_server_events.
  assert (Hstart : ServerRoutes.supervisorctl "start" <> pgrep_server)
    by discriminate.
  assert (Hstop : ServerRoutes.supervisorctl "stop" <> pgrep_server)
    by discriminate.
  destruct (fst (is_server_running m)); repeat split;
    try (now left); try (now right);
    first [ apply (no_reprobe_in_probe_then_command _ [] Hstart)
          | apply (no_reprobe_in_probe_then_command _ _ Hstart)
          | apply (no_reprobe_in_probe_then_command _ [] Hstop)
          | apply (no_reprobe_in_probe_then_command _ _ Hstop) ].
Qed.

(** The status of a start: 400 when the probe finds the server, otherwise
    what the daemon command gives. *)
Lemma start_server_status (m : machine) :
  status (fst (ServerRoutes.start_server m))
  = if fst (is_server_running m) then 400%Z
    else
      let '(success, stdout, _) :=
        fst (run_command (ServerRoutes.supervisorctl "start") 30
                         (snd (is_server_running m))) in
      if success || contains "already started" (lower stdout)
      then 200%Z else 500%Z.
Proof.
  unfold ServerRoutes.start_server. unfold mbind, M_bind at 1.
  destruct (is_server_running m) as [running m1]. cbn [fst snd].
  destruct running; [reflexivity|].
  unfold mbind, M_bind.
  destruct (run_command (ServerRoutes.supervisorctl "start") 30 m1)
    as [[[success stdout] stderr] m2]. cbn [fst snd].
  destruct (success || contains "already started" (lower stdout)); reflexivity.
Qed.

(** *** The listing of backups *)

Lemma scan_backups_ok (world_filter : string) (names : list string)
    (acc : list BackupsRoutes.backup_entry) (total : Z) (m : machine) :
  Forall entry_ok acc ->
  Forall entry_ok
    (fst (fst (BackupsRoutes.scan_backups cfg world_filter names acc total m))).
Proof.
  revert acc total m. induction names as [|filename names IH];
    intros acc total m Hacc; [exact Hacc|].
  cbn [BackupsRoutes.scan_backups].
  destruct (BackupsRoutes.looks_like_backup filename) eqn:Hlooks; cbn [negb];
    [|now apply IH].
  destruct (BackupName.parse_backup_filename filename) as [p|] eqn:Hparse;
    [|now apply IH].
  destruct (truthy world_filter
            && negb (String.eqb (BackupName.world_name p) world_filter));
    [now apply IH|].
  unfold mbind, M_bind.
  destruct (get_file_info (OsPath.join (BACKUP_DIR cfg) filename) m)
    as [[info|] m1]; [|now apply IH].
  apply IH. apply Forall_app. split; [exact Hacc|].
  constructor; [|constructor].
  split; cbn; [exact Hlooks|]. rewrite Hparse. now destruct p.
Qed.

Lemma insert_desc_ok (x : BackupsRoutes.backup_entry)
    (l : list BackupsRoutes.backup_entry) :
  entry_ok x -> Forall entry_ok l -> Forall entry_ok (BackupsRoutes.insert_desc x l).
Proof.
  intros Hx. induction 1 as [|y l Hy Hl IH]; simpl.
  - constructor; [exact Hx|constructor].
  - destruct (Qle_bool _ _).
    + constructor; [exact Hy|exact IH].
    + constructor; [exact Hx|]. constructor; [exact Hy|exact Hl].
Qed.

Lemma sort_newest_first_ok (l : list BackupsRoutes.backup_entry) :
  Forall entry_ok l -> Forall entry_ok (BackupsRoutes.sort_newest_first l).
Proof.
  unfold BackupsRoutes.sort_newest_first.
  assert (Hgen : forall acc, Forall entry_ok acc -> Forall entry_ok l ->
            Forall entry_ok
              (fold_left (fun acc x => BackupsRoutes.insert_desc x acc) l acc)).
  { induction l as [|x l IH]; intros acc Hacc Hl; simpl; [exact Hacc|].
    inversion Hl; subst. apply IH; [now apply insert_desc_ok|assumption]. }
  now apply Hgen.
Qed.

Import MoreProps.

Lemma get_file_info_reads (p : string) (m : machine) :
  get_file_info p m
  = (match fs (m_host m) !! p with
     | Some n =>
         Some (FileInfo p (OsPath.basename p) (st_size n)
                        (Utils.format_bytes (st_size n)) (st_mtime n) (st_ctime n))
     | None => None
     end, m).
Proof.
  unfold get_file_info, mbind, M_bind, os_path_exists, os_stat, mret, M_ret.
  destruct (fs (m_host m) !! p) as [n|] eqn:E.
  - rewrite bool_decide_eq_true_2 by eauto. cbn. now rewrite E.
  - now rewrite bool_decide_eq_false_2 by (intros [? ?]; discriminate).
Qed.

Lemma scan_backups_reads (world_filter : string) (names : list string)
    (acc : list BackupsRoutes.backup_entry) (total : Z) (m : machine) :
  snd (BackupsRoutes.scan_backups cfg world_filter names acc total m) = m.
Proof.
  revert acc total. induction names as [|filename names IH]; intros acc total;
    [reflexivity|].
  cbn [BackupsRoutes.scan_backups].
  destruct (BackupsRoutes.looks_like_backup filename); cbn [negb]; [|apply IH].
  destruct (BackupName.parse_backup_filename filename) as [p|]; [|apply IH].
  destruct (truthy world_filter
            && negb (String.eqb (BackupName.world_name p) world_filter));
    [apply IH|].
  unfold mbind, M_bind. rewrite get_file_info_reads.
  destruct (fs (m_host m) !! OsPath.join (BACKUP_DIR cfg) filename); apply IH.
Qed.

(** The listing as one expression: the exception of [os.listdir] if the
    backup directory is not a directory, otherwise gather, sort, cut. *)
Lemma list_backups_data_eq (req : request) (m : machine) :
  BackupsRoutes.list_backups_data cfg req m
  = (match listing_raises cfg m with
     | Some e => inl e
     | None =>
         let g := gathered cfg (args_get req "world" "") m in
         let l := limited (args_get_int_opt req "limit")
                          (BackupsRoutes.sort_newest_first (fst g)) in
         inr (BackupsRoutes.BackupListing l (Z.of_nat (length l))
                (Utils.format_bytes (snd g)) (snd g) (BACKUP_RETENTION cfg))
     end, m).
Proof.
  unfold BackupsRoutes.list_backups_data, gathered, limited, listing_raises,
    names_in.
  unfold mbind, M_bind at 1. unfold os_path_exists at 1. cbn beta iota.
  destruct (fs (m_host m) !! BACKUP_DIR cfg) as [d|] eqn:Edir.
  - rewrite !bool_decide_eq_true_2 by eauto.
    unfold mbind, M_bind at 1. unfold mbind, M_bind at 1.
    unfold os_listdir at 1. cbn beta iota. rewrite Edir.
    destruct (is_dir d); [|reflexivity].
    unfold mbind, M_bind at 1.
    match goal with
    | |- context [BackupsRoutes.scan_backups cfg ?w ?names [] 0%Z m] =>
        pose proof (scan_backups_reads w names [] 0 m) as Hm;
        destruct (BackupsRoutes.scan_backups cfg w names [] 0%Z m)
          as [[backups total] m1]
    end.
    cbn [fst snd] in *. subst m1. reflexivity.
  - rewrite !bool_decide_eq_false_2 by (intros [? ?]; discriminate).
    reflexivity.
Qed.

(** Every item of a listing carries a name that the suffix test and the
    parser accepted, with the fields the parser returned. *)
Lemma list_backups_entries_ok (req : request) (m : machine)
    (l : BackupsRoutes.backup_listing) :
  fst (BackupsRoutes.list_backups_data cfg req m) = inr l ->
  Forall entry_ok (BackupsRoutes.l_backups l).
Proof.
  rewrite list_backups_data_eq. cbn [fst].
  destruct (listing_raises cfg m); [discriminate|].
  intros [= <-]. cbn [BackupsRoutes.l_backups].
  assert (Hscan : Forall entry_ok
                    (BackupsRoutes.sort_newest_first
                       (fst (gathered cfg (args_get req "world" "") m)))).
  { apply sort_newest_first_ok. unfold gathered.
    destruct (bool_decide _); [|constructor].
    apply scan_backups_ok. constructor. }
  unfold limited.
  destruct (args_get_int_opt req "limit") as [n|]; [|exact Hscan].
  destruct (negb (n =? 0)%Z && (0 <? n)%Z); [|exact Hscan].
  unfold PyNum.py_slice. apply Forall_take, Forall_drop, Hscan.
Qed.

(** A name the parser refuses is in no listing, and the name of every item
    listed is the one its fields spell. *)
Lemma list_backups_only_parsed (req : request) (m : machine)
    (l : BackupsRoutes.backup_listing) :
  fst (BackupsRoutes.list_backups_data cfg req m) = inr l ->
  forall e, In e (BackupsRoutes.l_backups l) ->
    BackupName.parse_backup_filename (BackupsRoutes.b_filename e) <> None
    /\ BackupName.resynthesize
         (BackupName.Parsed (BackupsRoutes.b_world_name e) (BackupsRoutes.b_date e)
                            (BackupsRoutes.b_time e))
         (BackupsRoutes.b_filename e)
       = BackupsRoutes.b_filename e.
Proof.
  intros Hl e Hin.
  pose proof (list_backups_entries_ok req m l Hl) as Hall.
  rewrite Forall_forall in Hall.
  destruct (Hall e) as [Hlooks Hparse].
  { apply list_elem_of_In. exact Hin. }
  split; [now rewrite Hparse|].
  apply parse_backup_filename_roundtrip; [|exact Hparse].
  now apply looks_like_backup_no_newline.
Qed.

End Handlers.

(** ** The properties on concrete hosts *)

Section Examples.
Import PyStr Host UtilsIO Props Scenario.

(** The server runs, the backup is there, and the request carries both
    flags: refused, and only the probe ran. *)
Lemma restore_backup_refused_while_running_witness :
  let filename := "backup_Foo_20260101_000000.tar.gz" in
  let req := query [("force", "true"); ("no_backup", "true")] in
  let out := BackupsRoutes.restore_backup (H := programs WritesAndFails)
               default_config filename req (boot host_up) in
  status (fst out) = 400%Z
  /\ (forall ev, In ev (events_since (boot host_up) (snd out))
                 -> ev = Spawned pgrep_server)
  /\ (forall args, ~ In (Spawned (RESTORE_SCRIPT default_config :: args))
                        (events_since (boot host_up) (snd out))).
Proof.
  intros filename req.
  apply (restore_backup_refused_while_running (H := programs WritesAndFails)
           default_config filename req (boot host_up)).
  - vm_compute. eexists. reflexivity.
  - vm_compute. reflexivity.
Defined.

(** The world manager fails and leaves the file: 201.  It reports success
    and leaves nothing: 500. *)
Lemma create_world_outcome_is_file_presence_witness :
  let req := post [("name", JStr "Beta"); ("size", JNum 1)] in
  (world_manager_reports WritesAndFails = false
   /\ status (fst (WorldsRoutes.create_world (H := programs WritesAndFails)
                     default_config req (boot host_down))) = 201%Z)
  /\ (world_manager_reports SucceedsEmptyHanded = true
      /\ status (fst (WorldsRoutes.create_world (H := programs SucceedsEmptyHanded)
                        default_config req (boot host_down))) = 500%Z).
Proof.
  intros req. split; (split; [vm_compute; reflexivity|]).
  - apply (create_world_outcome_is_file_presence (H := programs WritesAndFails)
             default_config req [("name", JStr "Beta"); ("size", JNum 1)] "Beta"
             (boot host_down));
      try (vm_compute; reflexivity).
    + vm_compute. discriminate.
    + vm_compute. eexists. reflexivity.
  - apply (create_world_outcome_is_file_presence (H := programs SucceedsEmptyHanded)
             default_config req [("name", JStr "Beta"); ("size", JNum 1)] "Beta"
             (boot host_down));
      try (vm_compute; reflexivity).
    vm_compute. discriminate.
Defined.

(** Deleting the world Alpha with [confirm=true]: refused, nothing
    changed. *)
Lemma delete_world_needs_own_name_witness :
  let out := WorldsRoutes.delete_world (H := programs WritesAndFails)
               default_config "Alpha" (query [("confirm", "true")])
               (boot host_down) in
  status (fst out) = 400%Z /\ snd out = boot host_down.
Proof.
  apply (delete_world_needs_own_name (H := programs WritesAndFails)
           default_config "Alpha" (query [("confirm", "true")]) (boot host_down)).
  - vm_compute. eexists. reflexivity.
  - vm_compute. discriminate.
Defined.

(** C8 as stated fails: [confirm=TRUE] is not the string ["true"], and yet
    the backup is deleted and the answer is 200. *)
Lemma delete_backup_upper_case_confirms :
  let filename := "backup_Foo_20260101_000000.tar.gz" in
  let req := query [("confirm", "TRUE")] in
  let m := boot host_down in
  let out := BackupsRoutes.delete_backup default_config filename req m in
  ~ (is_Some (fs (m_host m) !! OsPath.join (BACKUP_DIR default_config) filename) ->
     args_get req "confirm" "false" <> "true" ->
     status (fst out) = 400%Z /\ snd out = m).
Proof.
  intros filename req m out Hclaim.
  assert (Hst : status (fst out) = 400%Z).
  { apply Hclaim.
    - vm_compute. eexists. reflexivity.
    - vm_compute. discriminate. }
  vm_compute in Hst. discriminate Hst.
Qed.

(** What happens there: status 200 and the file is gone. *)
Lemma delete_backup_upper_case_removes :
  let filename := "backup_Foo_20260101_000000.tar.gz" in
  let out := BackupsRoutes.delete_backup default_config filename (query [("confirm", "TRUE")])
               (boot host_down) in
  status (fst out) = 200%Z
  /\ fs (m_host (snd out)) !! OsPath.join (BACKUP_DIR default_config) filename = None.
Proof. vm_compute. split; reflexivity. Qed.

(** [confirm=yes]: refused, nothing changed. *)
Lemma delete_backup_needs_true_any_case_witness :
  let out := BackupsRoutes.delete_backup default_config "backup_Foo_20260101_000000.tar.gz"
               (query [("confirm", "yes")]) (boot host_down) in
  status (fst out) = 400%Z /\ snd out = boot host_down.
Proof.
  apply (delete_backup_needs_true_any_case
           default_config "backup_Foo_20260101_000000.tar.gz"
           (query [("confirm", "yes")]) (boot host_down)).
  - vm_compute. eexists. reflexivity.
  - vm_compute. discriminate.
Defined.

(** C3 as stated fails: a start on a host where the server is down sends
    the daemon command, answers 200, and the run ends there, without a
    second probe. *)
Lemma start_server_does_not_reprobe :
  let out := ServerRoutes.start_server (H := programs WritesAndFails)
               (boot host_down) in
  let evs := events_since (boot host_down) (snd out) in
  status (fst out) = 200%Z
  /\ evs = [Spawned pgrep_server; Spawned (ServerRoutes.supervisorctl "start")]
  /\ ~ reprobes_after (ServerRoutes.supervisorctl "start") evs.
Proof.
  intros out evs.
  assert (Hevs : evs = [Spawned pgrep_server;
                        Spawned (ServerRoutes.supervisorctl "start")])
    by (vm_compute; reflexivity).
  split; [vm_compute; reflexivity|]. split; [exact Hevs|].
  rewrite Hevs.
  apply (no_reprobe_in_probe_then_command (ServerRoutes.supervisorctl "start")).
  discriminate.
Qed.

(** The same for a stop on a host where the server is up. *)
Lemma stop_server_does_not_reprobe :
  let out := ServerRoutes.stop_server (H := programs WritesAndFails)
               (boot host_up) in
  let evs := events_since (boot host_up) (snd out) in
  status (fst out) = 200%Z
  /\ evs = [Spawned pgrep_server; Spawned (ServerRoutes.supervisorctl "stop")]
  /\ ~ reprobes_after (ServerRoutes.supervisorctl "stop") evs.
Proof.
  intros out evs.
  assert (Hevs : evs = [Spawned pgrep_server;
                        Spawned (ServerRoutes.supervisorctl "stop")])
    by (vm_compute; reflexivity).
  split; [vm_compute; reflexivity|]. split; [exact Hevs|].
  rewrite Hevs.
  apply (no_reprobe_in_probe_then_command (ServerRoutes.supervisorctl "stop")).
  discriminate.
Qed.

(** [GET /logs/server?lines=0] on the three-line log: the whole file comes
    back, numbered from line 3 to line 6. *)
Lemma get_log_zero_lines :
  LogsRoutes.get_log default_config "server" (query [("lines", "0")]) (boot host_up)
  = (Response 200
       (JObj [("log_type", JStr "server");
              ("filename", JStr "terraria-stdout.log");
              ("exists", JBool true);
              ("content", JStr ("one" +:+ lf +:+ "two" +:+ lf +:+ "three" +:+ lf));
              ("lines_returned", JNum 3); ("total_lines", JNum 3);
              ("start_line", JNum 3); ("end_line", JNum 6)]),
     boot host_up).
Proof. vm_compute. reflexivity. Qed.

(** The listing of the backup directory shows the backup and leaves out the
    foreign file next to it. *)
Lemma list_backups_skips_foreign_files :
  exists l,
    fst (BackupsRoutes.list_backups_data default_config (query []) (boot host_down))
    = inr l
    /\ map BackupsRoutes.b_filename (BackupsRoutes.l_backups l)
       = ["backup_Foo_20260101_000000.tar.gz"].
Proof. eexists. split; vm_compute; reflexivity. Qed.

End Examples.

(** ** Further properties: names, texts and sizes *)

Section MoreText.
Import PyStr PyNum Regex BackupName Props MoreProps.
#[local] Arguments String.append !_ _ / : simpl nomatch.

(** A name is left as it is by the sanitisation exactly when it is made of
    the characters of [[A-Za-z0-9_-]]. *)
Theorem sanitize_fixes_exactly_valid_names (s : string) :
  sanitize s = s <-> forall c, In c (chars s) -> In c (chars name_alphabet).
Proof.
  split.
  - intros Hfix c Hc. apply name_class_alphabet.
    rewrite <- Hfix in Hc. exact (sanitize_chars s c Hc).
  - intros Hall. apply re_sub_delete_fixed. intros c Hc.
    apply negb_false_iff, alphabet_name_class, Hall, Hc.
Qed.

Lemma contains_false_chars (needle : ascii) (s : string) :
  ~ In needle (chars s) -> contains (String needle "") s = false.
Proof.
  induction s as [|c s IH]; intros Hnot; [reflexivity|].
  simpl in Hnot. cbn [contains is_prefix].
  destruct (Ascii.eqb_spec needle c) as [->|_]; [tauto|].
  simpl. apply IH. tauto.
Qed.

Lemma sanitize_no_char (bad : ascii) (s : string) :
  name_class bad = false -> ~ In bad (chars (sanitize s)).
Proof.
  intros Hbad Hin. apply sanitize_chars in Hin. congruence.
Qed.


Lemma join_plain (d b : string) :
  startswith b "/" = false -> OsPath.join d b = Host.dir_prefix d +:+ b.
Proof.
  intros Hb. unfold OsPath.join, Host.dir_prefix. rewrite Hb.
  destruct (String.eqb d "" || endswith d "/"); [reflexivity|].
  now rewrite string_app_assoc.
Qed.

Lemma contains_dotdot_no_dot (s tail : string) :
  ~ In "."%char (chars s) -> contains ".." tail = false ->
  startswith tail ".." = false ->
  contains ".." (s +:+ tail) = false.
Proof.
  intros Hnot Htail Hstart. induction s as [|c s IH]; [exact Htail|].
  simpl in Hnot. cbn [String.append contains is_prefix].
  destruct (Ascii.eqb_spec "." c) as [<-|_];
    [exfalso; apply Hnot; now left|].
  simpl. apply IH. intros Hin. apply Hnot. now right.
Qed.

(** No name a user sends can lead out of the world directory: whatever the
    name, the path of its world file is the directory followed by one file
    name, the sanitised name with [.wld], which holds no [/] and no [..]. *)
Theorem world_path_stays_in_world_dir (cfg : Host.config) (name : string) :
  WorldsRoutes.world_path cfg (sanitize name)
  = Host.dir_prefix (Host.WORLD_DIR cfg) +:+ (sanitize name +:+ ".wld")
  /\ contains "/" (sanitize name +:+ ".wld") = false
  /\ contains ".." (sanitize name +:+ ".wld") = false.
Proof.
  assert (Hslash : ~ In "/"%char (chars (sanitize name +:+ ".wld"))).
  { rewrite chars_app, in_app_iff. intros [Hin|Hin].
    - now apply (sanitize_no_char "/" name).
    - vm_compute in Hin. intuition discriminate. }
  split; [|split].
  - unfold WorldsRoutes.world_path. apply join_plain.
    unfold startswith. destruct (sanitize name +:+ ".wld") as [|c rest] eqn:E;
      [reflexivity|].
    cbn [is_prefix]. destruct (Ascii.eqb_spec "/" c) as [<-|_]; [|reflexivity].
    exfalso. apply Hslash. simpl. now left.
  - now apply contains_false_chars.
  - apply contains_dotdot_no_dot; [|reflexivity|reflexivity].
    now apply (sanitize_no_char "." name).
Qed.

(** *** Ways of matching, built *)

Lemma strip_prefix_same (p s : text) : strip_prefix p (p ++ s) = Some s.
Proof.
  induction p as [|a p IH]; simpl; [reflexivity|]. now rewrite Ascii.eqb_refl.
Qed.

Lemma ways_lit_app (l : string) (s : text) :
  ways (Lit l) (chars l ++ s) = [([], s)].
Proof. simpl. now rewrite strip_prefix_same. Qed.

Lemma in_plus_ways_intro (p : ascii -> bool) (t s : text) :
  t <> [] -> forallb p t = true -> In ([], s) (plus_ways p (t ++ s)).
Proof.
  induction t as [|c t IH]; intros Hne Hall; [congruence|].
  simpl in Hall. apply andb_true_iff in Hall as [Hc Ht].
  simpl. rewrite Hc. apply in_app_iff.
  destruct t as [|c' t]; [right; now left|].
  left. apply IH; [discriminate|exact Ht].
Qed.

Lemma in_rep_cls_intro (p : ascii -> bool) (t s : text) :
  forallb p t = true -> In ([], s) (ways (Rep (length t) (Cls p)) (t ++ s)).
Proof.
  induction t as [|c t IH]; intros Hall; [now left|].
  simpl in Hall. apply andb_true_iff in Hall as [Hc Ht].
  change (In ([], s) (rep_ways (ways (Cls p)) (S (length t)) (c :: t ++ s))).
  cbn [rep_ways ways]. rewrite Hc. cbn [flat_map]. rewrite app_nil_r.
  apply in_map_iff. exists ([], s). split; [reflexivity|].
  exact (IH Ht).
Qed.

Lemma in_ways_cat_intro (r1 r2 : re) (s : text) (w1 w2 : way) :
  In w1 (ways r1 s) -> In w2 (ways r2 (snd w1)) ->
  In (fst w1 ++ fst w2, snd w2) (ways (Cat r1 r2) s).
Proof.
  intros H1 H2. simpl. apply in_flat_map. exists w1. split; [exact H1|].
  apply in_map_iff. exists w2. split; [reflexivity|exact H2].
Qed.

Lemma in_ways_grp_intro (r : re) (s : text) (w : way) :
  In w (ways r s) -> In (consumed s (snd w) :: fst w, snd w) (ways (Grp r) s).
Proof.
  intros Hw. simpl. apply in_map_iff. exists w. split; [reflexivity|exact Hw].
Qed.

(** A name spelled from its fields is matched, with the fields as groups. *)
Lemma backup_name_matched (wn d t gz : text) :
  wn <> [] -> forallb dot wn = true ->
  length d = 8%nat -> forallb digit_class d = true ->
  length t = 6%nat -> forallb digit_class t = true ->
  gz = [] \/ gz = chars ".gz" ->
  In ([wn; d; t], [])
     (ways backup_re
           (chars "backup_" ++ wn ++ chars "_" ++ d ++ chars "_" ++ t
            ++ chars ".tar" ++ gz)).
Proof.
  intros Hwn Pwn Ld Pd Lt Pt Hgz. unfold backup_re.
  set (s7 := gz).
  set (s6 := chars ".tar" ++ s7).
  set (s5 := t ++ s6).
  set (s4 := chars "_" ++ s5).
  set (s3 := d ++ s4).
  set (s2 := chars "_" ++ s3).
  set (s1 := wn ++ s2).
  apply (in_ways_cat_intro (Lit "backup_") _ _ ([], s1) ([wn; d; t], []));
    [rewrite ways_lit_app; now left|]. cbn [snd].
  apply (in_ways_cat_intro (Grp (Plus dot)) _ s1 ([wn], s2) ([d; t], [])).
  { replace wn with (consumed s1 s2) at 1 by apply consumed_app.
    apply (in_ways_grp_intro (Plus dot) s1 ([], s2)).
    now apply in_plus_ways_intro. }
  cbn [snd].
  apply (in_ways_cat_intro (Lit "_") _ s2 ([], s3) ([d; t], []));
    [unfold s2; rewrite ways_lit_app; now left|]. cbn [snd].
  apply (in_ways_cat_intro (Grp (Rep 8 (Cls digit_class))) _ s3 ([d], s4) ([t], [])).
  { replace d with (consumed s3 s4) at 1 by apply consumed_app.
    apply (in_ways_grp_intro (Rep 8 (Cls digit_class)) s3 ([], s4)).
    rewrite <- Ld. now apply in_rep_cls_intro. }
  cbn [snd].
  apply (in_ways_cat_intro (Lit "_") _ s4 ([], s5) ([t], []));
    [unfold s4; rewrite ways_lit_app; now left|]. cbn [snd].
  apply (in_ways_cat_intro (Grp (Rep 6 (Cls digit_class))) _ s5 ([t], s6) ([], [])).
  { replace t with (consumed s5 s6) at 1 by apply consumed_app.
    apply (in_ways_grp_intro (Rep 6 (Cls digit_class)) s5 ([], s6)).
    rewrite <- Lt. now apply in_rep_cls_intro. }
  cbn [snd].
  apply (in_ways_cat_intro (Lit ".tar") _ s6 ([], s7) ([], []));
    [unfold s6; rewrite ways_lit_app; now left|]. cbn [snd].
  apply (in_ways_cat_intro (Opt (Lit ".gz")) Eos s7 ([], []) ([], []));
    [|now left].
  unfold s7. destruct Hgz as [->| ->]; vm_compute; tauto.
Qed.

Lemma rev_inj_text (a b : text) : rev a = rev b -> a = b.
Proof.
  intros H. rewrite <- (rev_involutive a), <- (rev_involutive b). now f_equal.
Qed.

(** Two spellings of one name have the same fields: the fixed widths of the
    date and the time leave one way of cutting the name. *)
Lemma backup_name_fields_unique (wn d t gz wn' d' t' gz' nl' : text) :
  chars "backup_" ++ wn ++ chars "_" ++ d ++ chars "_" ++ t ++ chars ".tar" ++ gz
  = chars "backup_" ++ wn' ++ chars "_" ++ d' ++ chars "_" ++ t'
    ++ chars ".tar" ++ gz' ++ nl' ->
  length d = 8%nat -> length d' = 8%nat ->
  length t = 6%nat -> length t' = 6%nat ->
  gz = [] \/ gz = chars ".gz" ->
  gz' = [] \/ gz' = chars ".gz" ->
  nl' = [] \/ nl' = chars newline ->
  wn = wn' /\ d = d' /\ t = t'.
Proof.
  intros Heq Ld Ld' Lt Lt' Hgz Hgz' Hnl.
  apply (f_equal (@rev ascii)) in Heq.
  rewrite !rev_app_distr in Heq. rewrite <- !app_assoc in Heq.
  assert (Htail : rev t ++ rev (chars "_") ++ rev d ++ rev (chars "_")
                    ++ rev wn ++ rev (chars "backup_")
                  = rev t' ++ rev (chars "_") ++ rev d' ++ rev (chars "_")
                    ++ rev wn' ++ rev (chars "backup_")).
  { destruct Hgz as [->| ->], Hgz' as [->| ->], Hnl as [->| ->];
      cbn in Heq; try discriminate Heq; now inversion Heq. }
  clear Heq.
  apply app_inj_1 in Htail as [Ht Htail]; [|now rewrite !length_rev, Lt, Lt'].
  cbn in Htail. injection Htail as Htail.
  apply app_inj_1 in Htail as [Hd Htail]; [|now rewrite !length_rev, Ld, Ld'].
  cbn in Htail. injection Htail as Htail.
  apply app_inv_tail in Htail.
  repeat split; now apply rev_inj_text.
Qed.

(** Spelling a name from its fields and parsing it gives the fields back:
    for a world name that is not empty and holds no newline, a date of eight
    digits and a time of six, with [.tar] or [.tar.gz]. *)
Theorem parse_backup_name (world date time gz : string) :
  world <> "" -> one_line world ->
  digits 8 date -> digits 6 time ->
  gz = "" \/ gz = ".gz" ->
  parse_backup_filename (backup_name world date time gz)
  = Some (Parsed world date time).
Proof.
  intros Hw Pw [Ld Pd] [Lt Pt] Hgz.
  assert (Hlen : forall x, length (chars x) = String.length x).
  { induction x as [|c x IH]; simpl; [reflexivity|now rewrite IH]. }
  assert (Hgz' : chars gz = [] \/ chars gz = chars ".gz").
  { destruct Hgz as [->| ->]; [now left|now right]. }
  assert (Hs : chars (backup_name world date time gz)
               = chars "backup_" ++ chars world ++ chars "_" ++ chars date
                 ++ chars "_" ++ chars time ++ chars ".tar" ++ chars gz).
  { unfold backup_name. now rewrite !chars_app. }
  assert (Hwn : chars world <> []).
  { destruct world; [congruence|discriminate]. }
  pose proof (backup_name_matched (chars world) (chars date) (chars time)
                (chars gz) Hwn Pw) as Hin.
  rewrite !Hlen in Hin. specialize (Hin Ld Pd Lt Pt Hgz').
  rewrite <- Hs in Hin.
  unfold parse_backup_filename, re_match.
  destruct (ways backup_re (chars (backup_name world date time gz)))
    as [|w0 rest] eqn:E; [destruct Hin|].
  assert (H0 : In w0 (ways backup_re (chars (backup_name world date time gz))))
    by (rewrite E; now left).
  apply backup_re_ways in H0
    as (wn' & d' & t' & gz' & nl' & Hg & Hs' & Hgz0 & Hnl0 & _ & _ & Ld' & _ & Lt' & _).
  rewrite Hs in Hs'.
  destruct (backup_name_fields_unique _ _ _ _ _ _ _ _ _ Hs')
    as (<- & <- & <-); try assumption; try (now rewrite Hlen).
  rewrite Hg. cbn [map]. unfold chars.
  now rewrite !string_of_list_ascii_of_string.
Qed.

Lemma parse_backup_name_witness :
  parse_backup_filename (backup_name "My_World-2" "20260128" "120000" ".gz")
  = Some (Parsed "My_World-2" "20260128" "120000").
Proof.
  apply parse_backup_name.
  - discriminate.
  - vm_compute. reflexivity.
  - split; vm_compute; reflexivity.
  - split; vm_compute; reflexivity.
  - now right.
Defined.

Lemma forallb_chars_string (p : ascii -> bool) (l : text) :
  forallb p (chars (string_of_list_ascii l)) = forallb p l.
Proof.
  unfold chars. now rewrite list_ascii_of_string_of_list_ascii.
Qed.

(** Whatever name the parser accepts, the fields it returns are well
    formed: a world name that is not empty and holds no newline, a date of
    eight decimal digits and a time of six; and the name begins with
    [backup_]. *)
Theorem parsed_fields_well_formed (filename : string) (p : parsed) :
  parse_backup_filename filename = Some p ->
  world_name p <> "" /\ one_line (world_name p)
  /\ digits 8 (date p) /\ digits 6 (time p)
  /\ startswith filename "backup_" = true.
Proof.
  unfold parse_backup_filename, re_match.
  destruct (ways backup_re (chars filename)) as [|w ws] eqn:E; [discriminate|].
  assert (Hin : In w (ways backup_re (chars filename))) by (rewrite E; now left).
  apply backup_re_ways in Hin
    as (wn & d & t & gz & nl & Hg & Hs & _ & _ & Hwn & Pwn & Ld & Pd & Lt & Pt).
  rewrite Hg. cbn [map]. intros [= <-]. cbn [world_name date time].
  assert (Hlen : forall l, String.length (string_of_list_ascii l) = length l).
  { induction l as [|c l IH]; simpl; [reflexivity|now rewrite IH]. }
  unfold one_line, digits. rewrite !forallb_chars_string, !Hlen.
  repeat split; try assumption.
  - destruct wn; [congruence|discriminate].
  - rewrite <- (string_of_list_ascii_of_string filename). fold (chars filename).
    rewrite Hs. reflexivity.
Qed.

Lemma parsed_fields_well_formed_witness :
  let p := Parsed "a_20260128_120000" "20260128" "120000" in
  world_name p <> "" /\ one_line (world_name p)
  /\ digits 8 (date p) /\ digits 6 (time p)
  /\ startswith "backup_a_20260128_120000_20260128_120000.tar.gz" "backup_" = true.
Proof.
  apply (parsed_fields_well_formed "backup_a_20260128_120000_20260128_120000.tar.gz").
  vm_compute. reflexivity.
Defined.

(** *** Escape sequences *)

Lemma sub_scan_no_escape (n : nat) (s : text) :
  ~ In "027"%char s -> sub_scan n UtilsIO.ansi_escape s = s.
Proof.
  revert s. induction n as [|n IH]; intros s Hnot; [now destruct s|].
  destruct s as [|c s]; [reflexivity|].
  assert (Hways : ways UtilsIO.ansi_escape (c :: s) = []).
  { unfold UtilsIO.ansi_escape. cbn [ways chars UtilsIO.esc list_ascii_of_string
                                       strip_prefix].
    destruct (Ascii.eqb_spec "027" c) as [<-|_]; [|reflexivity].
    exfalso. apply Hnot. now left. }
  cbn [sub_scan]. rewrite Hways. f_equal. apply IH.
  intros Hin. apply Hnot. now right.
Qed.

(** A text without the escape character goes through [strip_ansi_codes]
    untouched. *)
Theorem strip_ansi_codes_plain_text (text : string) :
  ~ In "027"%char (chars text) -> UtilsIO.strip_ansi_codes text = text.
Proof.
  intros Hnot. unfold UtilsIO.strip_ansi_codes, re_sub_empty.
  rewrite sub_scan_no_escape by exact Hnot.
  apply string_of_list_ascii_of_string.
Qed.

Lemma strip_ansi_codes_plain_text_witness :
  UtilsIO.strip_ansi_codes "Backup created: [1/3] worlds" = "Backup created: [1/3] worlds".
Proof.
  apply strip_ansi_codes_plain_text. vm_compute. intuition discriminate.
Defined.

(** *** White space *)

Lemma has_ink_lstrip (s : string) : has_ink (lstrip s) = has_ink s.
Proof.
  induction s as [|c s IH]; [reflexivity|].
  cbn [lstrip]. destruct (is_space c) eqn:Hc; [|reflexivity].
  rewrite IH. unfold has_ink. cbn [chars list_ascii_of_string existsb].
  now rewrite Hc.
Qed.

Lemma truthy_lstrip (s : string) : truthy (lstrip s) = has_ink s.
Proof.
  induction s as [|c s IH]; [reflexivity|].
  cbn [lstrip]. unfold has_ink. cbn [chars list_ascii_of_string existsb].
  destruct (is_space c); [exact IH|reflexivity].
Qed.

Lemma has_ink_rev (s : string) : has_ink (rev_string s) = has_ink s.
Proof.
  unfold has_ink, rev_string, chars.
  rewrite list_ascii_of_string_of_list_ascii.
  induction (list_ascii_of_string s) as [|c l IH]; [reflexivity|].
  cbn [rev existsb]. rewrite existsb_app, IH. cbn [existsb].
  rewrite orb_false_r. apply orb_comm.
Qed.

Lemma truthy_rev (s : string) : truthy (rev_string s) = truthy s.
Proof.
  destruct s as [|c s]; [reflexivity|]. unfold rev_string.
  cbn [list_ascii_of_string rev].
  destruct (rev (list_ascii_of_string s)); reflexivity.
Qed.

(** What is left of a text once its white space is stripped is not empty
    exactly when the text holds something else than white space. *)
Lemma truthy_strip (s : string) : truthy (strip s) = has_ink s.
Proof.
  unfold strip.
  now rewrite truthy_rev, truthy_lstrip, has_ink_rev, has_ink_lstrip.
Qed.

(** *** Sizes below one kilobyte *)

Lemma format_1f_integer (n : Z) :
  (0 <= n)%Z -> format_1f (inject_Z n) = pretty (Z.to_N n) +:+ ".0".
Proof.
  intros Hn. unfold format_1f.
  assert (Hlt : Qlt_bool (inject_Z n) 0 = false).
  { apply Qlt_bool_false_iff. change 0%Q with (inject_Z 0).
    now rewrite <- Zle_Qle. }
  rewrite Hlt, Qabs_inject_Z, Z.abs_eq by exact Hn.
  assert (Hr : round_half_even (inject_Z n * 10) = (n * 10)%Z).
  { unfold round_half_even. cbn [Qnum Qden inject_Z Qmult Pos.mul].
    rewrite Z.div_1_r, Z.mod_1_r. reflexivity. }
  rewrite Hr, Z.div_mul, Z.mod_mul by lia. reflexivity.
Qed.

(** A size from 0 to 1023 is printed as it is, with [.0B]. *)
Theorem format_bytes_below_one_kilobyte (size : Z) :
  (0 <= size < 1024)%Z ->
  Utils.format_bytes size = pretty (Z.to_N size) +:+ ".0B"
  /\ LogsFormat.format_bytes size = pretty (Z.to_N size) +:+ ".0B".
Proof.
  intros Hr.
  assert (Hlt : (Z.abs size <? 1024)%Z = true) by (apply Z.ltb_lt; lia).
  assert (Hf : format_1f (float_of_int size) = pretty (Z.to_N size) +:+ ".0").
  { rewrite float_of_int_small by lia. apply format_1f_integer. lia. }
  unfold Utils.format_bytes, LogsFormat.format_bytes.
  cbn [Units.format_loop abs_lt_1024 as_float]. rewrite Hlt, Hf.
  now rewrite string_app_assoc.
Qed.

Lemma format_bytes_below_one_kilobyte_witness :
  Utils.format_bytes 1023 = pretty 1023%N +:+ ".0B"
  /\ LogsFormat.format_bytes 1023 = pretty 1023%N +:+ ".0B".
Proof. apply (format_bytes_below_one_kilobyte 1023). lia. Defined.

End MoreText.

(** ** Further properties: probing, starting and stopping *)

Section MoreServer.
Import PyStr Host UtilsIO Props MoreProps.
Context `{Subprocess}.

(** The server counts as running exactly when [pgrep] ends with status 0 and
    prints something else than white space; a [pgrep] that times out or
    cannot be started counts as a server that is down. *)
Theorem is_server_running_truth (m : machine) :
  fst (is_server_running m)
  = match fst (spawn pgrep_server 30 (m_host m)) with
    | Exited rc out _ => (rc =? 0)%Z && has_ink out
    | TimeoutExpired | Raised _ => false
    end.
Proof.
  unfold is_server_running, run_command, subprocess_run, mbind, M_bind, mret, M_ret.
  destruct (spawn pgrep_server 30 (m_host m)) as [o h'].
  destruct o as [rc out err| |msg]; cbn [fst]; [|reflexivity|reflexivity].
  now rewrite truthy_strip.
Qed.

Lemma stop_server_status (m : machine) :
  status (fst (ServerRoutes.stop_server m))
  = if fst (is_server_running m)
    then
      let '(success, stdout, _) :=
        fst (run_command (ServerRoutes.supervisorctl "stop") 30
                         (snd (is_server_running m))) in
      if success || contains "already stopped" (lower stdout)
      then 200%Z else 500%Z
    else 400%Z.
Proof.
  unfold ServerRoutes.stop_server. unfold mbind, M_bind at 1.
  destruct (is_server_running m) as [running m1]. cbn [fst snd].
  destruct running; [|reflexivity]. cbn [negb].
  unfold mbind, M_bind.
  destruct (run_command (ServerRoutes.supervisorctl "stop") 30 m1)
    as [[[success stdout] stderr] m2]. cbn [fst snd].
  destruct (success || contains "already stopped" (lower stdout)); reflexivity.
Qed.

(** A start asked for while the server runs, and a stop asked for while it
    is down, are refused with status 400 after the probe alone: the daemon
    is not called. *)
Theorem start_stop_refused_before_daemon (m : machine) :
  (fst (is_server_running m) = true ->
   status (fst (ServerRoutes.start_server m)) = 400%Z
   /\ events_since m (snd (ServerRoutes.start_server m)) = [Spawned pgrep_server])
  /\ (fst (is_server_running m) = false ->
      status (fst (ServerRoutes.stop_server m)) = 400%Z
      /\ events_since m (snd (ServerRoutes.stop_server m)) = [Spawned pgrep_server]).
Proof.
  split; intros Hrun.
  - rewrite start_server_status, start_server_events, Hrun. now split.
  - rewrite stop_server_status, stop_server_events, Hrun. now split.
Qed.

(** When the daemon command fails but its output says, in any case of
    letters, [already started] (for a start) or [already stopped] (for a
    stop), the answer is 200 all the same. *)
Theorem start_stop_tolerate_already_done (m : machine) :
  let m1 := snd (is_server_running m) in
  (fst (is_server_running m) = false ->
   contains "already started"
            (lower (snd (fst (fst (run_command (ServerRoutes.supervisorctl "start")
                                               30 m1))))) = true ->
   status (fst (ServerRoutes.start_server m)) = 200%Z)
  /\ (fst (is_server_running m) = true ->
      contains "already stopped"
               (lower (snd (fst (fst (run_command (ServerRoutes.supervisorctl "stop")
                                                  30 m1))))) = true ->
      status (fst (ServerRoutes.stop_server m)) = 200%Z).
Proof.
  intros m1. subst m1. split; intros Hrun Hmsg.
  - rewrite start_server_status, Hrun.
    destruct (run_command (ServerRoutes.supervisorctl "start") 30
                          (snd (is_server_running m)))
      as [[[success stdout] stderr] m2].
    cbn [fst snd] in *. now rewrite Hmsg, orb_true_r.
  - rewrite stop_server_status, Hrun.
    destruct (run_command (ServerRoutes.supervisorctl "stop") 30
                          (snd (is_server_running m)))
      as [[[success stdout] stderr] m2].
    cbn [fst snd] in *. now rewrite Hmsg, orb_true_r.
Qed.

(** A restart asks nothing first: the only program it runs is the daemon
    command, and the answer is 200 when that command ends with status 0 and
    500 in every other case. *)
Theorem restart_server_unconditional (m : machine) :
  let out := ServerRoutes.restart_server m in
  events_since m (snd out) = [Spawned (ServerRoutes.supervisorctl "restart")]
  /\ status (fst out)
     = match fst (spawn (ServerRoutes.supervisorctl "restart") 30 (m_host m)) with
       | Exited rc _ _ => if (rc =? 0)%Z then 200%Z else 500%Z
       | TimeoutExpired | Raised _ => 500%Z
       end.
Proof.
  unfold ServerRoutes.restart_server, run_command, subprocess_run,
    mbind, M_bind, mret, M_ret.
  destruct (spawn (ServerRoutes.supervisorctl "restart") 30 (m_host m)) as [o h'].
  destruct o as [rc out err| |msg]; cbn [fst snd].
  - destruct (rc =? 0)%Z; cbn [fst snd]; split;
      solve [apply events_since_app|reflexivity].
  - split; [apply events_since_app|reflexivity].
  - split; [apply events_since_app|reflexivity].
Qed.

End MoreServer.

Section MoreServerExamples.
Import PyStr Host UtilsIO Props MoreProps Scenario MoreScenario.

Lemma start_stop_refused_before_daemon_witness :
  (status (fst (ServerRoutes.start_server (H := programs WritesAndFails)
                  (boot host_up))) = 400%Z
   /\ events_since (boot host_up)
        (snd (ServerRoutes.start_server (H := programs WritesAndFails) (boot host_up)))
      = [Spawned pgrep_server])
  /\ (status (fst (ServerRoutes.stop_server (H := programs WritesAndFails)
                     (boot host_down))) = 400%Z
      /\ events_since (boot host_down)
           (snd (ServerRoutes.stop_server (H := programs WritesAndFails)
                   (boot host_down)))
         = [Spawned pgrep_server]).
Proof.
  split.
  - apply (start_stop_refused_before_daemon (H := programs WritesAndFails)
             (boot host_up)).
    vm_compute. reflexivity.
  - apply (start_stop_refused_before_daemon (H := programs WritesAndFails)
             (boot host_down)).
    vm_compute. reflexivity.
Defined.

Lemma start_stop_tolerate_already_done_witness :
  status (fst (ServerRoutes.start_server (H := stale_supervisor) (boot host_down)))
  = 200%Z.
Proof.
  apply (start_stop_tolerate_already_done (H := stale_supervisor) (boot host_down));
    vm_compute; reflexivity.
Defined.

End MoreServerExamples.

(** ** Further properties: restoring and deleting *)

Section MoreFiles.
Import PyStr Host UtilsIO Props MoreProps.
Context `{Subprocess} (cfg : config).
#[local] Arguments String.append !_ _ / : simpl nomatch.

Lemma run_script_present (script : string) (args : list string) (timeout : Z)
    (m : machine) :
  is_Some (fs (m_host m) !! script) ->
  run_script script args timeout m
  = subprocess_run "Script" (script :: args) timeout m.
Proof.
  intros Hs. unfold run_script, mbind, M_bind, os_path_exists.
  now rewrite bool_decide_eq_true_2 by exact Hs.
Qed.

(** A restore that passes the checks runs the restore script once, after
    the probe, with [restore], the file name and [--force], whatever the
    [force] parameter says, and with [--no-backup] exactly when the
    [no_backup] parameter is ["true"] in any case of letters; the answer is
    200 when the script ends with status 0 and 500 otherwise. *)
Theorem restore_backup_runs_script (filename : string) (req : request) (m : machine) :
  contains ".." filename || contains "/" filename = false ->
  is_Some (fs (m_host m) !! OsPath.join (BACKUP_DIR cfg) filename) ->
  fst (is_server_running m) = false ->
  let m1 := snd (is_server_running m) in
  is_Some (fs (m_host m1) !! RESTORE_SCRIPT cfg) ->
  let out := BackupsRoutes.restore_backup cfg filename req m in
  events_since m (snd out)
  = [Spawned pgrep_server; Spawned (restore_argv cfg filename req)]
  /\ status (fst out)
     = match fst (spawn (restore_argv cfg filename req) 60 (m_host m1)) with
       | Exited rc _ _ => if (rc =? 0)%Z then 200%Z else 500%Z
       | TimeoutExpired | Raised _ => 500%Z
       end.
Proof.
  intros Hname Hfile Hdown m1 Hscript out.
  assert (Hrun : exists r m2,
             BackupsRoutes.restore_backup cfg filename req m = (r, m2)
             /\ events_since m m2
                = [Spawned pgrep_server; Spawned (restore_argv cfg filename req)]
             /\ status r
                = match fst (spawn (restore_argv cfg filename req) 60 (m_host m1)) with
                  | Exited rc _ _ => if (rc =? 0)%Z then 200%Z else 500%Z
                  | TimeoutExpired | Raised _ => 500%Z
                  end).
  { unfold BackupsRoutes.restore_backup. rewrite Hname.
    unfold mbind, M_bind at 1. unfold os_path_exists at 1. cbn beta iota.
    rewrite bool_decide_eq_true_2 by exact Hfile. cbn [negb].
    unfold mbind, M_bind at 1.
    pose proof (is_server_running_trace m) as Ht. fold m1 in Ht.
    destruct (is_server_running m) as [running m1'] eqn:Eprobe.
    cbn [fst snd] in *. subst running m1.
    unfold mbind, M_bind.
    assert (Hargs : RESTORE_SCRIPT cfg
                    :: (if String.eqb (lower (args_get req "no_backup" "false")) "true"
                        then ["restore"; filename; "--force"] ++ ["--no-backup"]
                        else ["restore"; filename; "--force"])
                    = restore_argv cfg filename req).
    { unfold restore_argv.
      destruct (String.eqb (lower (args_get req "no_backup" "false")) "true");
        reflexivity. }
    rewrite run_script_present by exact Hscript.
    unfold subprocess_run. rewrite Hargs.
    destruct (spawn (restore_argv cfg filename req) 60 (m_host m1')) as [o h'].
    assert (Hev : events_since m
                    (Machine h' (m_trace m1'
                                 ++ [Spawned (restore_argv cfg filename req)]))
                  = [Spawned pgrep_server; Spawned (restore_argv cfg filename req)]).
    { unfold events_since. cbn [m_trace].
      rewrite Ht, <- app_assoc. apply drop_app_length. }
    destruct o as [rc out' err| |msg]; cbn [fst snd];
      [destruct (rc =? 0)%Z|..]; unfold mret, M_ret;
      eexists _, _; (split; [reflexivity|]); (split; [exact Hev|reflexivity]). }
  destruct Hrun as (r & m2 & Heq & Hev & Hst).
  subst out. rewrite Heq. cbn [fst snd]. now split.
Qed.

(** A restore or a deletion of a backup that is not there is answered with
    status 404 and leaves the machine as it was: nothing is probed, run or
    removed. *)
Theorem missing_backup_not_found (filename : string) (req : request) (m : machine) :
  contains ".." filename || contains "/" filename = false ->
  fs (m_host m) !! OsPath.join (BACKUP_DIR cfg) filename = None ->
  (status (fst (BackupsRoutes.restore_backup cfg filename req m)) = 404%Z
   /\ snd (BackupsRoutes.restore_backup cfg filename req m) = m)
  /\ (status (fst (BackupsRoutes.delete_backup cfg filename req m)) = 404%Z
      /\ snd (BackupsRoutes.delete_backup cfg filename req m) = m).
Proof.
  intros Hname Hnone.
  unfold BackupsRoutes.restore_backup, BackupsRoutes.delete_backup.
  rewrite Hname. unfold mbind, M_bind, os_path_exists. rewrite Hnone.
  rewrite bool_decide_eq_false_2 by (intros [? ?]; discriminate).
  repeat split.
Qed.

(** A deletion of a backup runs no program and changes nothing on the disk
    but, at most, the one file named: a path whose content changes is the
    backup directory followed by the file name, that name holds no [/] and
    no [..], and the deletion was confirmed. *)
Theorem delete_backup_touches_one_path (filename : string) (req : request)
    (m : machine) :
  let out := BackupsRoutes.delete_backup cfg filename req m in
  m_trace (snd out) = m_trace m
  /\ procs (m_host (snd out)) = procs (m_host m)
  /\ forall p, fs (m_host (snd out)) !! p <> fs (m_host m) !! p ->
       p = OsPath.join (BACKUP_DIR cfg) filename
       /\ contains ".." filename || contains "/" filename = false
       /\ lower (args_get req "confirm" "false") = "true".
Proof.
  intros out. subst out. unfold BackupsRoutes.delete_backup.
  destruct (contains ".." filename || contains "/" filename) eqn:Hname.
  { repeat split; try reflexivity; now contradiction H0. }
  unfold mbind, M_bind, os_path_exists.
  destruct (bool_decide (is_Some (fs (m_host m)
                                    !! OsPath.join (BACKUP_DIR cfg) filename))).
  2:{ cbn. repeat split; try reflexivity; now contradiction H0. }
  cbn [negb].
  destruct (String.eqb_spec (lower (args_get req "confirm" "false")) "true")
    as [Hc|Hc]; cbn [negb].
  2:{ cbn. repeat split; try reflexivity; now contradiction H0. }
  unfold os_remove.
  destruct (fs (m_host m) !! OsPath.join (BACKUP_DIR cfg) filename) as [n|] eqn:E.
  2:{ cbn. repeat split; try reflexivity; now contradiction H0. }
  destruct (is_dir n).
  { cbn. repeat split; try reflexivity; now contradiction H0. }
  cbn. repeat split; try reflexivity; try exact Hc.
  destruct (decide (p = OsPath.join (BACKUP_DIR cfg) filename)) as [->|Hne];
    [reflexivity|].
  rewrite lookup_delete_ne in H0 by congruence. now contradiction H0.
Qed.



(** The configured world cannot be deleted under a running server: the
    request, even confirmed, is answered with status 400, and nothing
    happened but the probe. *)
Theorem delete_world_active_world_guarded
    (name : string) (req : request) (m : machine) :
  let world := sanitize name in
  is_Some (fs (m_host m) !! WorldsRoutes.world_path cfg world) ->
  args_get req "confirm" "" = world ->
  world = WORLD_NAME cfg ->
  fst (is_server_running m) = true ->
  let out := WorldsRoutes.delete_world cfg name req m in
  status (fst out) = 400%Z /\ snd out = snd (is_server_running m).
Proof.
  intros world Hfile Hconfirm Hactive Hrun out.
  assert (Heq : WorldsRoutes.delete_world cfg name req m
                = (Response 400
                     (JObj [("error", JStr "Cannot delete active world");
                            ("message",
                             JStr "Stop the server before deleting the active world")]),
                   snd (is_server_running m))).
  { unfold WorldsRoutes.delete_world. fold world.
    unfold mbind, M_bind at 1. unfold os_path_exists at 1. cbn beta iota.
    rewrite bool_decide_eq_true_2 by exact Hfile. cbn [negb].
    rewrite Hconfirm, String.eqb_refl. cbn [negb].
    rewrite Hactive at 1. rewrite String.eqb_refl.
    unfold mbind, M_bind.
    destruct (is_server_running m) as [running m1]. cbn [fst snd] in *.
    subst running. reflexivity. }
  subst out. rewrite Heq. now split.
Qed.

(** A world whose sanitised name is taken is not created: the answer is
    409 and the machine is as before, the world manager has not been
    run. *)
Theorem create_world_conflict_before_script
    (req : request) (fields : list (string * json)) (name : string) (m : machine) :
  json_body req = Some (JObj fields) ->
  dict_get fields "name" (JStr "") = JStr name ->
  sanitize name <> "" ->
  is_Some (fs (m_host m) !! WorldsRoutes.world_path cfg (sanitize name)) ->
  let out := WorldsRoutes.create_world cfg req m in
  status (fst out) = 409%Z /\ snd out = m.
Proof.
  intros Hbody Hname Hsan Htaken out. subst out.
  unfold WorldsRoutes.create_world. rewrite Hbody.
  assert (Hfields : json_truthy (JObj fields) = true).
  { destruct fields as [|f fields]; [|reflexivity].
    unfold dict_get in Hname. simpl in Hname. injection Hname as <-.
    now contradiction Hsan. }
  rewrite Hfields, Hname. cbn [negb json_truthy].
  assert (Htruthy : truthy name = true).
  { destruct name; [now contradiction Hsan|reflexivity]. }
  assert (Hsant : truthy (sanitize name) = true).
  { destruct (sanitize name); [now contradiction Hsan|reflexivity]. }
  rewrite Htruthy, Hsant. cbn [negb].
  unfold mbind, M_bind, os_path_exists.
  rewrite bool_decide_eq_true_2 by exact Htaken. now split.
Qed.

(** A name that is not empty but of which the sanitisation keeps nothing is
    refused with status 400, before anything is looked up or run. *)
Theorem create_world_rejects_unusable_name
    (req : request) (fields : list (string * json)) (name : string) (m : machine) :
  json_body req = Some (JObj fields) ->
  dict_get fields "name" (JStr "") = JStr name ->
  name <> "" -> sanitize name = "" ->
  let out := WorldsRoutes.create_world cfg req m in
  status (fst out) = 400%Z /\ snd out = m.
Proof.
  intros Hbody Hname Hne Hsan out. subst out.
  unfold WorldsRoutes.create_world. rewrite Hbody.
  assert (Htruthy : truthy name = true).
  { destruct name; [congruence|reflexivity]. }
  assert (Hfields : json_truthy (JObj fields) = true).
  { destruct fields as [|f fields]; [|reflexivity].
    unfold dict_get in Hname. simpl in Hname. injection Hname as <-.
    congruence. }
  rewrite Hfields, Hname. cbn [negb json_truthy].
  rewrite Htruthy, Hsan. now split.
Qed.

End MoreFiles.

Section MoreFilesExamples.
Import PyStr Host UtilsIO Props MoreProps Scenario MoreScenario.

Lemma restore_backup_runs_script_witness :
  let filename := "backup_Foo_20260101_000000.tar.gz" in
  let req := query [("force", "false"); ("no_backup", "True")] in
  let out := BackupsRoutes.restore_backup (H := programs WritesAndFails)
               default_config filename req (boot host_down) in
  events_since (boot host_down) (snd out)
  = [Spawned pgrep_server;
     Spawned ["/terraria/scripts/restore.sh"; "restore"; filename; "--force";
              "--no-backup"]]
  /\ status (fst out) = 200%Z.
Proof.
  intros filename req.
  apply (restore_backup_runs_script (H := programs WritesAndFails)
           default_config filename req (boot host_down)).
  - vm_compute. reflexivity.
  - vm_compute. eexists. reflexivity.
  - vm_compute. reflexivity.
  - vm_compute. eexists. reflexivity.
Defined.

Lemma missing_backup_not_found_witness :
  let filename := "backup_Gone_20250101_000000.tar.gz" in
  (status (fst (BackupsRoutes.restore_backup (H := programs WritesAndFails)
                  default_config filename (query []) (boot host_down))) = 404%Z
   /\ snd (BackupsRoutes.restore_backup (H := programs WritesAndFails)
             default_config filename (query []) (boot host_down)) = boot host_down)
  /\ (status (fst (BackupsRoutes.delete_backup default_config filename
                     (query []) (boot host_down))) = 404%Z
      /\ snd (BackupsRoutes.delete_backup default_config filename
                (query []) (boot host_down)) = boot host_down).
Proof.
  intros filename.
  apply (missing_backup_not_found (H := programs WritesAndFails)
           default_config filename (query []) (boot host_down));
    vm_compute; reflexivity.
Defined.

(** With [confirm=TRUE] the backup of Foo changes, and it is the one path
    the theorem allows. *)
Lemma delete_backup_touches_one_path_witness :
  let filename := "backup_Foo_20260101_000000.tar.gz" in
  let req := query [("confirm", "TRUE")] in
  "/terraria/backups/backup_Foo_20260101_000000.tar.gz"
  = OsPath.join (BACKUP_DIR default_config) filename
  /\ contains ".." filename || contains "/" filename = false
  /\ lower (args_get req "confirm" "false") = "true".
Proof.
  intros filename req.
  apply (delete_backup_touches_one_path default_config filename req (boot host_down)).
  vm_compute. discriminate.
Defined.


Lemma delete_world_active_world_guarded_witness :
  let out := WorldsRoutes.delete_world (H := programs WritesAndFails)
               alpha_config "Alpha" (query [("confirm", "Alpha")]) (boot host_up) in
  status (fst out) = 400%Z
  /\ snd out = snd (is_server_running (H := programs WritesAndFails) (boot host_up)).
Proof.
  apply (delete_world_active_world_guarded (H := programs WritesAndFails)
           alpha_config "Alpha" (query [("confirm", "Alpha")]) (boot host_up)).
  - vm_compute. eexists. reflexivity.
  - vm_compute. reflexivity.
  - vm_compute. reflexivity.
  - vm_compute. reflexivity.
Defined.

Lemma create_world_conflict_before_script_witness :
  let out := WorldsRoutes.create_world (H := programs WritesAndFails)
               default_config (post [("name", JStr "Al/pha")]) (boot host_down) in
  status (fst out) = 409%Z /\ snd out = boot host_down.
Proof.
  apply (create_world_conflict_before_script (H := programs WritesAndFails)
           default_config (post [("name", JStr "Al/pha")])
           [("name", JStr "Al/pha")] "Al/pha" (boot host_down)).
  - reflexivity.
  - reflexivity.
  - vm_compute. discriminate.
  - vm_compute. eexists. reflexivity.
Defined.

Lemma create_world_rejects_unusable_name_witness :
  let out := WorldsRoutes.create_world (H := programs WritesAndFails)
               default_config (post [("name", JStr "../..")]) (boot host_down) in
  status (fst out) = 400%Z /\ snd out = boot host_down.
Proof.
  apply (create_world_rejects_unusable_name (H := programs WritesAndFails)
           default_config (post [("name", JStr "../..")])
           [("name", JStr "../..")] "../.." (boot host_down)).
  - reflexivity.
  - reflexivity.
  - discriminate.
  - vm_compute. reflexivity.
Defined.

End MoreFilesExamples.

(** ** Further properties: the listing of backups *)

Section MoreListing.
Import PyStr PyNum Host UtilsIO BackupName Props MoreProps.
Context (cfg : config).
#[local] Arguments String.append !_ _ / : simpl nomatch.


Lemma py_slice_head {A : Type} (l : list A) (n : Z) :
  (0 < n)%Z -> py_slice l None (Some n) = take (Z.to_nat n) l.
Proof.
  intros Hn. unfold py_slice, slice_bound.
  destruct (Z.ltb_spec n 0) as [?|_]; [lia|].
  change (Z.to_nat 0) with 0%nat. rewrite drop_0, Z.sub_0_r.
  destruct (Z.le_gt_cases n (Z.of_nat (length l))) as [Hle|Hgt].
  - now rewrite Z.min_l by lia.
  - rewrite Z.min_r by lia. rewrite Nat2Z.id.
    rewrite (take_ge l (length l)) by lia.
    rewrite (take_ge l (Z.to_nat n)) by lia. reflexivity.
Qed.

Lemma bytes_of_app (a b : list BackupsRoutes.backup_entry) :
  bytes_of (a ++ b) = (bytes_of a + bytes_of b)%Z.
Proof.
  unfold bytes_of. induction a as [|x a IH]; cbn [app map fold_right]; [lia|].
  rewrite IH. lia.
Qed.

Lemma bytes_of_insert_desc (x : BackupsRoutes.backup_entry)
    (l : list BackupsRoutes.backup_entry) :
  bytes_of (BackupsRoutes.insert_desc x l)
  = (BackupsRoutes.b_size_bytes x + bytes_of l)%Z.
Proof.
  unfold bytes_of. induction l as [|y l IH]; [reflexivity|].
  cbn [BackupsRoutes.insert_desc]. destruct (Qle_bool _ _); [|reflexivity].
  cbn [map fold_right] in *. rewrite IH. lia.
Qed.

Lemma bytes_of_sort (l : list BackupsRoutes.backup_entry) :
  bytes_of (BackupsRoutes.sort_newest_first l) = bytes_of l.
Proof.
  unfold BackupsRoutes.sort_newest_first.
  assert (Hgen : forall acc,
            bytes_of (fold_left (fun acc x => BackupsRoutes.insert_desc x acc) l acc)
            = (bytes_of acc + bytes_of l)%Z).
  { induction l as [|x l IH]; intros acc; cbn [fold_left].
    - unfold bytes_of at 3. cbn. lia.
    - rewrite IH, bytes_of_insert_desc.
      unfold bytes_of at 4. cbn [map fold_right]. fold (bytes_of l). lia. }
  rewrite Hgen. reflexivity.
Qed.

(** The loop adds the size of every item it appends to the total. *)
Lemma scan_backups_total (world_filter : string) (names : list string)
    (acc : list BackupsRoutes.backup_entry) (total : Z) (m : machine) :
  total = bytes_of acc ->
  snd (fst (BackupsRoutes.scan_backups cfg world_filter names acc total m))
  = bytes_of (fst (fst (BackupsRoutes.scan_backups cfg world_filter names acc
                          total m))).
Proof.
  revert acc total. induction names as [|filename names IH]; intros acc total Hacc;
    [exact Hacc|].
  cbn [BackupsRoutes.scan_backups].
  destruct (BackupsRoutes.looks_like_backup filename); cbn [negb]; [|now apply IH].
  destruct (parse_backup_filename filename) as [p|]; [|now apply IH].
  destruct (truthy world_filter && negb (String.eqb (world_name p) world_filter));
    [now apply IH|].
  unfold mbind, M_bind. rewrite get_file_info_reads.
  destruct (fs (m_host m) !! OsPath.join (BACKUP_DIR cfg) filename) as [n|];
    [|now apply IH].
  apply IH. rewrite bytes_of_app, Hacc. unfold bytes_of at 3. cbn. lia.
Qed.

Lemma gathered_total (world_filter : string) (m : machine) :
  snd (gathered cfg world_filter m) = bytes_of (fst (gathered cfg world_filter m)).
Proof.
  unfold gathered. destruct (bool_decide _); [|reflexivity].
  now apply scan_backups_total.
Qed.

(** A [limit] above 0 cuts the listing to its first [limit] items and
    changes nothing else: the items are the head of the listing without
    limit, in the same order, and the total size is still the sum of the
    sizes of all the items of the listing without limit. *)
Theorem list_backups_limit_is_a_prefix (req : request) (n : Z) (m : machine)
    (full : BackupsRoutes.backup_listing) :
  args_get_int_opt req "limit" = Some n -> (0 < n)%Z ->
  fst (BackupsRoutes.list_backups_data cfg (without_limit req) m) = inr full ->
  exists cut,
    fst (BackupsRoutes.list_backups_data cfg req m) = inr cut
    /\ BackupsRoutes.l_backups cut = take (Z.to_nat n) (BackupsRoutes.l_backups full)
    /\ (BackupsRoutes.l_count cut <= n)%Z
    /\ BackupsRoutes.l_total_size_bytes cut = BackupsRoutes.l_total_size_bytes full
    /\ BackupsRoutes.l_total_size_bytes full
       = bytes_of (BackupsRoutes.l_backups full).
Proof.
  intros Hlimit Hn. rewrite !list_backups_data_eq. cbn [fst].
  assert (Hworld : args_get (without_limit req) "world" "" = args_get req "world" "").
  { unfold args_get, without_limit. cbn [args].
    now rewrite lookup_delete_ne by discriminate. }
  assert (Hnone : args_get_int_opt (without_limit req) "limit" = None).
  { unfold args_get_int_opt, without_limit. cbn [args].
    now rewrite lookup_delete_eq. }
  rewrite Hworld, Hnone, Hlimit.
  destruct (listing_raises cfg m); [discriminate|].
  intros [= <-]. eexists. split; [reflexivity|].
  cbn [BackupsRoutes.l_backups BackupsRoutes.l_count BackupsRoutes.l_total_size_bytes].
  unfold limited.
  destruct (Z.eqb_spec n 0) as [?|_]; [lia|].
  destruct (Z.ltb_spec 0 n) as [_|?]; [|lia]. cbn [negb andb].
  rewrite py_slice_head by exact Hn.
  split; [reflexivity|]. split; [rewrite length_take; lia|].
  split; [reflexivity|].
  rewrite bytes_of_sort. apply gathered_total.
Qed.

Lemma insert_desc_all (P : BackupsRoutes.backup_entry -> Prop)
    (x : BackupsRoutes.backup_entry) (l : list BackupsRoutes.backup_entry) :
  P x -> Forall P l -> Forall P (BackupsRoutes.insert_desc x l).
Proof.
  intros Hx. induction 1 as [|y l Hy Hl IH]; simpl.
  - constructor; [exact Hx|constructor].
  - destruct (Qle_bool _ _).
    + constructor; [exact Hy|exact IH].
    + constructor; [exact Hx|]. constructor; [exact Hy|exact Hl].
Qed.

Lemma insert_desc_sorted (x : BackupsRoutes.backup_entry)
    (l : list BackupsRoutes.backup_entry) :
  newest_first l -> newest_first (BackupsRoutes.insert_desc x l).
Proof.
  unfold newest_first. induction 1 as [|y l Hl IH Hy]; simpl.
  - constructor; [constructor|constructor].
  - destruct (Qle_bool (BackupsRoutes.b_created x) (BackupsRoutes.b_created y))
      eqn:E.
    + apply Qle_bool_iff in E. constructor; [exact IH|].
      apply insert_desc_all; [exact E|exact Hy].
    + assert (Hlt : (BackupsRoutes.b_created y <= BackupsRoutes.b_created x)%Q).
      { apply Qlt_le_weak, Qnot_le_lt. intros Hle.
        apply Qle_bool_iff in Hle. congruence. }
      constructor; [constructor; assumption|].
      constructor; [exact Hlt|].
      eapply Forall_impl; [exact Hy|].
      intros z Hz. cbn beta in *. eapply Qle_trans; eassumption.
Qed.

Lemma sort_newest_first_sorted (l : list BackupsRoutes.backup_entry) :
  newest_first (BackupsRoutes.sort_newest_first l).
Proof.
  unfold BackupsRoutes.sort_newest_first.
  assert (Hgen : forall acc, newest_first acc ->
            newest_first (fold_left (fun acc x => BackupsRoutes.insert_desc x acc) l acc)).
  { induction l as [|x l IH]; intros acc Hacc; simpl; [exact Hacc|].
    apply IH. now apply insert_desc_sorted. }
  apply Hgen. constructor.
Qed.

Lemma newest_first_take (k : nat) (l : list BackupsRoutes.backup_entry) :
  newest_first l -> newest_first (take k l).
Proof.
  unfold newest_first. intros Hs. revert k.
  induction Hs as [|y l Hl IH Hy]; intros k; destruct k; cbn; try constructor.
  - apply IH.
  - now apply Forall_take.
Qed.

(** The listing goes from the newest backup to the oldest: no item is
    followed, anywhere behind it, by one that was modified later. *)
Theorem list_backups_newest_first (req : request) (m : machine)
    (l : BackupsRoutes.backup_listing) :
  fst (BackupsRoutes.list_backups_data cfg req m) = inr l ->
  newest_first (BackupsRoutes.l_backups l).
Proof.
  rewrite list_backups_data_eq. cbn [fst].
  destruct (listing_raises cfg m); [discriminate|].
  intros [= <-]. cbn [BackupsRoutes.l_backups].
  pose proof (sort_newest_first_sorted
                (fst (gathered cfg (args_get req "world" "") m))) as Hs.
  unfold limited. destruct (args_get_int_opt req "limit") as [n|]; [|exact Hs].
  destruct (negb (n =? 0)%Z && (0 <? n)%Z); [|exact Hs].
  unfold py_slice. apply newest_first_take.
  unfold slice_bound. cbn [Z.to_nat drop]. exact Hs.
Qed.








End MoreListing.

Section MoreListingExamples.
Import PyStr PyNum Host UtilsIO BackupName Props MoreProps Scenario MoreScenario.

Lemma list_backups_limit_is_a_prefix_witness :
  exists cut,
    fst (BackupsRoutes.list_backups_data default_config (query [("limit", "1")])
           (boot host_two)) = inr cut
    /\ BackupsRoutes.l_backups cut
       = take 1 [BackupsRoutes.BackupEntry "backup_Bar_20260102_000000.tar"
                   "Bar" "20260102" "000000" 2048 "2.0KB" 1767312000;
                 BackupsRoutes.BackupEntry "backup_Foo_20260101_000000.tar.gz"
                   "Foo" "20260101" "000000" 1536 "1.5KB" 1767225600]
    /\ (BackupsRoutes.l_count cut <= 1)%Z
    /\ BackupsRoutes.l_total_size_bytes cut = 3584%Z
    /\ 3584%Z = bytes_of
                  [BackupsRoutes.BackupEntry "backup_Bar_20260102_000000.tar"
                     "Bar" "20260102" "000000" 2048 "2.0KB" 1767312000;
                   BackupsRoutes.BackupEntry "backup_Foo_20260101_000000.tar.gz"
                     "Foo" "20260101" "000000" 1536 "1.5KB" 1767225600].
Proof.
  apply (list_backups_limit_is_a_prefix default_config (query [("limit", "1")]) 1
           (boot host_two)
           (BackupsRoutes.BackupListing
              [BackupsRoutes.BackupEntry "backup_Bar_20260102_000000.tar"
                 "Bar" "20260102" "000000" 2048 "2.0KB" 1767312000;
               BackupsRoutes.BackupEntry "backup_Foo_20260101_000000.tar.gz"
                 "Foo" "20260101" "000000" 1536 "1.5KB" 1767225600]
              2 "3.5KB" 3584 48)).
  - vm_compute. reflexivity.
  - lia.
  - vm_compute. reflexivity.
Defined.

Lemma list_backups_newest_first_witness :
  newest_first
    [BackupsRoutes.BackupEntry "backup_Bar_20260102_000000.tar"
       "Bar" "20260102" "000000" 2048 "2.0KB" 1767312000;
     BackupsRoutes.BackupEntry "backup_Foo_20260101_000000.tar.gz"
       "Foo" "20260101" "000000" 1536 "1.5KB" 1767225600].
Proof.
  apply (list_backups_newest_first default_config (query []) (boot host_two)
           (BackupsRoutes.BackupListing
              [BackupsRoutes.BackupEntry "backup_Bar_20260102_000000.tar"
                 "Bar" "20260102" "000000" 2048 "2.0KB" 1767312000;
               BackupsRoutes.BackupEntry "backup_Foo_20260101_000000.tar.gz"
                 "Foo" "20260101" "000000" 1536 "1.5KB" 1767225600]
              2 "3.5KB" 3584 48)).
  vm_compute. reflexivity.
Defined.


Lemma list_backups_only_parsed_witness :
  let e := BackupsRoutes.BackupEntry "backup_Foo_20260101_000000.tar.gz"
             "Foo" "20260101" "000000" 1536 "1.5KB" 1767225600 in
  parse_backup_filename (BackupsRoutes.b_filename e) <> None
  /\ resynthesize (Parsed "Foo" "20260101" "000000") (BackupsRoutes.b_filename e)
     = BackupsRoutes.b_filename e.
Proof.
  intros e.
  apply (list_backups_only_parsed default_config (query []) (boot host_down)
           (BackupsRoutes.BackupListing [e] 1 "1.5KB" 1536 48) eq_refl e).
  vm_compute. now left.
Defined.

(** A backup directory that is a regular file: [os.listdir] raises and the
    answer is 500. *)
Lemma list_backups_of_a_regular_file :
  fst (BackupsRoutes.list_backups misplaced_config (query []) (boot host_down))
  = internal_server_error.
Proof. vm_compute. reflexivity. Qed.

End MoreListingExamples.

(** ** Further properties: reading logs *)

Section MoreLogs.
Import PyStr PyNum Host UtilsIO LogsRoutes Props MoreProps.

Lemma read_window_counts (all_lines : list string) (lines offset : Z) :
  let page := read_window all_lines lines offset in
  lines_returned page = Z.of_nat (length (selected_lines page))
  /\ end_line page = (start_line page + lines_returned page)%Z.
Proof.
  unfold read_window.
  destruct (Z.max offset 0 =? 0)%Z; [destruct (_ <? _)%Z|]; now split.
Qed.

(** For a window of at least one line, the page is what its numbers say: at
    most [min(lines, 1000)] lines, which are the lines of the file from
    [start_line] up to, not including, [end_line]; and [end_line] does not
    pass the end of the file unless [offset] does. *)
Theorem read_window_page_is_its_range (all_lines : list string) (lines offset : Z) :
  (1 <= lines)%Z ->
  let page := read_window all_lines lines offset in
  (0 <= lines_returned page <= Z.min lines 1000)%Z
  /\ selected_lines page
     = take (Z.to_nat (lines_returned page))
            (drop (Z.to_nat (start_line page)) all_lines)
  /\ end_line page = (start_line page + lines_returned page)%Z
  /\ ((Z.max offset 0 <= total_lines page)%Z ->
      (end_line page <= total_lines page)%Z).
Proof.
  intros Hl page.
  destruct (read_window_counts all_lines lines offset) as [Hcount Hend].
  fold page in Hcount, Hend.
  set (n := Z.min lines 1000) in *.
  destruct (Z.le_gt_cases offset 0) as [Ho|Ho].
  - destruct (read_window_tail all_lines lines offset Hl Ho) as (Hsel & Hstart & Htot).
    fold page n in Hsel, Hstart, Htot.
    assert (Hlen : length (selected_lines page)
                   = (length all_lines - (length all_lines - Z.to_nat n))%nat).
    { rewrite Hsel. apply length_drop. }
    rewrite Hend, Hcount, Hstart, Htot, Hlen.
    split; [unfold n in *; lia|]. split; [|split; [reflexivity|unfold n in *; lia]].
    rewrite Hsel.
    replace (Z.to_nat (Z.max (Z.of_nat (length all_lines) - n) 0))
      with (length all_lines - Z.to_nat n)%nat by (unfold n; lia).
    symmetry. apply take_ge. rewrite length_drop. unfold n. lia.
  - assert (Hl0 : (0 <= lines)%Z) by lia. assert (Ho1 : (1 <= offset)%Z) by lia.
    destruct (read_window_forward all_lines lines offset Hl0 Ho1)
      as (Hsel & Hstart & Htot).
    fold page n in Hsel, Hstart, Htot.
    assert (Hlen : length (selected_lines page)
                   = Nat.min (Z.to_nat n) (length all_lines - Z.to_nat offset)).
    { rewrite Hsel, length_take, length_drop. reflexivity. }
    rewrite Hend, Hcount, Hstart, Htot, Hlen.
    split; [unfold n in *; lia|]. split; [|split; [reflexivity|unfold n in *; lia]].
    rewrite Hsel, Nat2Z.id.
    destruct (Nat.le_gt_cases (Z.to_nat n) (length all_lines - Z.to_nat offset))
      as [Hfit|Hcut].
    + now rewrite Nat.min_l by exact Hfit.
    + rewrite Nat.min_r by lia.
      rewrite !take_ge; [reflexivity| |]; rewrite length_drop; lia.
Qed.

Lemma read_window_page_is_its_range_witness :
  let page := read_window ten_lines 4 8 in
  (0 <= lines_returned page <= Z.min 4 1000)%Z
  /\ selected_lines page
     = take (Z.to_nat (lines_returned page))
            (drop (Z.to_nat (start_line page)) ten_lines)
  /\ end_line page = (start_line page + lines_returned page)%Z
  /\ ((Z.max 8 0 <= total_lines page)%Z -> (end_line page <= total_lines page)%Z).
Proof. apply (read_window_page_is_its_range ten_lines 4 8). lia. Defined.

Lemma take_then_take {A : Type} (a b : nat) (l : list A) :
  take a l ++ take b (drop a l) = take (a + b) l.
Proof.
  revert l. induction a as [|a IH]; intros l; [reflexivity|].
  destruct l as [|x l]; [cbn [take drop Nat.add app]; apply take_nil|].
  cbn [take drop Nat.add app]. now rewrite IH.
Qed.

(** Two pages read one after the other, each of [lines] lines, are the one
    page of twice as many lines, as long as that stays within the cap of
    1000: paging forward loses and repeats nothing. *)
Theorem read_window_pages_tile (all_lines : list string) (lines offset : Z) :
  (1 <= offset)%Z -> (1 <= lines)%Z -> (2 * lines <= 1000)%Z ->
  selected_lines (read_window all_lines lines offset)
  ++ selected_lines (read_window all_lines lines (offset + lines))
  = selected_lines (read_window all_lines (2 * lines) offset).
Proof.
  intros Ho Hl Hcap.
  destruct (read_window_forward all_lines lines offset) as (-> & _); [lia|lia|].
  destruct (read_window_forward all_lines lines (offset + lines)) as (-> & _);
    [lia|lia|].
  destruct (read_window_forward all_lines (2 * lines) offset) as (-> & _);
    [lia|lia|].
  rewrite !Z.min_l by lia.
  replace (Z.to_nat (offset + lines)) with (Z.to_nat offset + Z.to_nat lines)%nat
    by lia.
  rewrite <- drop_drop.
  replace (Z.to_nat (2 * lines)) with (Z.to_nat lines + Z.to_nat lines)%nat by lia.
  apply take_then_take.
Qed.

Lemma read_window_pages_tile_witness :
  selected_lines (read_window ten_lines 3 2)
  ++ selected_lines (read_window ten_lines 3 (2 + 3))
  = selected_lines (read_window ten_lines (2 * 3) 2).
Proof. apply (read_window_pages_tile ten_lines 3 2); lia. Defined.

End MoreLogs.

(** ** Further properties: creating a backup *)

Section MoreCreateBackup.
Import PyStr PyNum Host UtilsIO BackupName Props MoreProps BackupsCreate.
Context `{Subprocess} (cfg : config).
#[local] Arguments String.append !_ _ / : simpl nomatch.

Lemma run_script_events (script : string) (args : list string) (timeout : Z)
    (m : machine) :
  events_since m (snd (run_script script args timeout m)) = []
  \/ events_since m (snd (run_script script args timeout m))
     = [Spawned (script :: args)].
Proof.
  unfold run_script, mbind, M_bind, os_path_exists.
  destruct (bool_decide (is_Some (fs (m_host m) !! script))); cbn [negb].
  - right. unfold subprocess_run.
    destruct (spawn (script :: args) timeout (m_host m)) as [o h'].
    cbn [snd]. apply events_since_app.
  - left. apply events_since_refl.
Qed.

Lemma newest_backups_reads (names : list string) (acc : list new_backup)
    (m : machine) :
  snd (newest_backups cfg names acc m) = m.
Proof.
  revert acc. induction names as [|filename names IH]; intros acc; [reflexivity|].
  cbn [newest_backups]. destruct (startswith filename "backup_"); [|apply IH].
  unfold mbind, M_bind. rewrite get_file_info_reads.
  destruct (fs (m_host m) !! OsPath.join (BACKUP_DIR cfg) filename);
    [destruct (parse_backup_filename filename)|]; apply IH.
Qed.

(** After its script, [run_backup] only reads. *)
Lemma run_backup_state (world : string) (m : machine) :
  snd (run_backup cfg world m)
  = snd (run_script (BACKUP_SCRIPT cfg)
           ("create" :: (if truthy world then [world] else [])) 60 m).
Proof.
  unfold run_backup. unfold mbind, M_bind at 1.
  destruct (run_script (BACKUP_SCRIPT cfg)
              ("create" :: (if truthy world then [world] else [])) 60 m)
    as [[[success stdout] stderr] m1].
  cbn [snd]. destruct success; [|reflexivity].
  unfold mbind, M_bind at 1. unfold os_path_exists at 1. cbn beta iota.
  destruct (bool_decide (is_Some (fs (m_host m1) !! BACKUP_DIR cfg))).
  - unfold mbind, M_bind at 1. unfold mbind, M_bind at 1.
    unfold os_listdir at 1. cbn beta iota.
    destruct (fs (m_host m1) !! BACKUP_DIR cfg) as [d|]; [|reflexivity].
    destruct (is_dir d); [|reflexivity].
    unfold mbind, M_bind at 1.
    match goal with
    | |- context [newest_backups cfg ?names [] m1] =>
        pose proof (newest_backups_reads names [] m1) as Hm;
        destruct (newest_backups cfg names [] m1) as [nb m2]
    end.
    cbn [snd] in *. now subst m2.
  - reflexivity.
Qed.

(** The only program a request for a backup can start is the backup script,
    with [create] alone or with [create] and one world name; that name is
    not empty, is made of the characters of [[A-Za-z0-9_-]] only, and is the
    name of a world file that was there when the request came. *)
Theorem create_backup_arguments_are_safe (req : request) (m : machine) :
  forall ev, In ev (events_since m (snd (create_backup cfg req m))) ->
    ev = Spawned [BACKUP_SCRIPT cfg; "create"]
    \/ exists world,
         ev = Spawned [BACKUP_SCRIPT cfg; "create"; world]
         /\ world <> ""
         /\ (forall c, In c (chars world) -> In c (chars name_alphabet))
         /\ is_Some (fs (m_host m) !! WorldsRoutes.world_path cfg world).
Proof.
  intros ev. unfold create_backup.
  assert (Hnone : forall r : response, In ev (events_since m (snd (r, m))) -> False).
  { intros r. cbn [snd]. now rewrite events_since_refl. }
  assert (Hall : In ev (events_since m (snd (run_backup cfg "" m))) ->
                 ev = Spawned [BACKUP_SCRIPT cfg; "create"]).
  { rewrite run_backup_state. cbn [truthy].
    destruct (run_script_events (BACKUP_SCRIPT cfg) ["create"] 60 m) as [->| ->].
    - intros [].
    - intros [<-|[]]. reflexivity. }
  destruct (match json_body req with
            | Some d => if json_truthy d then d else JObj []
            | None => JObj []
            end) as [| | | | | |fields];
    try (intros Hin; now apply Hnone in Hin).
  destruct (json_truthy (dict_get fields "world" (JStr ""))).
  2:{ intros Hin. left. now apply Hall. }
  destruct (dict_get fields "world" (JStr "")) as [| | | |w| |];
    try (intros Hin; now apply Hnone in Hin).
  unfold mbind, M_bind, os_path_exists.
  destruct (bool_decide (is_Some (fs (m_host m)
                                    !! WorldsRoutes.world_path cfg (sanitize w))))
    eqn:Efound; cbn [negb].
  2:{ intros Hin. now apply Hnone in Hin. }
  apply bool_decide_eq_true_1 in Efound.
  rewrite run_backup_state.
  destruct (sanitize w) as [|c rest] eqn:Ew.
  - cbn [truthy]. intros Hin. left.
    destruct (run_script_events (BACKUP_SCRIPT cfg) ["create"] 60 m) as [Hev|Hev];
      rewrite Hev in Hin.
    + destruct Hin.
    + destruct Hin as [<-|[]]. reflexivity.
  - cbn [truthy]. intros Hin. right. exists (String c rest).
    destruct (run_script_events (BACKUP_SCRIPT cfg) ["create"; String c rest] 60 m)
      as [Hev|Hev]; rewrite Hev in Hin.
    + destruct Hin.
    + destruct Hin as [<-|[]]. split; [reflexivity|]. split; [discriminate|].
      split; [|exact Efound].
      intros a Ha. rewrite <- Ew in Ha.
      apply name_class_alphabet. exact (sanitize_chars w a Ha).
Qed.

(** A backup asked for a world that has no world file is refused with
    status 404, the machine is as before and the script has not run. *)
Theorem create_backup_unknown_world (req : request)
    (fields : list (string * json)) (world : string) (m : machine) :
  json_body req = Some (JObj fields) ->
  dict_get fields "world" (JStr "") = JStr world ->
  world <> "" ->
  fs (m_host m) !! WorldsRoutes.world_path cfg (sanitize world) = None ->
  status (fst (create_backup cfg req m)) = 404%Z
  /\ snd (create_backup cfg req m) = m.
Proof.
  intros Hbody Hworld Hne Hnone. unfold create_backup. rewrite Hbody.
  assert (Hfields : json_truthy (JObj fields) = true).
  { destruct fields as [|f fields]; [|reflexivity].
    unfold dict_get in Hworld. simpl in Hworld. injection Hworld as <-.
    congruence. }
  rewrite Hfields, Hworld.
  assert (Htruthy : json_truthy (JStr world) = true).
  { destruct world; [congruence|reflexivity]. }
  rewrite Htruthy. unfold mbind, M_bind, os_path_exists. rewrite Hnone.
  rewrite bool_decide_eq_false_2 by (intros [? ?]; discriminate).
  now split.
Qed.

End MoreCreateBackup.

Section MoreCreateBackupExamples.
Import PyStr PyNum Host UtilsIO BackupName Props MoreProps BackupsCreate Scenario
  MoreScenario.

Lemma create_backup_arguments_are_safe_witness :
  Spawned ["/terraria/scripts/backup.sh"; "create"; "Alpha"]
  = Spawned [BACKUP_SCRIPT default_config; "create"]
  \/ exists world,
       Spawned ["/terraria/scripts/backup.sh"; "create"; "Alpha"]
       = Spawned [BACKUP_SCRIPT default_config; "create"; world]
       /\ world <> ""
       /\ (forall c, In c (chars world) -> In c (chars name_alphabet))
       /\ is_Some (fs (m_host (boot host_scripts))
                     !! WorldsRoutes.world_path default_config world).
Proof.
  apply (create_backup_arguments_are_safe (H := programs WritesAndFails)
           default_config (post [("world", JStr "Al;pha && $()|")])
           (boot host_scripts)).
  vm_compute. now left.
Defined.

Lemma create_backup_unknown_world_witness :
  status (fst (create_backup (H := programs WritesAndFails) default_config
                 (post [("world", JStr "Nowhere")]) (boot host_scripts))) = 404%Z
  /\ snd (create_backup (H := programs WritesAndFails) default_config
            (post [("world", JStr "Nowhere")]) (boot host_scripts))
     = boot host_scripts.
Proof.
  apply (create_backup_unknown_world (H := programs WritesAndFails) default_config
           (post [("world", JStr "Nowhere")]) [("world", JStr "Nowhere")]
           "Nowhere" (boot host_scripts)).
  - reflexivity.
  - reflexivity.
  - discriminate.
  - vm_compute. reflexivity.
Defined.

End MoreCreateBackupExamples.

(** ** Further properties: clearing a log *)

Section MoreClearLog.
Import PyStr PyNum Host UtilsIO HostWrite LogsRoutes LogsClear.
Context `{Clock} (cfg : config).
#[local] Arguments String.append !_ _ / : simpl nomatch.

Lemma lookup_log_none (log_type : string) (table : list (string * string)) :
  ~ In log_type (map fst table) -> lookup_log log_type table = None.
Proof.
  induction table as [|[k v] table IH]; intros Hnot; [reflexivity|].
  cbn [lookup_log]. cbn [map fst In] in Hnot.
  destruct (String.eqb_spec log_type k) as [->|_]; [tauto|].
  apply IH. tauto.
Qed.



(** A log is cleared only when its type is one of the five that may be
    cleared and the query says [confirm=true], in any letter case:
    otherwise the answer is 400 and the machine is as before.  The server,
    error and supervisor logs can be read but never cleared. *)
Theorem clear_log_refusals (log_type : string) (req : request) (m : machine) :
  ~ In log_type ["crash"; "crashes"; "backup"; "restore"; "world"]
  \/ lower (args_get req "confirm" "false") <> "true" ->
  status (fst (clear_log cfg log_type req m)) = 400%Z
  /\ snd (clear_log cfg log_type req m) = m.
Proof.
  intros Hor. unfold clear_log.
  destruct (lookup_log log_type clearable) as [filename|] eqn:Elook.
  - destruct Hor as [Hnot|Hconfirm].
    + apply (lookup_log_none log_type clearable) in Hnot. congruence.
    + apply String.eqb_neq in Hconfirm. rewrite Hconfirm. now split.
  - now split.
Qed.


End MoreClearLog.

Section MoreClearLogExamples.
Import PyStr PyNum Host UtilsIO HostWrite LogsRoutes LogsClear Scenario MoreScenario
  WriteScenario.

Lemma clear_log_refusals_witness :
  status (fst (clear_log (H := wall_clock) default_config "server"
                 (query [("confirm", "true")]) (boot host_logs))) = 400%Z
  /\ snd (clear_log (H := wall_clock) default_config "server"
            (query [("confirm", "true")]) (boot host_logs)) = boot host_logs.
Proof.
  apply (clear_log_refusals (H := wall_clock) default_config "server"
           (query [("confirm", "true")]) (boot host_logs)).
  left. cbn. intuition discriminate.
Defined.


End MoreClearLogExamples.

(** ** Further properties: copying a world *)

Section MoreCopyWorld.
Import PyStr PyNum Host UtilsIO HostWrite WorldsCopy.
Context `{Clock} (cfg : config).
#[local] Arguments String.append !_ _ / : simpl nomatch.

Lemma endswith_bak (x : string) : endswith (x +:+ ".bak") ".bak" = true.
Proof.
  unfold endswith. rewrite rev_string_app.
  change (rev_string ".bak") with "kab.". apply is_prefix_app_same.
Qed.

Lemma join_is_app (a b : string) : exists pre, OsPath.join a b = pre +:+ b.
Proof.
  unfold OsPath.join. destruct (startswith b "/").
  - now exists "".
  - destruct (String.eqb a "" || endswith a "/").
    + now exists a.
    + exists (a +:+ "/"). now rewrite string_app_assoc.
Qed.

Lemma basename_from_bak (s acc : string) :
  OsPath.basename_from (acc +:+ ".bak") (s +:+ ".bak")
  = OsPath.basename_from acc s +:+ ".bak".
Proof.
  revert acc. induction s as [|c s IH]; intros acc.
  - reflexivity.
  - cbn [String.append OsPath.basename_from].
    destruct (Ascii.eqb c "/"); apply IH.
Qed.

Lemma join_basename_bak (a s : string) :
  endswith (OsPath.join a (OsPath.basename (s +:+ ".bak"))) ".bak" = true.
Proof.
  unfold OsPath.basename. rewrite basename_from_bak.
  destruct (join_is_app a (OsPath.basename_from s s +:+ ".bak")) as [pre ->].
  rewrite <- string_app_assoc. apply endswith_bak.
Qed.


Lemma put_other (target : string) (copy : node) (m : machine) (p : string) :
  p <> target -> fs (m_host (put target copy m)) !! p = fs (m_host m) !! p.
Proof. intros Hne. unfold put. cbn [m_host fs]. now apply lookup_insert_ne. Qed.

(** What [shutil.copy2] can change: nothing, or the one path it writes. *)
Lemma shutil_copy2_state (src dst : string) (m : machine) :
  snd (shutil_copy2 src dst m) = m
  \/ exists copy,
       snd (shutil_copy2 src dst m)
       = put (match fs (m_host m) !! dst with
              | Some d => if is_dir d then OsPath.join dst (OsPath.basename src)
                          else dst
              | None => dst
              end) copy m.
Proof.
  unfold shutil_copy2.
  set (target := match fs (m_host m) !! dst with
                 | Some d => if is_dir d then OsPath.join dst (OsPath.basename src)
                             else dst
                 | None => dst
                 end).
  destruct (String.eqb src target && bool_decide (is_Some (fs (m_host m) !! src)));
    [now left|].
  destruct (fs (m_host m) !! src) as [s|]; [|now left].
  destruct (is_dir s); [now left|].
  destruct (fs (m_host m) !! target) as [t|].
  - destruct (is_dir t); [now left|]. right. now eexists.
  - destruct (parent_is_dir (fs (m_host m)) target); [|now left].
    right. now eexists.
Qed.

(** Copying a [.bak] companion touches no path that does not end in
    [.bak]. *)
Lemma shutil_copy2_bak_frame (src dst : string) (m : machine) (p : string) :
  endswith p ".bak" = false ->
  fs (m_host (snd (shutil_copy2 (src +:+ ".bak") (dst +:+ ".bak") m))) !! p
  = fs (m_host m) !! p.
Proof.
  intros Hp.
  destruct (shutil_copy2_state (src +:+ ".bak") (dst +:+ ".bak") m)
    as [->|[copy ->]]; [reflexivity|].
  apply put_other. intros ->.
  destruct (fs (m_host m) !! (dst +:+ ".bak")) as [d|].
  - destruct (is_dir d).
    + rewrite join_basename_bak in Hp. discriminate.
    + rewrite endswith_bak in Hp. discriminate.
  - rewrite endswith_bak in Hp. discriminate.
Qed.

Lemma shutil_copy2_trace (src dst : string) (m : machine) :
  m_trace (snd (shutil_copy2 src dst m)) = m_trace m
  /\ procs (m_host (snd (shutil_copy2 src dst m))) = procs (m_host m).
Proof.
  destruct (shutil_copy2_state src dst m) as [->|[copy ->]]; now split.
Qed.


(** After the first copy, [copy_files] touches no path that does not end in
    [.bak]. *)
Lemma copy_files_frame (name dest_name src dst : string) (m : machine)
    (p : string) :
  fs (m_host m) !! dst = None ->
  endswith p ".bak" = false -> p <> dst ->
  fs (m_host (snd (copy_files name dest_name src dst m))) !! p
  = fs (m_host m) !! p.
Proof.
  intros Hdst Hp Hne. unfold copy_files. unfold mbind, M_bind at 1.
  pose proof (shutil_copy2_state src dst m) as Hfirst. rewrite Hdst in Hfirst.
  destruct (shutil_copy2 src dst m) as [raised m1]. cbn [snd] in Hfirst.
  assert (Hm1 : fs (m_host m1) !! p = fs (m_host m) !! p).
  { destruct Hfirst as [->|[copy ->]]; [reflexivity|now apply put_other]. }
  destruct raised as [e|]; [exact Hm1|].
  unfold mbind, M_bind at 1. unfold os_path_exists at 1. cbn beta iota.
  unfold mbind, M_bind at 1.
  pose proof (shutil_copy2_bak_frame src dst m1 p Hp) as Hsecond.
  destruct (bool_decide (is_Some (fs (m_host m1) !! (src +:+ ".bak")))).
  - destruct (shutil_copy2 (src +:+ ".bak") (dst +:+ ".bak") m1) as [raised m2].
    cbn [snd] in Hsecond.
    destruct raised as [e|]; [cbn [mret M_ret snd]; congruence|].
    unfold mbind, M_bind. rewrite get_file_info_reads.
    destruct (fs (m_host m2) !! dst); cbn [mret M_ret snd]; congruence.
  - cbn [mret M_ret]. unfold mbind, M_bind. rewrite get_file_info_reads.
    destruct (fs (m_host m1) !! dst); cbn [mret M_ret snd]; congruence.
Qed.

Lemma copy_files_trace (name dest_name src dst : string) (m : machine) :
  m_trace (snd (copy_files name dest_name src dst m)) = m_trace m.
Proof.
  unfold copy_files. unfold mbind, M_bind at 1.
  pose proof (shutil_copy2_trace src dst m) as [Hfirst _].
  destruct (shutil_copy2 src dst m) as [raised m1]. cbn [snd] in Hfirst.
  destruct raised as [e|]; [exact Hfirst|].
  unfold mbind, M_bind at 1. unfold os_path_exists at 1. cbn beta iota.
  unfold mbind, M_bind at 1.
  pose proof (shutil_copy2_trace (src +:+ ".bak") (dst +:+ ".bak") m1)
    as [Hsecond _].
  destruct (bool_decide (is_Some (fs (m_host m1) !! (src +:+ ".bak")))).
  - destruct (shutil_copy2 (src +:+ ".bak") (dst +:+ ".bak") m1) as [raised m2].
    cbn [snd] in Hsecond.
    destruct raised as [e|]; [cbn [mret M_ret snd]; congruence|].
    unfold mbind, M_bind. rewrite get_file_info_reads.
    destruct (fs (m_host m2) !! dst); cbn [mret M_ret snd]; congruence.
  - cbn [mret M_ret]. unfold mbind, M_bind. rewrite get_file_info_reads.
    destruct (fs (m_host m1) !! dst); cbn [mret M_ret snd]; congruence.
Qed.

(** Either [copy_world] answers without touching the machine, or it goes on
    to copy to a destination that is free. *)
Lemma copy_world_cases (name : string) (req : request) (m : machine) :
  snd (copy_world cfg name req m) = m
  \/ exists destination,
       fs (m_host m) !! WorldsRoutes.world_path cfg (sanitize destination) = None
       /\ copy_world cfg name req m
          = copy_files (sanitize name) (sanitize destination)
              (WorldsRoutes.world_path cfg (sanitize name))
              (WorldsRoutes.world_path cfg (sanitize destination)) m.
Proof.
  remember (copy_world cfg name req m) as out eqn:Eout.
  unfold copy_world in Eout. unfold mbind in Eout. unfold M_bind in Eout at 1.
  unfold os_path_exists in Eout at 1. cbn beta iota in Eout.
  destruct (bool_decide (is_Some (fs (m_host m)
                                    !! WorldsRoutes.world_path cfg (sanitize name))));
    cbn [negb] in Eout; [|subst out; now left].
  destruct (json_body req) as [data|]; [|subst out; now left].
  destruct data as [| | | | | |fields];
    try (destruct (negb _); subst out; now left).
  destruct (negb (json_truthy (JObj fields))
            || negb (json_truthy (dict_get fields "destination" JNull)));
    [subst out; now left|].
  destruct (dict_get fields "destination" JNull) as [| | | |destination| |];
    try (subst out; now left).
  destruct (negb (truthy (sanitize destination))); [subst out; now left|].
  unfold mbind, M_bind, os_path_exists in Eout.
  destruct (fs (m_host m) !! WorldsRoutes.world_path cfg (sanitize destination))
    as [d|] eqn:Edst.
  - rewrite bool_decide_eq_true_2 in Eout by eauto. subst out. now left.
  - rewrite bool_decide_eq_false_2 in Eout by (intros [? ?]; discriminate).
    right. exists destination. split; [exact Edst|exact Eout].
Qed.

(** Copying a world never overwrites or removes a world: whatever the
    request, every path that was there and does not end in [.bak] holds
    afterwards what it held before, and no program has been started. *)
Theorem copy_world_never_overwrites (name : string) (req : request)
    (m : machine) (p : string) (n : node) :
  fs (m_host m) !! p = Some n ->
  endswith p ".bak" = false ->
  fs (m_host (snd (copy_world cfg name req m))) !! p = Some n
  /\ m_trace (snd (copy_world cfg name req m)) = m_trace m.
Proof.
  intros Hp Hbak.
  destruct (copy_world_cases name req m) as [->|[destination [Hfree ->]]];
    [now split|].
  split.
  - rewrite copy_files_frame; try assumption. intros ->. congruence.
  - apply copy_files_trace.
Qed.


End MoreCopyWorld.

Section MoreCopyWorldExamples.
Import PyStr PyNum Host UtilsIO HostWrite WorldsCopy Scenario MoreScenario
  WriteScenario.

Lemma copy_world_never_overwrites_witness :
  fs (m_host (snd (copy_world (H := wall_clock) default_config "Alpha"
                     (post [("destination", JStr "Beta")]) (boot host_with_bak))))
    !! "/terraria/worlds/Alpha.wld" = Some (regular 4194304 "")
  /\ m_trace (snd (copy_world (H := wall_clock) default_config "Alpha"
                     (post [("destination", JStr "Beta")]) (boot host_with_bak)))
     = m_trace (boot host_with_bak).
Proof.
  apply (copy_world_never_overwrites (H := wall_clock) default_config "Alpha"
           (post [("destination", JStr "Beta")]) (boot host_with_bak)
           "/terraria/worlds/Alpha.wld" (regular 4194304 "")).
  - vm_compute. reflexivity.
  - vm_compute. reflexivity.
Defined.


End MoreCopyWorldExamples.
